(** * ArxivExplorer: the caching and history layer of [server.py]

    A shallow embedding of the helper functions and tools of [server.py]
    ([save_paper], [get_paper], [save_search], [search_arxiv],
    [summarize_paper], [get_search_history], [get_saved_papers]) over an
    in-memory model of the two DynamoDB tables, together with the
    properties of that layer.

    The collaborators of the module (the DynamoDB tables, the Tavily client
    and the system clock) are not part of [server.py].  They are modelled by
    an [environment] that decides what each external call answers, and by a
    [world] holding the two tables and the trace of external calls made so
    far. *)

From stdpp Require Import base gmap list strings sorting.
From Stdlib Require Import ZArith Ascii.

Local Open Scope Z_scope.

(** ** Data *)

(** One entry of the list returned by [search_arxiv]: the dict
    [{"title": ..., "url": ...}] built at lines 157-160. *)
Record paper_data := PaperData { pd_title : string; pd_url : string }.

#[global] Instance paper_data_eq_dec : EqDecision paper_data.
Proof. solve_decision. Defined.

(** The attribute values this layer stores: [None] (the default [summary]),
    strings, and the list of results of a search.  A string is the UTF-8
    encoding of the Python [str].  The other value types of DynamoDB
    (numbers, booleans, binary values, sets, maps) are never written by
    this program and are not modelled. *)
Inductive attr :=
| ANone
| AStr (s : string)
| AList (l : list paper_data).

#[global] Instance attr_eq_dec : EqDecision attr.
Proof. solve_decision. Defined.

(** A DynamoDB item is a Python dict from attribute names to values; a table
    maps the value of its key attribute to the item. *)
Abbreviation item := (gmap string attr).
Abbreviation table := (gmap string item).

Inductive table_name := Papers | Searches.

#[global] Instance table_name_eq_dec : EqDecision table_name.
Proof. solve_decision. Defined.

(** Key schema of the two tables (lines 55-56 and 72-73). *)
Definition key_attr (t : table_name) : string :=
  match t with Papers => "url" | Searches => "search_id" end.

(** Python truthiness, as used by [if cached_paper], [.get('summary')] and
    [bool(...)]. *)
Definition truthy (a : attr) : bool :=
  match a with
  | ANone => false
  | AStr s => negb (String.eqb s "")
  | AList l => negb (bool_decide (l = []))
  end.

Definition dict_truthy (d : item) : bool := negb (bool_decide (d = ∅)).

(** ** Exceptions and results *)

Inductive exn :=
| ClientError (msg : string)
| ProviderError (msg : string)
| KeyError (key : string)
| TypeError.

Inductive result (A : Type) :=
| Ok (a : A)
| Raised (e : exn).
Arguments Ok {A} a.
Arguments Raised {A} e.

(** ** Clock readings *)

Record datetime := DateTime {
  year : N; month : N; day : N;
  hour : N; minute : N; second : N;
  microsecond : N
}.

Definition digit (n : N) : Ascii.ascii := Ascii.ascii_of_N (48 + n mod 10).

Fixpoint decimal_from (fuel : nat) (n : N) (acc : string) : string :=
  let acc' := String (digit n) acc in
  match fuel with
  | O => acc'
  | S fuel' => if (n / 10 =? 0)%N then acc' else decimal_from fuel' (n / 10) acc'
  end.

Definition decimal (n : N) : string := decimal_from (N.size_nat n) n "".

Fixpoint zeros (k : nat) : string :=
  match k with O => "" | S k' => String "0"%char (zeros k') end.

(** [%0wd]: decimal, left-padded with zeros to at least [width] digits. *)
Definition zfill (width : nat) (n : N) : string :=
  let s := decimal n in zeros (width - String.length s) +:+ s.

(** [strftime('%Y%m%d_%H%M%S')] (line 118): every field in decimal, padded
    with zeros to its width. *)
Definition strftime_Ymd_HMS (d : datetime) : string :=
  zfill 4 (year d) +:+ zfill 2 (month d) +:+ zfill 2 (day d) +:+ "_" +:+
  zfill 2 (hour d) +:+ zfill 2 (minute d) +:+ zfill 2 (second d).

(** [isoformat()]: the fraction is printed only when it is not zero. *)
Definition isoformat (d : datetime) : string :=
  zfill 4 (year d) +:+ "-" +:+ zfill 2 (month d) +:+ "-" +:+ zfill 2 (day d) +:+
  "T" +:+ zfill 2 (hour d) +:+ ":" +:+ zfill 2 (minute d) +:+ ":" +:+
  zfill 2 (second d) +:+
  (if (microsecond d =? 0)%N then "" else "." +:+ zfill 6 (microsecond d)).

(** ** The world and its environment *)

(** What the search provider answers: [resp.get("results", [])] reads the
    optional ["results"] entry; each result carries a title and a url. *)
Record tavily_result := TavilyResult { tr_title : string; tr_url : string }.
Record response := Response { resp_results : option (list tavily_result) }.

(** External calls, in the order the process makes them. *)
Inductive call :=
| CNow
| CPutItem (t : table_name) (i : item)
| CGetItem (t : table_name) (key : string)
| CUpdateItem (t : table_name) (key : string) (name : string) (v : attr)
| CScan (t : table_name) (limit : Z)
| CSearch (query : string) (max_results : Z)
| CQna (query : string).

Record world := World {
  papers_table : table;
  searches_table : table;
  trace : list call          (* most recent call first *)
}.

(** The environment answers the call made when [k] calls have already
    been made. *)
Record environment := Environment {
  clock : nat → datetime;
  store_fault : nat → option exn;
  scan_keys : nat → table → list string;
  tavily_search : nat → string → Z → result response;
  tavily_qna : nat → string → result string
}.

Definition get_table (t : table_name) (w : world) : table :=
  match t with Papers => papers_table w | Searches => searches_table w end.

Definition set_table (t : table_name) (tbl : table) (w : world) : world :=
  match t with
  | Papers => World tbl (searches_table w) (trace w)
  | Searches => World (papers_table w) tbl (trace w)
  end.

Definition logged (c : call) (w : world) : world :=
  World (papers_table w) (searches_table w) (c :: trace w).

(** ** The monad of the embedding: state and exceptions

    A raised exception keeps the state reached so far, as in Python. *)
Definition M (A : Type) : Type := world → result A * world.

Definition ret {A} (a : A) : M A := λ w, (Ok a, w).

Definition bind {A B} (m : M A) (k : A → M B) : M B :=
  λ w, match m w with
       | (Ok a, w') => k a w'
       | (Raised e, w') => (Raised e, w')
       end.

Definition try_except {A} (m : M A) (handler : exn → M A) : M A :=
  λ w, match m w with
       | (Ok a, w') => (Ok a, w')
       | (Raised e, w') => handler e w'
       end.

Notation "x <- m ;; k" := (bind m (λ x, k))
  (at level 100, m at next level, right associativity).
Notation "m ;; k" := (bind m (λ _, k))
  (at level 100, right associativity).

Module Store.
(** The table operations of boto3 that [server.py] calls, over [world]. *)
Section with_env.
Variable env : environment.

(** [Table.put_item(Item=...)]: full replace under the item's key. *)
Definition put_item (t : table_name) (i : item) : M unit := λ w,
  let w' := logged (CPutItem t i) w in
  match store_fault env (length (trace w)) with
  | Some e => (Raised e, w')
  | None =>
      match i !! key_attr t with
      | Some (AStr k) => (Ok tt, set_table t (<[k := i]> (get_table t w')) w')
      | _ => (Raised (ClientError "ValidationException"), w')
      end
  end.

(** [Table.get_item(Key=...)] followed by [response.get('Item')]. *)
Definition get_item (t : table_name) (key : string) : M (option item) := λ w,
  let w' := logged (CGetItem t key) w in
  match store_fault env (length (trace w)) with
  | Some e => (Raised e, w')
  | None => (Ok (get_table t w' !! key), w')
  end.

(** [Table.update_item(Key=..., UpdateExpression='SET name = :v')]:
    sets one attribute; DynamoDB creates the item, holding its key and
    that attribute, when the key is new. *)
Definition update_item (t : table_name) (key name : string) (v : attr) : M unit := λ w,
  let w' := logged (CUpdateItem t key name v) w in
  match store_fault env (length (trace w)) with
  | Some e => (Raised e, w')
  | None =>
      let old := default {[ key_attr t := AStr key ]} (get_table t w' !! key) in
      (Ok tt, set_table t (<[key := <[name := v]> old]> (get_table t w')) w')
  end.

(** The items a scan delivers: the environment picks the order in which
    keys are visited, the store reads them, [Limit] cuts the page.  A
    limit below 1 delivers nothing. *)
Definition scan_page (t : table_name) (limit : Z) (w : world) : list item :=
  take (Z.to_nat limit)
       (omap (λ k, get_table t w !! k) (scan_keys env (length (trace w)) (get_table t w))).

(** [Table.scan(Limit=...)] followed by [response.get('Items', [])]. *)
Definition scan (t : table_name) (limit : Z) : M (list item) := λ w,
  let w' := logged (CScan t limit) w in
  match store_fault env (length (trace w)) with
  | Some e => (Raised e, w')
  | None => (Ok (scan_page t limit w), w')
  end.

(** [datetime.now()]. *)
Definition datetime_now : M datetime := λ w,
  (Ok (clock env (length (trace w))), logged CNow w).

(** [tavily.search(query=..., max_results=...)]. *)
Definition search (query : string) (max_results : Z) : M response := λ w,
  (tavily_search env (length (trace w)) query max_results,
   logged (CSearch query max_results) w).

(** [tavily.qna_search(query=...)]. *)
Definition qna_search (query : string) : M string := λ w,
  (tavily_qna env (length (trace w)) query, logged (CQna query) w).
End with_env.
End Store.

(** ** Text

    A Python [str] is held as its UTF-8 encoding: [utf8 cp] is the encoding
    of the code point [cp]. *)
Definition utf8 (cp : N) : string :=
  if (cp <? 128)%N then
    String (ascii_of_N cp) ""
  else if (cp <? 2048)%N then
    String (ascii_of_N (192 + cp / 64))
      (String (ascii_of_N (128 + cp mod 64)) "")
  else if (cp <? 65536)%N then
    String (ascii_of_N (224 + cp / 4096))
      (String (ascii_of_N (128 + (cp / 64) mod 64))
         (String (ascii_of_N (128 + cp mod 64)) ""))
  else
    String (ascii_of_N (240 + cp / 262144))
      (String (ascii_of_N (128 + (cp / 4096) mod 64))
         (String (ascii_of_N (128 + (cp / 64) mod 64))
            (String (ascii_of_N (128 + cp mod 64)) ""))).

(** [len(s)] on a [str]: the number of code points, that is of bytes that
    do not continue a character. *)
Definition is_continuation (c : ascii) : bool :=
  let n := N_of_ascii c in ((128 <=? n) && (n <? 192))%N.

Fixpoint str_len (s : string) : nat :=
  match s with
  | String c s' => if is_continuation c then str_len s' else S (str_len s')
  | EmptyString => O
  end.

(** ** Pure helpers: exceptions without state *)

#[global] Instance result_ret : MRet result := λ A a, Ok a.

#[global] Instance result_bind : MBind result := λ A B f r,
  match r with Ok a => f a | Raised e => Raised e end.

(** Runs a computation that only raises or returns. *)
Definition lift {A} (r : result A) : M A := λ w, (r, w).

(** [d[k]]: raises [KeyError] on a missing key. *)
Definition getitem (d : item) (k : string) : result attr :=
  match d !! k with Some a => Ok a | None => Raised (KeyError k) end.

(** [d.get(k, dflt)]. *)
Definition dict_get (d : item) (k : string) (dflt : attr) : attr :=
  default dflt (d !! k).

(** [len(a)]: elements of a list, code points of a string. *)
Definition len (a : attr) : result nat :=
  match a with
  | AList l => Ok (length l)
  | AStr s => Ok (str_len s)
  | ANone => Raised TypeError
  end.

(** ** [str.strip()]

    The characters [strip] removes are those CPython's [Py_UNICODE_ISSPACE]
    accepts. *)
Definition whitespace_code_points : list N :=
  [9; 10; 11; 12; 13; 28; 29; 30; 31; 32; 133; 160; 5760;
   8192; 8193; 8194; 8195; 8196; 8197; 8198; 8199; 8200; 8201; 8202;
   8232; 8233; 8239; 8287; 12288]%N.

Definition whitespace_encodings : list string := utf8 <$> whitespace_code_points.

(** The bytes [b] are one whitespace character. *)
Definition is_whitespace (b : string) : bool :=
  existsb (String.eqb b) whitespace_encodings.
Arguments is_whitespace : simpl never.

(** A whitespace character takes one to three bytes. *)
Fixpoint lstrip (s : string) : string :=
  match s with
  | String c1 s1 =>
      if is_whitespace (String c1 "") then lstrip s1 else
      match s1 with
      | String c2 s2 =>
          if is_whitespace (String c1 (String c2 "")) then lstrip s2 else
          match s2 with
          | String c3 s3 =>
              if is_whitespace (String c1 (String c2 (String c3 "")))
              then lstrip s3 else s
          | EmptyString => s
          end
      | EmptyString => s
      end
  | EmptyString => EmptyString
  end.

(** Nothing but whitespace. *)
Definition blank (s : string) : bool :=
  match lstrip s with EmptyString => true | _ => false end.
Arguments blank : simpl never.

(** The text is cut where only whitespace follows. *)
Fixpoint rstrip (s : string) : string :=
  match s with
  | String c s' => if blank s then EmptyString else String c (rstrip s')
  | EmptyString => EmptyString
  end.

Definition strip (s : string) : string := rstrip (lstrip s).

(** ** [sorted(items, key=lambda x: x['timestamp'], reverse=True)] *)

(** [l1 < l2] on lists of dicts: the first pair of unequal elements decides,
    and dicts are not ordered. *)
Fixpoint list_lt (l1 l2 : list paper_data) : result bool :=
  match l1, l2 with
  | [], [] => Ok false
  | [], _ :: _ => Ok true
  | _ :: _, [] => Ok false
  | x :: l1', y :: l2' =>
      if decide (x = y) then list_lt l1' l2' else Raised TypeError
  end.

(** [a < b] on sort keys. *)
Definition attr_lt (a b : attr) : result bool :=
  match a, b with
  | AStr s, AStr t => Ok (String.ltb s t)
  | AList l1, AList l2 => list_lt l1 l2
  | _, _ => Raised TypeError
  end.

(** Stable insertion by decreasing key; [x] stood before every element of
    [l] in the input, so it stays ahead of the elements with an equal key. *)
Fixpoint insert_desc (x : attr * item) (l : list (attr * item))
  : result (list (attr * item)) :=
  match l with
  | [] => Ok [x]
  | y :: l' =>
      b ← attr_lt x.1 y.1;
      if b : bool then l'' ← insert_desc x l'; Ok (y :: l'')
      else Ok (x :: y :: l')
  end.

Fixpoint sort_desc (l : list (attr * item)) : result (list (attr * item)) :=
  match l with
  | [] => Ok []
  | x :: l' => s ← sort_desc l'; insert_desc x s
  end.

(** The keys are computed first, then the decorated list is sorted. *)
Definition sorted_by_timestamp_reverse (items : list item) : result (list item) :=
  keys ← mapM (λ i, getitem i "timestamp") items;
  s ← sort_desc (zip keys items);
  Ok (s.*2).

(** ** Views returned by the listing tools *)

Record search_view := SearchView {
  sv_search_id : attr;
  sv_query : attr;
  sv_timestamp : attr;
  sv_result_count : nat
}.

Record paper_view := PaperView {
  pv_title : attr;
  pv_url : attr;
  pv_has_summary : bool;
  pv_timestamp : attr
}.

(** The dict built per item at lines 217-222. *)
Definition search_view_of (i : item) : result search_view :=
  search_id ← getitem i "search_id";
  query ← getitem i "query";
  timestamp ← getitem i "timestamp";
  result_count ← len (dict_get i "results" (AList []));
  Ok (SearchView search_id query timestamp result_count).

(** The dict built per item at lines 237-242. *)
Definition paper_view_of (i : item) : result paper_view :=
  title ← getitem i "title";
  url ← getitem i "url";
  let has_summary := truthy (dict_get i "summary" ANone) in
  timestamp ← getitem i "timestamp";
  Ok (PaperView title url has_summary timestamp).

(** ** The functions of [server.py] *)

(** The [Item] dict of [save_paper] (lines 100-105). *)
Definition paper_item (url title : string) (summary : attr) (timestamp : string) : item :=
  {[ "url" := AStr url;
     "title" := AStr title;
     "summary" := summary;
     "timestamp" := AStr timestamp ]}.

(** The [Item] dict of [save_search] (lines 120-125). *)
Definition search_item (search_id query : string) (results : list paper_data)
    (timestamp : string) : item :=
  {[ "search_id" := AStr search_id;
     "query" := AStr query;
     "results" := AList results;
     "timestamp" := AStr timestamp ]}.

(** A [summary] argument, [None] when it is left out. *)
Definition summary_attr (summary : option string) : attr :=
  match summary with Some s => AStr s | None => ANone end.

Section server.
Variable env : environment.

(** Lines 97-106.  [summary] defaults to [None]. *)
Definition save_paper (title url : string) (summary : option string) : M unit :=
  now <- Store.datetime_now env ;;
  Store.put_item env Papers
    (paper_item url title (summary_attr summary) (isoformat now)).

(** Lines 108-114. *)
Definition get_paper (url : string) : M (option item) :=
  try_except (Store.get_item env Papers url) (λ _, ret None).

(** Lines 116-127. *)
Definition save_search (query : string) (results : list paper_data) : M string :=
  now1 <- Store.datetime_now env ;;
  let search_id := query +:+ "_" +:+ strftime_Ymd_HMS now1 in
  now2 <- Store.datetime_now env ;;
  Store.put_item env Searches
    (search_item search_id query results (isoformat now2)) ;;
  ret search_id.

(** The loop of lines 155-164, with the list [results] built so far. *)
Fixpoint search_loop (rs : list tavily_result) (results : list paper_data)
  : M (list paper_data) :=
  match rs with
  | [] => ret results
  | r :: rs' =>
      let paper := PaperData (strip (tr_title r)) (tr_url r) in
      let results := results ++ [paper] in
      save_paper (pd_title paper) (pd_url paper) None ;;
      search_loop rs' results
  end.

(** Lines 142-170. *)
Definition search_arxiv (query : string) (max_results : Z) : M (list paper_data) :=
  resp <- Store.search env ("site:arxiv.org " +:+ query) max_results ;;
  results <- search_loop (default [] (resp_results resp)) [] ;;
  search_id <- save_search query results ;;
  ret results.

(** [if cached_paper:] (line 191): neither [None] nor an empty dict. *)
Definition found (cached_paper : option item) : bool :=
  match cached_paper with Some p => dict_truthy p | None => false end.

(** [cached_paper and cached_paper.get('summary')] (line 182), when truthy. *)
Definition cached_summary (cached_paper : option item) : option attr :=
  match cached_paper with
  | Some p =>
      if dict_truthy p && truthy (dict_get p "summary" ANone)
      then p !! "summary" else None
  | None => None
  end.

(** Lines 190-199: the write that stores a fresh summary. *)
Definition attach_summary (cached_paper : option item) (paper_url summary : string)
  : M unit :=
  if found cached_paper
  then Store.update_item env Papers paper_url "summary" (AStr summary)
  else save_paper "Unknown Title" paper_url (Some summary).

(** Lines 173-202. *)
Definition summarize_paper (paper_url : string) : M attr :=
  cached_paper <- get_paper paper_url ;;
  match cached_summary cached_paper with
  | Some summary => ret summary
  | None =>
      let prompt :=
        "Summarize the key contributions of this ArXiv paper: " +:+ paper_url in
      summary <- Store.qna_search env prompt ;;
      attach_summary cached_paper paper_url summary ;;
      ret (AStr summary)
  end.

(** Lines 205-225. *)
Definition get_search_history (limit : Z) : M (list search_view) :=
  try_except
    (items <- Store.scan env Searches limit ;;
     sorted_items <- lift (sorted_by_timestamp_reverse items) ;;
     lift (mapM search_view_of sorted_items))
    (λ _, ret []).

(** Lines 228-245. *)
Definition get_saved_papers (limit : Z) : M (list paper_view) :=
  try_except
    (items <- Store.scan env Papers limit ;;
     lift (mapM paper_view_of items))
    (λ _, ret []).

End server.

(** ** Vocabulary of the properties *)

(** The store answers every call. *)
Definition store_available (env : environment) : Prop :=
  ∀ k, store_fault env k = None.

(** The projections the listing tools return for an item. *)
Definition results_count (i : item) : nat :=
  match dict_get i "results" (AList []) with
  | AList l => length l
  | AStr s => str_len s
  | ANone => 0%nat
  end.

Definition search_projection (i : item) : search_view :=
  SearchView (dict_get i "search_id" ANone) (dict_get i "query" ANone)
             (dict_get i "timestamp" ANone) (results_count i).

Definition paper_projection (i : item) : paper_view :=
  PaperView (dict_get i "title" ANone) (dict_get i "url" ANone)
            (truthy (dict_get i "summary" ANone)) (dict_get i "timestamp" ANone).

(** A summary that is present and not empty. *)
Definition nonempty_summary (i : item) : Prop :=
  ∃ a, i !! "summary" = Some a ∧ a ≠ ANone ∧ a ≠ AStr "" ∧ a ≠ AList [].

(** A Paper record stored under [key]: its key, a title and a timestamp. *)
Definition paper_record (key : string) (i : item) : Prop :=
  i !! "url" = Some (AStr key) ∧
  (∃ title, i !! "title" = Some (AStr title)) ∧
  (∃ ts, i !! "timestamp" = Some (AStr ts)).

Definition papers_inv (w : world) : Prop :=
  map_Forall paper_record (papers_table w).

(** The fields the projection of [get_saved_papers] reads with [item[...]]. *)
Definition has_paper_fields (i : item) : Prop :=
  is_Some (i !! "title") ∧ is_Some (i !! "url") ∧ is_Some (i !! "timestamp").

(** A Search record as [save_search] writes it. *)
Definition search_record (i : item) : Prop :=
  (∃ id, i !! "search_id" = Some (AStr id)) ∧
  (∃ q, i !! "query" = Some (AStr q)) ∧
  (∃ rs, i !! "results" = Some (AList rs)) ∧
  (∃ ts, i !! "timestamp" = Some (AStr ts)).

(** [a] is at least as recent as [b]. *)
Definition newer_or_same (a b : search_view) : Prop :=
  ∃ s t, sv_timestamp a = AStr s ∧ sv_timestamp b = AStr t ∧ String.le t s.

(** [a] is strictly more recent than [b]. *)
Definition strictly_newer (a b : search_view) : Prop :=
  ∃ s t, sv_timestamp a = AStr s ∧ sv_timestamp b = AStr t ∧ String.ltb t s = true.

(** The whitespace characters of Python, by code point. *)
Definition python_whitespace (cp : N) : Prop :=
  (9 ≤ cp ≤ 13 ∨ 28 ≤ cp ≤ 32 ∨ cp = 133 ∨ cp = 160 ∨ cp = 5760 ∨
   8192 ≤ cp ≤ 8202 ∨ cp = 8232 ∨ cp = 8233 ∨ cp = 8239 ∨ cp = 8287 ∨
   cp = 12288)%N.

(** Text made of whitespace characters only. *)
Inductive whitespace_text : string → Prop :=
| whitespace_nil : whitespace_text ""
| whitespace_cons cp s :
    python_whitespace cp → whitespace_text s → whitespace_text (utf8 cp +:+ s).

(** Text that neither starts nor ends with a whitespace character. *)
Definition trimmed (s : string) : Prop :=
  ∀ cp, python_whitespace cp →
        (∀ r, s ≠ utf8 cp +:+ r) ∧ (∀ r, s ≠ r +:+ utf8 cp).

(** The text left after one leading whitespace character, if there is one. *)
Definition leading (s : string) : option string :=
  match s with
  | String c1 s1 =>
      if is_whitespace (String c1 "") then Some s1 else
      match s1 with
      | String c2 s2 =>
          if is_whitespace (String c1 (String c2 "")) then Some s2 else
          match s2 with
          | String c3 s3 =>
              if is_whitespace (String c1 (String c2 (String c3 "")))
              then Some s3 else None
          | EmptyString => None
          end
      | EmptyString => None
      end
  | EmptyString => None
  end.

(** The same instant read at another sub-second offset. *)
Definition with_microsecond (d : datetime) (us : N) : datetime :=
  DateTime (year d) (month d) (day d) (hour d) (minute d) (second d) us.

(** The operations of the layer, and what a sequence of them does to a world;
    results and raised exceptions are dropped, the state is kept. *)
Inductive operation :=
| OpSavePaper (title url : string) (summary : option string)
| OpGetPaper (url : string)
| OpSaveSearch (query : string) (results : list paper_data)
| OpSearchArxiv (query : string) (max_results : Z)
| OpSummarizePaper (paper_url : string)
| OpGetSearchHistory (limit : Z)
| OpGetSavedPapers (limit : Z).

Definition run_op (env : environment) (o : operation) (w : world) : world :=
  match o with
  | OpSavePaper title url summary => (save_paper env title url summary w).2
  | OpGetPaper url => (get_paper env url w).2
  | OpSaveSearch query results => (save_search env query results w).2
  | OpSearchArxiv query max_results => (search_arxiv env query max_results w).2
  | OpSummarizePaper paper_url => (summarize_paper env paper_url w).2
  | OpGetSearchHistory limit => (get_search_history env limit w).2
  | OpGetSavedPapers limit => (get_saved_papers env limit w).2
  end.

Definition run_ops (env : environment) (ops : list operation) (w : world) : world :=
  foldl (λ w o, run_op env o w) w ops.

Definition empty_world : world := World ∅ ∅ [].

(** A sample environment: a store that answers, scans in the order of the
    key map, a clock that advances one second per call, and a provider with
    fixed answers. *)
Definition sample_env : environment := {|
  clock k := DateTime 2026 11 3 9 34 (N.of_nat k) 250;
  store_fault _ := None;
  scan_keys _ t := (map_to_list t).*1;
  tavily_search _ _ _ :=
    Ok (Response (Some [TavilyResult "  Paper A " "http://a";
                        TavilyResult "Paper B" "http://b"]));
  tavily_qna _ _ := Ok "A summary."
|}.

(** What [search_arxiv] makes of one provider result. *)
Definition trimmed_result (r : tavily_result) : paper_data :=
  PaperData (strip (tr_title r)) (tr_url r).

(** The Paper item written for a result at timestamp [ts]: no summary. *)
Definition cached_item (p : paper_data) (ts : string) : item :=
  paper_item (pd_url p) (pd_title p) ANone ts.

(** The timestamps of [m] consecutive [save_paper] calls, the first of which
    reads the clock when [pos] calls have been made. *)
Fixpoint paper_stamps (env : environment) (pos m : nat) : list string :=
  match m with
  | O => []
  | S m' => isoformat (clock env pos) :: paper_stamps env (pos + 2) m'
  end.

(** The calls, oldest first, of saving each paper in turn. *)
Definition paper_calls (ps : list paper_data) (stamps : list string) : list call :=
  mjoin (zip_with (λ p ts, [CNow; CPutItem Papers (cached_item p ts)]) ps stamps).

(** The Papers table after saving each paper in turn. *)
Definition papers_after (ps : list paper_data) (stamps : list string) (tbl : table)
  : table :=
  foldl (λ tbl pt, <[pd_url pt.1 := cached_item pt.1 pt.2]> tbl) tbl (zip ps stamps).

(** Order on the decorated list that [sorted] works on: by decreasing key. *)
Definition key_ge (x y : attr * item) : Prop :=
  ∃ s t, x.1 = AStr s ∧ y.1 = AStr t ∧ String.le t s.

(** The pair of a timestamp and its item is well formed. *)
Definition decorated (x : attr * item) : Prop :=
  ∃ ts, x.1 = AStr ts ∧ x.2 !! "timestamp" = Some (AStr ts).

(** An environment that scans the keys in a fixed order. *)
Definition scanning_env (keys : list string) : environment := {|
  clock := clock sample_env;
  store_fault _ := None;
  scan_keys _ _ := keys;
  tavily_search := tavily_search sample_env;
  tavily_qna := tavily_qna sample_env
|}.

(** Two searches, the second one later than the first. *)
Definition early_search : item :=
  search_item "a_20260101_000000" "a" [] "2026-01-01T00:00:00".

Definition late_search : item :=
  search_item "b_20260202_000000" "b" [PaperData "T" "http://t"] "2026-02-02T00:00:00".

Definition two_searches : world :=
  World ∅ (<["a_20260101_000000" := early_search]>
             (<["b_20260202_000000" := late_search]> ∅)) [].

(** An environment whose store refuses every call. *)
Definition failing_env : environment := {|
  clock := clock sample_env;
  store_fault _ := Some (ClientError "ServiceUnavailable");
  scan_keys := scan_keys sample_env;
  tavily_search := tavily_search sample_env;
  tavily_qna := tavily_qna sample_env
|}.

(** A computation keeps the invariant of the Papers table, whether it
    returns or raises. *)
Definition preserves {A} (m : M A) : Prop :=
  ∀ w, papers_inv w → papers_inv (m w).2.

(** The reading of "the timestamp is that of the last write": when going
    from [w] to [w'] changed the record of [u], its timestamp is a clock
    reading taken in between. *)
Definition stamped_by_write (env : environment) (w w' : world) (u : string) : Prop :=
  papers_table w' !! u ≠ papers_table w !! u →
  ∃ p k, papers_table w' !! u = Some p ∧
         (length (trace w) ≤ k < length (trace w'))%nat ∧
         p !! "timestamp" = Some (AStr (isoformat (clock env k))).

(** A world holding one paper saved in 2020, without a summary. *)
Definition stale_world : world :=
  World {[ "http://a" := paper_item "http://a" "Paper A" ANone "2020-01-01T00:00:00" ]}
        ∅ [].

(** ** Vocabulary of the further properties *)

(** The prompt of line 187. *)
Definition summary_prompt (paper_url : string) : string :=
  "Summarize the key contributions of this ArXiv paper: " +:+ paper_url.

(** The prompt template of lines 250-258. *)
Definition explore_topic_prompt (topic : string) : string :=
  "I want to explore recent work on '" +:+ topic +:+ "'.
1. Call 'Search Arxiv' to find the 5 most recent papers.
2. For each paper URL, call 'Summarize Paper' to extract key contributions.
3. Use 'Get Search History' to see if we've explored similar topics.
4. Combine all information into a comprehensive overview report.".

(** An environment whose provider refuses every call. *)
Definition provider_down_env : environment := {|
  clock := clock sample_env;
  store_fault := store_fault sample_env;
  scan_keys := scan_keys sample_env;
  tavily_search _ _ _ := Raised (ProviderError "unreachable");
  tavily_qna _ _ := Raised (ProviderError "unreachable")
|}.

(** An environment whose store refuses the call made at position [k] only. *)
Definition flaky_env (k : nat) : environment := {|
  clock := clock sample_env;
  store_fault j := if decide (j = k) then Some (ClientError "Throttled") else None;
  scan_keys := scan_keys sample_env;
  tavily_search := tavily_search sample_env;
  tavily_qna := tavily_qna sample_env
|}.

(** An environment whose provider answers the empty string. *)
Definition silent_env : environment := {|
  clock := clock sample_env;
  store_fault := store_fault sample_env;
  scan_keys := scan_keys sample_env;
  tavily_search := tavily_search sample_env;
  tavily_qna _ _ := Ok ""
|}.

(** An environment whose clock stands still. *)
Definition frozen_env : environment := {|
  clock _ := DateTime 2026 11 3 9 34 0 0;
  store_fault := store_fault sample_env;
  scan_keys := scan_keys sample_env;
  tavily_search := tavily_search sample_env;
  tavily_qna := tavily_qna sample_env
|}.

(** A world holding one paper with a stored summary. *)
Definition summarized_world : world :=
  World {[ "http://a" := paper_item "http://a" "Paper A" (AStr "Known.")
                           "2020-01-01T00:00:00" ]}
        ∅ [].

(** A computation keeps a property of the world, whether it returns or
    raises. *)
Definition keeps {A} (I : world → Prop) (m : M A) : Prop :=
  ∀ w, I w → I (m w).2.

(** Every record of the Searches table is a Search record stored under its
    own identifier. *)
Definition searches_inv (w : world) : Prop :=
  map_Forall (λ k i, i !! "search_id" = Some (AStr k) ∧ search_record i)
             (searches_table w).

(** A record the projection of [get_search_history] accepts: identifier and
    query present, a string timestamp, and results that have a length:
    absent (the default is the empty list), a list or a string. *)
Definition listable_search (i : item) : Prop :=
  is_Some (i !! "search_id") ∧ is_Some (i !! "query") ∧
  (∃ ts, i !! "timestamp" = Some (AStr ts)) ∧
  i !! "results" ≠ Some ANone.

(** A search record whose timestamp was lost, and a paper without title. *)
Definition search_without_timestamp : item :=
  {[ "search_id" := AStr "c_20260303_000000"; "query" := AStr "c" ]}.

Definition paper_without_title : item :=
  {[ "url" := AStr "http://x"; "timestamp" := AStr "2026-03-03T00:00:00" ]}.

Definition broken_world : world :=
  World (<["http://x" := paper_without_title]>
           (<["http://a" := paper_item "http://a" "Paper A" ANone "2020-01-01T00:00:00"]> ∅))
        (<["c_20260303_000000" := search_without_timestamp]>
           (<["a_20260101_000000" := early_search]> ∅))
        [].

(** A search stored without its results. *)
Definition search_without_results : item :=
  {[ "search_id" := AStr "d_20260404_000000"; "query" := AStr "d";
     "timestamp" := AStr "2026-04-04T00:00:00" ]}.

(** An environment whose provider returns the same url twice. *)
Definition duplicate_env : environment := {|
  clock := clock sample_env;
  store_fault := store_fault sample_env;
  scan_keys := scan_keys sample_env;
  tavily_search _ _ _ :=
    Ok (Response (Some [TavilyResult "Draft" "http://a";
                        TavilyResult "Paper B" "http://b";
                        TavilyResult "Final" "http://a"]));
  tavily_qna := tavily_qna sample_env
|}.

(** A world whose searches include one stored without its results. *)
Definition partial_world : world :=
  World ∅ (<["d_20260404_000000" := search_without_results]>
             (<["a_20260101_000000" := early_search]> ∅)) [].

(** Two searches written at the same instant as [early_search]. *)
Definition tied_search (id : string) : item :=
  search_item id "t" [] "2026-01-01T00:00:00".

Definition tied_world : world :=
  World ∅ (<["t1" := tied_search "t1"]>
             (<["b_20260202_000000" := late_search]>
                (<["t2" := tied_search "t2"]> ∅))) [].

(** The entries of a history with a given timestamp, in their order. *)
Definition with_timestamp (ts : attr) (out : list search_view) : list search_view :=
  filter (λ v, sv_timestamp v = ts) out.

(** Table [t] holds a record under [key]. *)
Definition has_key (t : table_name) (key : string) (w : world) : Prop :=
  is_Some (get_table t w !! key).

(** A Paper item read attribute by attribute: it holds these four
    attributes and no other. *)
Definition paper_fields (i : item) (url title : string) (summary : attr)
    (timestamp : string) : Prop :=
  i !! "url" = Some (AStr url) ∧
  i !! "title" = Some (AStr title) ∧
  i !! "summary" = Some summary ∧
  i !! "timestamp" = Some (AStr timestamp) ∧
  ∀ k, k ∉ ["url"; "title"; "summary"; "timestamp"] → i !! k = None.

(** A Search item read attribute by attribute. *)
Definition search_fields (i : item) (search_id query : string)
    (results : list paper_data) (timestamp : string) : Prop :=
  i !! "search_id" = Some (AStr search_id) ∧
  i !! "query" = Some (AStr query) ∧
  i !! "results" = Some (AList results) ∧
  i !! "timestamp" = Some (AStr timestamp) ∧
  ∀ k, k ∉ ["search_id"; "query"; "results"; "timestamp"] → i !! k = None.

(** A reading of the clock: a date of four-digit year and a time of day. *)
Definition clock_reading (d : datetime) : Prop :=
  (1000 ≤ year d ≤ 9999 ∧ 1 ≤ month d ≤ 12 ∧ 1 ≤ day d ≤ 31 ∧
   hour d ≤ 23 ∧ minute d ≤ 59 ∧ second d ≤ 59)%N.

(** The decimal digits of a number below 100, and of one below 10000. *)
Definition two_digits (n : N) : string :=
  String (ascii_of_N (48 + n / 10)) (String (ascii_of_N (48 + n mod 10)) "").

Definition four_digits (n : N) : string :=
  String (ascii_of_N (48 + n / 1000))
    (String (ascii_of_N (48 + (n / 100) mod 10))
       (String (ascii_of_N (48 + (n / 10) mod 10))
          (String (ascii_of_N (48 + n mod 10)) ""))).

(** A reading written to the second as [YYYYMMDD_HHMMSS]. *)
Definition second_stamp (d : datetime) : string :=
  four_digits (year d) +:+ two_digits (month d) +:+ two_digits (day d) +:+ "_" +:+
  two_digits (hour d) +:+ two_digits (minute d) +:+ two_digits (second d).

(** Two readings taken in the same second. *)
Definition same_second (d1 d2 : datetime) : Prop :=
  year d1 = year d2 ∧ month d1 = month d2 ∧ day d1 = day d2 ∧
  hour d1 = hour d2 ∧ minute d1 = minute d2 ∧ second d1 = second d2.

(** A search record whose result list may be missing. *)
Definition search_with_optional_results (i : item) : Prop :=
  is_Some (i !! "search_id") ∧ is_Some (i !! "query") ∧
  (∃ ts, i !! "timestamp" = Some (AStr ts)) ∧
  (i !! "results" = None ∨ ∃ rs, i !! "results" = Some (AList rs)).

(** An environment whose provider pads a title with a no-break space, an em
    space and a line feed. *)
Definition unicode_env : environment := {|
  clock := clock sample_env;
  store_fault := store_fault sample_env;
  scan_keys := scan_keys sample_env;
  tavily_search _ _ _ :=
    Ok (Response (Some [TavilyResult (utf8 160 +:+ "Paper A" +:+ utf8 8195 +:+ utf8 10)
                          "http://a"]));
  tavily_qna := tavily_qna sample_env
|}.

(** * Properties *)

(** ** The model on concrete inputs *)

Example strip_example :
  strip "  Paper A
 " = "Paper A" ∧ strip "a b" = "a b" ∧ strip "   " = "" ∧
  strip (utf8 160 +:+ "Paper A" +:+ utf8 8195 +:+ utf8 10) = "Paper A" ∧
  strip (utf8 233 +:+ " t " +:+ utf8 233 +:+ utf8 12288) = utf8 233 +:+ " t " +:+ utf8 233.
Proof. by vm_compute. Qed.

Example utf8_example :
  utf8 65 = "A" ∧ utf8 233 = "é" ∧ utf8 8364 = "€" ∧ utf8 128512 = "😀" ∧
  utf8 160 = String (ascii_of_N 194) (String (ascii_of_N 160) "") ∧
  utf8 8195 = String (ascii_of_N 226) (String (ascii_of_N 128) (String (ascii_of_N 131) "")).
Proof. by vm_compute. Qed.

Example str_len_example :
  str_len "hello" = 5%nat ∧ str_len ("h" +:+ utf8 233 +:+ "llo") = 5%nat ∧
  String.length ("h" +:+ utf8 233 +:+ "llo") = 6%nat ∧
  str_len (utf8 8364 +:+ utf8 128512) = 2%nat.
Proof. by vm_compute. Qed.

Example decimal_example :
  decimal 0 = "0" ∧ decimal 2026 = "2026" ∧ decimal 999999 = "999999" ∧
  zfill 2 7 = "07" ∧ zfill 6 250 = "000250".
Proof. by vm_compute. Qed.

Example isoformat_example :
  isoformat (DateTime 2026 11 3 9 34 5 250) = "2026-11-03T09:34:05.000250" ∧
  isoformat (DateTime 2026 11 3 9 34 5 0) = "2026-11-03T09:34:05" ∧
  strftime_Ymd_HMS (DateTime 2026 11 3 9 34 5 250) = "20261103_093405".
Proof. by vm_compute. Qed.

Example sorted_example :
  sorted_by_timestamp_reverse [early_search; late_search; early_search]
  = Ok [late_search; early_search; early_search].
Proof. vm_compute. reflexivity. Qed.

(** A search that returns two results, then the history limited to one
    entry. *)
Example search_then_history :
  let r := search_arxiv sample_env "neural pruning" 2 empty_world in
  r.1 = Ok [PaperData "Paper A" "http://a"; PaperData "Paper B" "http://b"] ∧
  (get_search_history sample_env 1 r.2).1
  = Ok [SearchView (AStr "neural pruning_20261103_093405") (AStr "neural pruning")
                   (AStr "2026-11-03T09:34:06.000250") 2].
Proof. by vm_compute. Qed.

(** ** Stepping lemmas for the store *)

Lemma put_item_ok env t i k w :
  store_fault env (length (trace w)) = None →
  i !! key_attr t = Some (AStr k) →
  Store.put_item env t i w =
    (Ok tt, set_table t (<[k := i]> (get_table t w)) (logged (CPutItem t i) w)).
Proof.
  intros Hf Hk. unfold Store.put_item. rewrite Hf, Hk.
  by destruct t.
Qed.

Lemma paper_item_lookup url title summary ts :
  paper_item url title summary ts !! "url" = Some (AStr url) ∧
  paper_item url title summary ts !! "title" = Some (AStr title) ∧
  paper_item url title summary ts !! "summary" = Some summary ∧
  paper_item url title summary ts !! "timestamp" = Some (AStr ts).
Proof. unfold paper_item. by simplify_map_eq. Qed.

Lemma search_item_lookup id q rs ts :
  search_item id q rs ts !! "search_id" = Some (AStr id) ∧
  search_item id q rs ts !! "query" = Some (AStr q) ∧
  search_item id q rs ts !! "results" = Some (AList rs) ∧
  search_item id q rs ts !! "timestamp" = Some (AStr ts).
Proof. unfold search_item. by simplify_map_eq. Qed.

Lemma paper_item_fields url title summary ts :
  paper_fields (paper_item url title summary ts) url title summary ts.
Proof.
  destruct (paper_item_lookup url title summary ts) as (Hu & Ht & Hs & Hts).
  split_and!; [done..|].
  intros k Hk. rewrite !not_elem_of_cons in Hk. destruct Hk as (? & ? & ? & ? & _).
  unfold paper_item. rewrite !lookup_insert_ne by done. by apply lookup_singleton_ne.
Qed.

Lemma search_item_fields id q rs ts :
  search_fields (search_item id q rs ts) id q rs ts.
Proof.
  destruct (search_item_lookup id q rs ts) as (Hi & Hq & Hr & Hts).
  split_and!; [done..|].
  intros k Hk. rewrite !not_elem_of_cons in Hk. destruct Hk as (? & ? & ? & ? & _).
  unfold search_item. rewrite !lookup_insert_ne by done. by apply lookup_singleton_ne.
Qed.

Lemma save_paper_ok env title url summary w :
  store_fault env (S (length (trace w))) = None →
  let i := paper_item url title (summary_attr summary)
                      (isoformat (clock env (length (trace w)))) in
  save_paper env title url summary w =
    (Ok tt, World (<[url := i]> (papers_table w)) (searches_table w)
                  (CPutItem Papers i :: CNow :: trace w)).
Proof.
  intros Hf i. unfold save_paper, bind, Store.datetime_now.
  rewrite (put_item_ok _ _ _ url); [done | done |].
  apply paper_item_lookup.
Qed.

Lemma get_item_ok env t key w :
  store_fault env (length (trace w)) = None →
  Store.get_item env t key w = (Ok (get_table t w !! key), logged (CGetItem t key) w).
Proof. intros Hf. unfold Store.get_item. rewrite Hf. by destruct t. Qed.

Lemma get_paper_ok env url w :
  store_fault env (length (trace w)) = None →
  get_paper env url w = (Ok (papers_table w !! url), logged (CGetItem Papers url) w).
Proof.
  intros Hf. unfold get_paper, try_except. by rewrite get_item_ok.
Qed.

(** A failed read is reported as absence (lines 113-114). *)
Lemma get_paper_fault env url w e :
  store_fault env (length (trace w)) = Some e →
  get_paper env url w = (Ok None, logged (CGetItem Papers url) w).
Proof.
  intros Hf. unfold get_paper, try_except, Store.get_item. by rewrite Hf.
Qed.

(** ** [save_paper] and [get_paper] *)

(** C1.  With the store answering, [save_paper t2 u] without a summary after
    [save_paper t1 u s] replaces the whole record: the first call stores
    title [t1] and summary [s], and after the second call [get_paper u]
    returns exactly the item of the second call, with title [t2], the
    summary [None] and the timestamp of the second write.  Nothing of the
    first record, its summary included, is merged into it. *)
Theorem save_paper_full_replace env w u t1 t2 s :
  store_available env →
  let n := length (trace w) in
  let w1 := (save_paper env t1 u (Some s) w).2 in
  let w2 := (save_paper env t2 u None w1).2 in
  papers_table w1 !! u = Some (paper_item u t1 (AStr s) (isoformat (clock env n))) ∧
  (get_paper env u w2).1 =
    Ok (Some (paper_item u t2 ANone (isoformat (clock env (n + 2))))) ∧
  ∀ p, (get_paper env u w2).1 = Ok (Some p) →
       p !! "title" = Some (AStr t2) ∧ p !! "summary" = Some ANone ∧
       truthy (dict_get p "summary" ANone) = false.
Proof.
  intros Hav n w1 w2.
  assert (Hw1 : w1 = World (<[u := paper_item u t1 (AStr s) (isoformat (clock env n))]>
                              (papers_table w)) (searches_table w)
                           (CPutItem Papers (paper_item u t1 (AStr s) (isoformat (clock env n)))
                              :: CNow :: trace w)).
  { unfold w1. by rewrite save_paper_ok. }
  assert (Hw2 : papers_table w2 !! u
                = Some (paper_item u t2 ANone (isoformat (clock env (n + 2))))).
  { unfold w2. rewrite save_paper_ok by done. simpl.
    rewrite lookup_insert_eq. rewrite Hw1. simpl.
    by replace (S (S (length (trace w)))) with (n + 2)%nat by (unfold n; lia). }
  assert (Hget : (get_paper env u w2).1
                 = Ok (Some (paper_item u t2 ANone (isoformat (clock env (n + 2)))))).
  { rewrite get_paper_ok by done. simpl. by rewrite Hw2. }
  split_and!.
  - rewrite Hw1. simpl. by rewrite lookup_insert_eq.
  - done.
  - intros p Hp. rewrite Hget in Hp. injection Hp as <-.
    unfold dict_get.
    destruct (paper_item_lookup u t2 ANone (isoformat (clock env (n + 2))))
      as (_ & Ht & Hs & _).
    by rewrite Ht, Hs.
Qed.

Lemma save_paper_full_replace_witness :
  store_available sample_env ∧
  (get_paper sample_env "http://a"
     (save_paper sample_env "Second" "http://a" None
        (save_paper sample_env "First" "http://a" (Some "kept?") empty_world).2).2).1
  = Ok (Some (paper_item "http://a" "Second" ANone "2026-11-03T09:34:02.000250")).
Proof.
  split; [by intros k |].
  exact (proj1 (proj2 (save_paper_full_replace sample_env empty_world
                         "http://a" "First" "Second" "kept?" (λ k, eq_refl)))).
Defined.

(** ** [summarize_paper]: the cache *)

Lemma get_paper_cases env url w :
  ∃ c, get_paper env url w = (Ok c, logged (CGetItem Papers url) w) ∧
       (c = papers_table w !! url ∨ c = None).
Proof.
  destruct (store_fault env (length (trace w))) as [e|] eqn:Hf.
  - exists None. split; [by eapply get_paper_fault | by right].
  - exists (papers_table w !! url). split; [by apply get_paper_ok | by left].
Qed.

Lemma cached_summary_Some c a :
  cached_summary c = Some a ↔
  ∃ p, c = Some p ∧ p !! "summary" = Some a ∧ truthy a = true.
Proof.
  unfold cached_summary, dict_get, dict_truthy. split.
  - destruct c as [p|]; [|done].
    destruct (p !! "summary") as [a'|] eqn:Hs; simpl.
    + destruct (truthy a') eqn:Ht; rewrite ?andb_false_r; [|done].
      destruct (negb _); [|done]. intros [= ->]. eauto.
    + by rewrite andb_false_r.
  - intros (p & -> & Hs & Ht). rewrite Hs. simpl. rewrite Ht, andb_true_r.
    rewrite bool_decide_false; [done |].
    intros ->. by rewrite lookup_empty in Hs.
Qed.

Lemma truthy_AStr s : truthy (AStr s) = true ↔ s ≠ "".
Proof.
  simpl. rewrite negb_true_iff. split.
  - intros H ->. by rewrite String.eqb_refl in H.
  - intros H. by apply String.eqb_neq.
Qed.

Lemma summarize_paper_hit env w u p a :
  store_fault env (length (trace w)) = None →
  papers_table w !! u = Some p →
  p !! "summary" = Some a →
  truthy a = true →
  summarize_paper env u w = (Ok a, logged (CGetItem Papers u) w).
Proof.
  intros Hf Hp Hs Ht. unfold summarize_paper, bind.
  rewrite get_paper_ok, Hp by done.
  assert (cached_summary (Some p) = Some a) as ->; [|done].
  apply cached_summary_Some. eauto.
Qed.

(** A call that returns leaves its result stored as the summary of the
    record, whichever path it took. *)
Lemma summarize_paper_stores env w u a w1 :
  summarize_paper env u w = (Ok a, w1) →
  ∃ p, papers_table w1 !! u = Some p ∧ p !! "summary" = Some a.
Proof.
  unfold summarize_paper, bind.
  destruct (get_paper_cases env u w) as (c & -> & Hc).
  destruct (cached_summary c) as [a'|] eqn:Hcs.
  - intros [= -> <-]. apply cached_summary_Some in Hcs as (p & -> & Hs & _).
    destruct Hc as [Hc|]; [|done]. exists p. simpl. by rewrite <-Hc.
  - unfold Store.qna_search. destruct (tavily_qna _ _ _) as [s|e]; [|done].
    unfold attach_summary.
    destruct (found c).
    + unfold Store.update_item.
      destruct (store_fault _ _); [done|]. intros [= <- <-]. simpl.
      rewrite lookup_insert_eq. eexists. split; [done|].
      by rewrite lookup_insert_eq.
    + unfold save_paper, bind, Store.datetime_now, Store.put_item.
      destruct (store_fault _ _); [done|].
      destruct (paper_item_lookup u "Unknown Title" (summary_attr (Some s))
                  (isoformat (clock env (length (trace
                     (logged (CQna ("Summarize the key contributions of this ArXiv paper: " +:+ u))
                        (logged (CGetItem Papers u) w)))))))
        as (Hu & _ & Hs & _).
      simpl in *. rewrite Hu. intros [= <- <-]. simpl.
      rewrite lookup_insert_eq. eauto.
Qed.

(** C2.  When the record stored for [u] has a non-empty summary [s] and the
    store answers the lookup, [summarize_paper u] returns [s]; the only call
    it makes is that lookup, so the question-answering provider is not called
    and neither table is written.  In particular, after a call that returned
    a non-empty summary, a second call returns it again with the lookup as
    its only call. *)
Theorem summarize_paper_cache_hit env u :
  (∀ w p s,
     store_fault env (length (trace w)) = None →
     papers_table w !! u = Some p →
     p !! "summary" = Some (AStr s) → s ≠ "" →
     summarize_paper env u w = (Ok (AStr s), logged (CGetItem Papers u) w)) ∧
  (∀ w s w1,
     summarize_paper env u w = (Ok (AStr s), w1) → s ≠ "" →
     store_fault env (length (trace w1)) = None →
     summarize_paper env u w1 = (Ok (AStr s), logged (CGetItem Papers u) w1)).
Proof.
  split.
  - intros w p s Hf Hp Hs Hne.
    eapply summarize_paper_hit; eauto. by apply truthy_AStr.
  - intros w s w1 Hrun Hne Hf.
    apply summarize_paper_stores in Hrun as (p & Hp & Hs).
    eapply summarize_paper_hit; eauto. by apply truthy_AStr.
Qed.

Lemma summarize_paper_cache_hit_witness :
  let w := (summarize_paper sample_env "http://a" empty_world).2 in
  store_fault sample_env (length (trace w)) = None ∧
  summarize_paper sample_env "http://a" w
  = (Ok (AStr "A summary."), logged (CGetItem Papers "http://a") w).
Proof.
  intros w. split; [reflexivity |].
  apply (proj2 (summarize_paper_cache_hit sample_env "http://a")
           empty_world "A summary." w).
  - reflexivity.
  - discriminate.
  - reflexivity.
Defined.

(** ** [summarize_paper]: storing a fresh summary *)

Lemma update_item_ok env t key name v w :
  store_fault env (length (trace w)) = None →
  Store.update_item env t key name v w =
    (Ok tt,
     set_table t
       (<[key := <[name := v]> (default {[ key_attr t := AStr key ]} (get_table t w !! key))]>
          (get_table t w))
       (logged (CUpdateItem t key name v) w)).
Proof. intros Hf. unfold Store.update_item. rewrite Hf. by destruct t. Qed.

Lemma found_Some p : found (Some p) = true ↔ p ≠ ∅.
Proof.
  unfold found, dict_truthy. rewrite negb_true_iff, bool_decide_eq_false. done.
Qed.

(** On a miss the provider is asked and its answer is attached. *)
Lemma summarize_paper_miss env w u s :
  store_fault env (length (trace w)) = None →
  cached_summary (papers_table w !! u) = None →
  tavily_qna env (S (length (trace w)))
    ("Summarize the key contributions of this ArXiv paper: " +:+ u) = Ok s →
  let prompt := "Summarize the key contributions of this ArXiv paper: " +:+ u in
  let r := attach_summary env (papers_table w !! u) u s
             (logged (CQna prompt) (logged (CGetItem Papers u) w)) in
  summarize_paper env u w =
    (match r.1 with Ok _ => Ok (AStr s) | Raised e => Raised e end, r.2).
Proof.
  intros Hf Hc Hq prompt r. unfold summarize_paper, bind.
  rewrite get_paper_ok, Hc by done.
  unfold Store.qna_search. simpl. rewrite Hq. fold prompt. fold r.
  by destruct r as [[[]|e] w'].
Qed.

(** C3.  With the store answering, attaching summary [s] to the record found
    for [u] rewrites that record with only its [summary] set to [s]: the
    title and every other attribute keep their values, and the other records
    and the searches are untouched.  When no record is found it stores a new
    record under [u] whose attributes are the url [u], the title
    "Unknown Title", the summary [s] and the time of this write, and no
    other.  [summarize_paper] performs exactly this write after a lookup that
    gave no usable summary and a provider call that answered [s]. *)
Theorem attach_summary_frame env w u s :
  store_available env →
  (∀ p, papers_table w !! u = Some p → p ≠ ∅ →
     ∃ w', attach_summary env (Some p) u s w = (Ok tt, w') ∧
           papers_table w' = <[u := <["summary" := AStr s]> p]> (papers_table w) ∧
           searches_table w' = searches_table w ∧
           ∃ p', papers_table w' !! u = Some p' ∧
                 p' !! "summary" = Some (AStr s) ∧
                 p' !! "title" = p !! "title" ∧
                 ∀ name, name ≠ "summary" → p' !! name = p !! name) ∧
  (∃ w' p', attach_summary env None u s w = (Ok tt, w') ∧
            papers_table w' = <[u := p']> (papers_table w) ∧
            searches_table w' = searches_table w ∧
            p' !! "url" = Some (AStr u) ∧
            p' !! "title" = Some (AStr "Unknown Title") ∧
            p' !! "summary" = Some (AStr s) ∧
            p' !! "timestamp" = Some (AStr (isoformat (clock env (length (trace w))))) ∧
            ∀ k, k ∉ ["url"; "title"; "summary"; "timestamp"] → p' !! k = None) ∧
  (∀ w0, cached_summary (papers_table w0 !! u) = None →
         tavily_qna env (S (length (trace w0)))
           ("Summarize the key contributions of this ArXiv paper: " +:+ u) = Ok s →
         w = logged (CQna ("Summarize the key contributions of this ArXiv paper: " +:+ u))
               (logged (CGetItem Papers u) w0) →
         ∃ w', attach_summary env (papers_table w0 !! u) u s w = (Ok tt, w') ∧
               summarize_paper env u w0 = (Ok (AStr s), w')).
Proof.
  intros Hav.
  assert (Hnone : ∃ w' p', attach_summary env None u s w = (Ok tt, w') ∧
            papers_table w' = <[u := p']> (papers_table w) ∧
            searches_table w' = searches_table w ∧
            paper_fields p' u "Unknown Title" (AStr s)
              (isoformat (clock env (length (trace w))))).
  { unfold attach_summary. simpl. rewrite save_paper_ok by done.
    eexists _, _. split_and!; [done..|]. apply paper_item_fields. }
  assert (Hsome : ∀ p, papers_table w !! u = Some p → p ≠ ∅ →
     ∃ w', attach_summary env (Some p) u s w = (Ok tt, w') ∧
           papers_table w' = <[u := <["summary" := AStr s]> p]> (papers_table w) ∧
           searches_table w' = searches_table w ∧
           ∃ p', papers_table w' !! u = Some p' ∧
                 p' !! "summary" = Some (AStr s) ∧
                 p' !! "title" = p !! "title" ∧
                 ∀ name, name ≠ "summary" → p' !! name = p !! name).
  { intros p Hp Hne. unfold attach_summary.
    apply found_Some in Hne as ->.
    rewrite update_item_ok by done. simpl. rewrite Hp. simpl.
    eexists. split_and!; [done..|].
    eexists. simpl. rewrite lookup_insert_eq. split_and!; [done|..].
    - by rewrite lookup_insert_eq.
    - by rewrite lookup_insert_ne.
    - intros name Hn. by rewrite lookup_insert_ne. }
  split_and!; [done| |].
  { destruct Hnone as (w' & p' & Hrun & Htbl & Hs & Hf). exists w', p'.
    destruct Hf as (? & ? & ? & ? & ?). by split_and!. }
  intros w0 Hc Hq ->.
  rewrite (summarize_paper_miss env w0 u s) by done.
  destruct (papers_table w0 !! u) as [p|] eqn:Hp.
  - destruct (decide (p = ∅)) as [->|Hne].
    + destruct Hnone as (w' & p' & Hrun & _). unfold attach_summary in *.
      assert (found (Some (∅ : item)) = false) as ->.
      { unfold found, dict_truthy. by rewrite bool_decide_true. }
      change (found None) with false in Hrun. rewrite Hrun. eauto.
    + destruct (Hsome p) as (w' & Hrun & _); [done..|]. rewrite Hrun. eauto.
  - destruct Hnone as (w' & p' & Hrun & _). rewrite Hrun. eauto.
Qed.

Lemma attach_summary_frame_witness :
  let w := (save_paper sample_env "Paper A" "http://a" None empty_world).2 in
  let p := paper_item "http://a" "Paper A" ANone "2026-11-03T09:34:00.000250" in
  store_available sample_env ∧ papers_table w !! "http://a" = Some p ∧ p ≠ ∅ ∧
  (∃ w' p', attach_summary sample_env (Some p) "http://a" "S" w = (Ok tt, w') ∧
            papers_table w' !! "http://a" = Some p' ∧
            p' !! "title" = Some (AStr "Paper A") ∧
            p' !! "summary" = Some (AStr "S")) ∧
  (∃ w' p', attach_summary sample_env None "http://c" "S" w = (Ok tt, w') ∧
            papers_table w' !! "http://c" = Some p' ∧
            p' !! "title" = Some (AStr "Unknown Title") ∧
            p' !! "summary" = Some (AStr "S")).
Proof.
  intros w p.
  assert (Hav : store_available sample_env) by (by intros k).
  assert (Hp : papers_table w !! "http://a" = Some p) by reflexivity.
  assert (Hne : p ≠ ∅).
  { intros H. apply (f_equal (λ m : item, m !! "url")) in H. vm_compute in H.
    discriminate. }
  split_and!; [done..| |].
  - destruct (proj1 (attach_summary_frame sample_env w "http://a" "S" Hav) p Hp Hne)
      as (w' & Hrun & _ & _ & p' & Hp' & Hs & Ht & _).
    exists w', p'. split_and!; [done..| |done]. rewrite Ht. reflexivity.
  - destruct (proj1 (proj2 (attach_summary_frame sample_env w "http://c" "S" Hav)))
      as (w' & p' & Hrun & Htbl & _ & _ & Ht & Hs & _).
    exists w', p'. split_and!; [done| |done..].
    rewrite Htbl. by rewrite lookup_insert_eq.
Defined.

(** ** [strip] *)

Lemma string_app_cons c s t : String c s +:+ t = String c (s +:+ t).
Proof. reflexivity. Qed.

Lemma string_app_nil_l s : "" +:+ s = s.
Proof. reflexivity. Qed.

Lemma string_app_nil_r s : s +:+ "" = s.
Proof. induction s as [|c s IH]; [done|]. by rewrite string_app_cons, IH. Qed.

Lemma string_app_assoc s t u : (s +:+ t) +:+ u = s +:+ (t +:+ u).
Proof. induction s as [|c s IH]; [done|]. by rewrite !string_app_cons, IH. Qed.

Lemma python_whitespace_table cp :
  python_whitespace cp ↔ cp ∈ whitespace_code_points.
Proof.
  unfold python_whitespace, whitespace_code_points. split.
  - intros H.
    assert (cp = 9 ∨ cp = 10 ∨ cp = 11 ∨ cp = 12 ∨ cp = 13 ∨ cp = 28 ∨ cp = 29 ∨
            cp = 30 ∨ cp = 31 ∨ cp = 32 ∨ cp = 133 ∨ cp = 160 ∨ cp = 5760 ∨
            cp = 8192 ∨ cp = 8193 ∨ cp = 8194 ∨ cp = 8195 ∨ cp = 8196 ∨
            cp = 8197 ∨ cp = 8198 ∨ cp = 8199 ∨ cp = 8200 ∨ cp = 8201 ∨
            cp = 8202 ∨ cp = 8232 ∨ cp = 8233 ∨ cp = 8239 ∨ cp = 8287 ∨
            cp = 12288)%N as Hc by lia.
    rewrite !elem_of_cons. tauto.
  - rewrite !elem_of_cons, elem_of_nil. intros H. lia.
Qed.

Lemma is_whitespace_true b :
  is_whitespace b = true ↔ ∃ cp, python_whitespace cp ∧ b = utf8 cp.
Proof.
  unfold is_whitespace, whitespace_encodings. rewrite existsb_exists. split.
  - intros (e & He & Heq). apply String.eqb_eq in Heq as <-.
    apply list_elem_of_In, list_elem_of_fmap in He as (cp & -> & Hcp).
    exists cp. by rewrite python_whitespace_table.
  - intros (cp & Hcp & ->). exists (utf8 cp). split; [|apply String.eqb_refl].
    apply list_elem_of_In, list_elem_of_fmap. exists cp.
    by rewrite <-python_whitespace_table.
Qed.

Lemma lstrip_unfold s :
  lstrip s = match leading s with Some r => lstrip r | None => s end.
Proof.
  destruct s as [|c1 [|c2 [|c3 s3]]]; [done|..];
    change (lstrip (String c1 ?t)) with
      (if is_whitespace (String c1 "") then lstrip t else
         match t with
         | String c2 s2 =>
             if is_whitespace (String c1 (String c2 "")) then lstrip s2 else
             match s2 with
             | String c3 s3 =>
                 if is_whitespace (String c1 (String c2 (String c3 "")))
                 then lstrip s3 else String c1 t
             | EmptyString => String c1 t
             end
         | EmptyString => String c1 t
         end);
    unfold leading; repeat (destruct (is_whitespace _); try reflexivity).
Qed.

Lemma leading_Some s r :
  leading s = Some r →
  ∃ cp, python_whitespace cp ∧ s = utf8 cp +:+ r ∧
        (String.length r < String.length s)%nat.
Proof.
  destruct s as [|c1 s1]; simpl; [done|].
  destruct (is_whitespace (String c1 "")) eqn:H1.
  { intros [= <-]. apply is_whitespace_true in H1 as (cp & Hcp & H1).
    exists cp. rewrite <-H1. split_and!; [done | done | simpl; lia]. }
  destruct s1 as [|c2 s2]; [done|].
  destruct (is_whitespace (String c1 (String c2 ""))) eqn:H2.
  { intros [= <-]. apply is_whitespace_true in H2 as (cp & Hcp & H2).
    exists cp. rewrite <-H2. split_and!; [done | done | simpl; lia]. }
  destruct s2 as [|c3 s3]; [done|].
  destruct (is_whitespace (String c1 (String c2 (String c3 "")))) eqn:H3; [|done].
  intros [= <-]. apply is_whitespace_true in H3 as (cp & Hcp & H3).
  exists cp. rewrite <-H3. split_and!; [done | done | simpl; lia].
Qed.

Lemma leading_whitespace cp r :
  python_whitespace cp → leading (utf8 cp +:+ r) = Some r.
Proof.
  rewrite python_whitespace_table. unfold whitespace_code_points.
  rewrite !elem_of_cons, elem_of_nil. intros H.
  repeat (destruct H as [->|H]; [vm_compute; reflexivity|]). done.
Qed.

Lemma lstrip_spec s :
  ∃ pre, s = pre +:+ lstrip s ∧ whitespace_text pre ∧ leading (lstrip s) = None.
Proof.
  remember (String.length s) as n eqn:Hn. revert s Hn.
  induction n as [n IH] using lt_wf_ind. intros s ->.
  rewrite lstrip_unfold. destruct (leading s) as [r|] eqn:Hl.
  - apply leading_Some in Hl as (cp & Hcp & -> & Hlen).
    destruct (IH _ Hlen r eq_refl) as (pre & Hr & Hpre & Hnone).
    exists (utf8 cp +:+ pre). split_and!; [|by constructor|done].
    by rewrite string_app_assoc, <-Hr.
  - exists "". split_and!; [done | constructor | done].
Qed.

Lemma whitespace_text_lstrip s : whitespace_text s → lstrip s = "".
Proof.
  induction 1 as [|cp s Hcp _ IH]; [done|].
  by rewrite lstrip_unfold, leading_whitespace.
Qed.

Lemma leading_None s cp r :
  leading s = None → python_whitespace cp → s ≠ utf8 cp +:+ r.
Proof. intros Hl Hcp ->. by rewrite leading_whitespace in Hl. Qed.

Lemma blank_true s : blank s = true ↔ whitespace_text s.
Proof.
  unfold blank. split.
  - destruct (lstrip_spec s) as (pre & Hs & Hpre & _).
    destruct (lstrip s); [|done]. intros _.
    by rewrite Hs, string_app_nil_r.
  - intros H. by rewrite (whitespace_text_lstrip s H).
Qed.

Lemma utf8_cons cp : ∃ c s, utf8 cp = String c s.
Proof. unfold utf8. repeat case_match; eauto. Qed.

Lemma rstrip_spec s :
  ∃ post, s = rstrip s +:+ post ∧ whitespace_text post ∧
          ∀ cp r, python_whitespace cp → rstrip s ≠ r +:+ utf8 cp.
Proof.
  induction s as [|c s IH].
  - exists "". split_and!; [done | constructor |].
    intros cp r _ H. destruct (utf8_cons cp) as (c & u & Hu). rewrite Hu in H.
    by destruct r.
  - simpl. destruct (blank (String c s)) eqn:Hb.
    + exists (String c s). split_and!; [done | by apply blank_true |].
      intros cp r _ H. destruct (utf8_cons cp) as (c' & u & Hu). rewrite Hu in H.
      by destruct r.
    + destruct IH as (post & Hs & Hpost & Hend).
      exists post. split_and!; [by rewrite string_app_cons, <-Hs | done |].
      intros cp [|c' r] Hcp H.
      * rewrite string_app_nil_l in H.
        assert (whitespace_text (String c s)) as Hw%blank_true; [|congruence].
        rewrite Hs, <-string_app_cons, H. by constructor.
      * rewrite string_app_cons in H. injection H as -> H. by eapply Hend.
Qed.

Lemma strip_spec s :
  trimmed (strip s) ∧
  ∃ pre post, s = pre +:+ strip s +:+ post ∧
              whitespace_text pre ∧ whitespace_text post.
Proof.
  unfold strip.
  destruct (lstrip_spec s) as (pre & Hs & Hpre & Hnone).
  destruct (rstrip_spec (lstrip s)) as (post & Hl & Hpost & Hend).
  split.
  - intros cp Hcp. split; intros r H.
    + apply (leading_None (lstrip s) cp (r +:+ post) Hnone Hcp).
      by rewrite Hl, H, string_app_assoc.
    + by apply (Hend cp r).
  - exists pre, post. split_and!; [|done..]. by rewrite <-Hl.
Qed.

(** ** [save_search] and [search_arxiv] *)

Lemma save_search_ok env query results w :
  store_fault env (S (S (length (trace w)))) = None →
  let id := query +:+ "_" +:+ strftime_Ymd_HMS (clock env (length (trace w))) in
  let i := search_item id query results (isoformat (clock env (S (length (trace w))))) in
  save_search env query results w =
    (Ok id, World (papers_table w) (<[id := i]> (searches_table w))
                  (CPutItem Searches i :: CNow :: CNow :: trace w)).
Proof.
  intros Hf id i. unfold save_search, bind, Store.datetime_now.
  rewrite (put_item_ok _ _ _ id); [done | done |].
  apply search_item_lookup.
Qed.

Lemma search_loop_ok env rs : ∀ acc w,
  store_available env →
  let ps := trimmed_result <$> rs in
  let stamps := paper_stamps env (length (trace w)) (length rs) in
  search_loop env rs acc w =
    (Ok (acc ++ ps),
     World (papers_after ps stamps (papers_table w)) (searches_table w)
           (rev (paper_calls ps stamps) ++ trace w)).
Proof.
  induction rs as [|r rs IH]; intros acc w Hav; simpl.
  - unfold ret. rewrite app_nil_r. by destruct w.
  - unfold bind. rewrite save_paper_ok by done. rewrite IH by done. simpl.
    replace (S (S (length (trace w)))) with (length (trace w) + 2)%nat by lia.
    rewrite <-app_assoc. simpl. f_equal. f_equal.
    unfold paper_calls. simpl. by rewrite <-!app_assoc.
Qed.

Lemma paper_stamps_length env pos m : length (paper_stamps env pos m) = m.
Proof. revert pos. induction m as [|m IH]; intros pos; simpl; [done|]. by rewrite IH. Qed.

Lemma paper_stamps_lookup env m : ∀ pos i,
  (i < m)%nat →
  paper_stamps env pos m !! i = Some (isoformat (clock env (pos + 2 * i))).
Proof.
  induction m as [|m IH]; intros pos i Hi; [lia|].
  destruct i as [|i]; simpl.
  - by rewrite Nat.add_0_r.
  - rewrite IH by lia. do 3 f_equal. lia.
Qed.

Lemma paper_calls_length ps stamps :
  length ps = length stamps → length (paper_calls ps stamps) = (2 * length ps)%nat.
Proof.
  revert stamps. induction ps as [|p ps IH]; intros [|ts stamps] Hlen;
    simplify_eq/=; [done|].
  unfold paper_calls in *. simpl. rewrite IH by done. lia.
Qed.

(** After the loop, the url of each result holds a record without summary,
    and no other record has changed. *)
Lemma papers_after_lookup ps : ∀ stamps tbl u,
  length stamps = length ps →
  (u ∈ pd_url <$> ps →
   ∃ p ts, p ∈ ps ∧ pd_url p = u ∧
           papers_after ps stamps tbl !! u = Some (cached_item p ts)) ∧
  (u ∉ pd_url <$> ps → papers_after ps stamps tbl !! u = tbl !! u).
Proof.
  induction ps as [|p ps IH]; intros [|ts stamps] tbl u Hlen; simplify_eq/=.
  - split; [by intros ?%elem_of_nil | done].
  - unfold papers_after in *. simpl.
    destruct (IH stamps (<[pd_url p := cached_item p ts]> tbl) u Hlen) as [Hin Hout].
    split.
    + intros Hu. destruct (decide (u ∈ pd_url <$> ps)) as [Htl|Htl].
      * destruct (Hin Htl) as (q & tq & Hq & Hqu & Hlook).
        exists q, tq. split; [by right | done].
      * apply elem_of_cons in Hu as [->|Hu]; [|done].
        exists p, ts. split; [by left|]. split; [done|].
        rewrite Hout by done. simpl. by rewrite lookup_insert_eq.
    + intros Hu. apply not_elem_of_cons in Hu as [Hne Hu].
      rewrite Hout by done. by rewrite lookup_insert_ne.
Qed.

Lemma paper_calls_items ps : ∀ stamps i,
  CPutItem Papers i ∈ paper_calls ps stamps →
  ∃ p ts, p ∈ ps ∧ i = cached_item p ts.
Proof.
  induction ps as [|p ps IH]; intros [|ts stamps] i; unfold paper_calls; simpl;
    try by intros ?%elem_of_nil.
  rewrite !elem_of_cons. intros [H|[[= ->]|H]]; [done| |].
  - exists p, ts. split; [by left | done].
  - destruct (IH stamps i H) as (q & tq & Hq & ->).
    exists q, tq. split; [by right | done].
Qed.

(** C4.  When the provider answers [resp] and the store answers every call,
    [search_arxiv query max_results] returns the results of [resp] in order,
    each with its url unchanged and its title stripped: the title of the
    provider is that title between two runs of whitespace characters, and
    the title returned neither starts nor ends with one.  Its calls are, in
    order: the provider search scoped to arxiv.org; for each result a clock
    reading and the write of a Paper item whose attributes are the url, the
    stripped title, the summary [None] and that reading; then two clock
    readings and the write of one Search item whose attributes are the
    identifier, the query, the whole result list and the second reading.
    The tables end up with exactly these writes applied: the url of every
    result holds such a record without summary, the other Paper records are
    unchanged. *)
Theorem search_arxiv_caches env w query max_results resp :
  store_available env →
  tavily_search env (length (trace w)) ("site:arxiv.org " +:+ query) max_results
    = Ok resp →
  let rs := default [] (resp_results resp) in
  let results := trimmed_result <$> rs in
  let n := length (trace w) in
  let m := length results in
  let stamps := paper_stamps env (S n) m in
  let id := query +:+ "_" +:+ strftime_Ymd_HMS (clock env (S n + 2 * m)) in
  let si := search_item id query results (isoformat (clock env (S (S n + 2 * m)))) in
  search_arxiv env query max_results w =
    (Ok results,
     World (papers_after results stamps (papers_table w))
           (<[id := si]> (searches_table w))
           (rev (CSearch ("site:arxiv.org " +:+ query) max_results
                   :: paper_calls results stamps
                   ++ [CNow; CNow; CPutItem Searches si])
              ++ trace w)) ∧
  Forall2 (λ r p, pd_url p = tr_url r ∧ trimmed (pd_title p) ∧
                  ∃ pre post, tr_title r = pre +:+ pd_title p +:+ post ∧
                              whitespace_text pre ∧ whitespace_text post)
          rs results ∧
  (∀ i, CPutItem Papers i ∈ paper_calls results stamps →
        ∃ p ts, p ∈ results ∧
                i !! "url" = Some (AStr (pd_url p)) ∧
                i !! "title" = Some (AStr (pd_title p)) ∧
                i !! "summary" = Some ANone ∧
                i !! "timestamp" = Some (AStr ts) ∧
                ∀ k, k ∉ ["url"; "title"; "summary"; "timestamp"] → i !! k = None) ∧
  (si !! "search_id" = Some (AStr id) ∧
   si !! "query" = Some (AStr query) ∧
   si !! "results" = Some (AList results) ∧
   si !! "timestamp" = Some (AStr (isoformat (clock env (S (S n + 2 * m))))) ∧
   ∀ k, k ∉ ["search_id"; "query"; "results"; "timestamp"] → si !! k = None) ∧
  (∀ p, p ∈ results →
        ∃ q ts i, q ∈ results ∧ pd_url q = pd_url p ∧
                  papers_after results stamps (papers_table w) !! pd_url p = Some i ∧
                  i !! "url" = Some (AStr (pd_url p)) ∧
                  i !! "title" = Some (AStr (pd_title q)) ∧
                  i !! "summary" = Some ANone ∧
                  i !! "timestamp" = Some (AStr ts)) ∧
  (∀ u, u ∉ pd_url <$> results →
        papers_after results stamps (papers_table w) !! u = papers_table w !! u).
Proof.
  intros Hav Hresp rs results n m stamps id si.
  assert (Hstamps : length stamps = length results).
  { unfold stamps. by rewrite paper_stamps_length. }
  split_and!.
  - unfold search_arxiv, bind, Store.search. rewrite Hresp.
    rewrite search_loop_ok by done. fold rs. fold results. simpl.
    assert (Hm : length rs = m) by (unfold m, results; by rewrite length_fmap).
    rewrite Hm. fold n. fold stamps.
    assert (Hlen : length (rev (paper_calls results stamps) ++ CSearch
                     ("site:arxiv.org " +:+ query) max_results :: trace w)
                   = (S n + 2 * m)%nat).
    { rewrite length_app, length_rev, paper_calls_length; simpl.
      - fold n. fold m. lia.
      - done. }
    rewrite save_search_ok; simpl; rewrite !Hlen; [|done].
    fold id. fold si. unfold ret. f_equal. f_equal.
    rewrite rev_app_distr. simpl. by rewrite <-!app_assoc.
  - unfold results. clear. induction rs as [|r rs IH]; simpl; constructor; [|done].
    simpl. split; [done|]. apply strip_spec.
  - intros i Hi. destruct (paper_calls_items results stamps i Hi) as (p & ts & Hp & ->).
    exists p, ts. split; [done|].
    exact (paper_item_fields (pd_url p) (pd_title p) ANone ts).
  - apply search_item_fields.
  - apply search_item_fields.
  - apply search_item_fields.
  - apply search_item_fields.
  - apply search_item_fields.
  - intros p Hp.
    destruct (papers_after_lookup results stamps (papers_table w) (pd_url p) Hstamps)
      as [Hin _].
    destruct Hin as (q & ts & Hq & Hqu & Hlook).
    { apply list_elem_of_fmap. eauto. }
    destruct (paper_item_fields (pd_url q) (pd_title q) ANone ts)
      as (Hfu & Hft & Hfs & Hfts & _).
    exists q, ts, (cached_item q ts).
    split_and!; [done | done | done | by rewrite <-Hqu | done..].
  - intros u Hu.
    by apply (papers_after_lookup results stamps (papers_table w) u Hstamps).
Qed.

Lemma search_arxiv_caches_witness :
  store_available sample_env ∧ store_available unicode_env ∧
  (search_arxiv sample_env "pruning" 2 empty_world).1
  = Ok [PaperData "Paper A" "http://a"; PaperData "Paper B" "http://b"] ∧
  (search_arxiv unicode_env "pruning" 2 empty_world).1
  = Ok [PaperData "Paper A" "http://a"].
Proof.
  split; [by intros k |]. split; [by intros k |]. split.
  - exact (f_equal fst
             (proj1 (search_arxiv_caches sample_env empty_world "pruning" 2
                       (Response (Some [TavilyResult "  Paper A " "http://a";
                                        TavilyResult "Paper B" "http://b"]))
                       (λ k, eq_refl) eq_refl))).
  - rewrite (proj1 (search_arxiv_caches unicode_env empty_world "pruning" 2
                      (Response (Some [TavilyResult
                                         (utf8 160 +:+ "Paper A" +:+ utf8 8195 +:+ utf8 10)
                                         "http://a"]))
                      (λ k, eq_refl) eq_refl)).
    vm_compute. reflexivity.
Defined.

(** ** Sorting a page by timestamp *)

Lemma mapM_total {A B} (f : A → result B) (g : A → B) (l : list A) :
  Forall (λ x, f x = Ok (g x)) l → mapM f l = Ok (g <$> l).
Proof.
  induction 1 as [|x l Hx _ IH]; [done|].
  simpl. rewrite Hx. simpl. by rewrite IH.
Qed.

Lemma mapM_length {A B} (f : A → result B) (l : list A) (k : list B) :
  mapM f l = Ok k → length k = length l.
Proof.
  revert k. induction l as [|x l IH]; intros k; simpl.
  - by intros [= <-].
  - destruct (f x) as [y|e]; simpl; [|done].
    destruct (mapM f l) as [k'|e]; simpl; [|done].
    intros [= <-]. simpl. by rewrite (IH k').
Qed.

Lemma string_ltb_le s t : String.ltb s t = true → String.le s t.
Proof.
  unfold String.ltb, String.le, String.leb.
  by destruct (String.compare s t).
Qed.

Lemma string_not_ltb_le s t : String.ltb s t = false → String.le t s.
Proof.
  unfold String.ltb, String.le, String.leb.
  rewrite (String.compare_antisym s t).
  by destruct (String.compare t s).
Qed.

Lemma insert_desc_ok x l :
  decorated x → Forall decorated l →
  ∃ l', insert_desc x l = Ok l' ∧ l' ≡ₚ x :: l ∧
        (Sorted key_ge l → Sorted key_ge l' ∧
                           ∀ z, key_ge z x → HdRel key_ge z l → HdRel key_ge z l').
Proof.
  intros (s & Hx & Hxi) Hl.
  induction Hl as [|y l (t & Hy & Hyi) Hl IH]; simpl.
  - exists [x]. split; [done|]. split; [done|]. intros _.
    split; [by repeat constructor|]. intros z Hz _. by constructor.
  - rewrite Hx, Hy. simpl.
    destruct (String.ltb s t) eqn:Hlt.
    + destruct IH as (l' & -> & Hperm & Hsorted). simpl.
      eexists. split; [done|]. split.
      { rewrite Hperm. apply perm_swap. }
      intros Hs. apply Sorted_inv in Hs as [Hs Hhd].
      destruct (Hsorted Hs) as [Hs' Hhd']. split.
      * constructor; [done|]. apply Hhd'; [|done].
        exists t, s. split_and!; [done..|]. by apply string_ltb_le.
      * intros z _ Hz. constructor. by apply HdRel_inv in Hz.
    + exists (x :: y :: l). split; [done|]. split; [done|]. intros Hs. split.
      * constructor; [done|]. constructor.
        exists s, t. split_and!; [done..|]. by apply string_not_ltb_le.
      * intros z Hz _. by constructor.
Qed.

Lemma sort_desc_ok l :
  Forall decorated l →
  ∃ l', sort_desc l = Ok l' ∧ l' ≡ₚ l ∧ Sorted key_ge l'.
Proof.
  induction 1 as [|x l Hx Hl IH]; simpl.
  - exists []. split; [done|]. split; [done|]. constructor.
  - destruct IH as (s & -> & Hperm & Hsorted). simpl.
    destruct (insert_desc_ok x s) as (l' & -> & Hperm' & Hs'); [done|..].
    + by rewrite Hperm.
    + eexists. split_and!; [done| |by apply Hs'].
      by rewrite Hperm', Hperm.
Qed.

Lemma zip_fmap_self {A B} (f : A → B) (l : list A) :
  zip (f <$> l) l = (λ x, (f x, x)) <$> l.
Proof. induction l as [|x l IH]; csimpl; [done|]. by rewrite IH. Qed.

#[global] Instance newer_or_same_trans : Transitive newer_or_same.
Proof.
  intros a b c (s & t & Ha & Hb & Hts) (t' & r & Hb' & Hc & Hrt).
  rewrite Hb in Hb'. injection Hb' as <-.
  exists s, r. split_and!; [done..|]. by trans t.
Qed.

Lemma sorted_projection s :
  Forall decorated s → Sorted key_ge s →
  Sorted newer_or_same (search_projection <$> s.*2).
Proof.
  intros Hdec Hs. induction Hs as [|x l Hl IH Hhd]; simpl; [constructor|].
  apply Forall_cons in Hdec as [Hx Hdec].
  constructor; [by apply IH|].
  destruct Hhd as [|y l' Hxy]; simpl; constructor.
  apply Forall_cons in Hdec as [Hy _].
  destruct Hx as (tx & Hx1 & Hx2), Hy as (ty & Hy1 & Hy2).
  destruct Hxy as (s & t & Hs' & Ht' & Hle).
  exists s, t. unfold search_projection, dict_get. simpl.
  rewrite Hx2, Hy2. simpl. by rewrite <-Hx1, <-Hy1.
Qed.

Lemma search_view_of_record i :
  search_record i → search_view_of i = Ok (search_projection i).
Proof.
  intros ((id & Hid) & (q & Hq) & (rs & Hrs) & (ts & Hts)).
  unfold search_view_of, search_projection, results_count, getitem, dict_get.
  by rewrite Hid, Hq, Hrs, Hts.
Qed.

Lemma sorted_by_timestamp_reverse_ok items :
  Forall search_record items →
  ∃ sorted, sorted_by_timestamp_reverse items = Ok sorted ∧
            sorted ≡ₚ items ∧
            StronglySorted newer_or_same (search_projection <$> sorted).
Proof.
  intros Hrec. unfold sorted_by_timestamp_reverse.
  rewrite (mapM_total _ (λ i, dict_get i "timestamp" ANone)).
  2:{ eapply Forall_impl; [done|]. intros i (_ & _ & _ & ts & Hts).
      unfold getitem, dict_get. by rewrite Hts. }
  simpl. rewrite zip_fmap_self.
  set (dl := (λ i, (dict_get i "timestamp" ANone, i)) <$> items).
  assert (Hdl : Forall decorated dl).
  { unfold dl. apply Forall_fmap. eapply Forall_impl; [done|].
    intros i (_ & _ & _ & ts & Hts). exists ts. unfold dict_get. simpl.
    by rewrite Hts. }
  destruct (sort_desc_ok dl Hdl) as (s & -> & Hperm & Hsorted). simpl.
  exists (s.*2). split; [done|]. split.
  - rewrite Hperm. unfold dl. rewrite <-list_fmap_compose.
    by rewrite list_fmap_id.
  - apply Sorted_StronglySorted; [apply _|].
    apply sorted_projection; [by rewrite Hperm | done].
Qed.

Lemma scan_page_length env t limit w :
  (length (Store.scan_page env t limit w) ≤ Z.to_nat limit)%nat.
Proof. unfold Store.scan_page. rewrite length_take. lia. Qed.

Lemma scan_page_stored env t limit w :
  Forall (λ i, ∃ k, get_table t w !! k = Some i) (Store.scan_page env t limit w).
Proof.
  unfold Store.scan_page. apply Forall_take, Forall_forall.
  intros i (k & _ & Hk)%list_elem_of_omap. eauto.
Qed.

Lemma scan_ok env t limit w :
  store_fault env (length (trace w)) = None →
  Store.scan env t limit w = (Ok (Store.scan_page env t limit w), logged (CScan t limit) w).
Proof. intros Hf. unfold Store.scan. by rewrite Hf. Qed.

Lemma results_count_list i rs :
  i !! "results" = Some (AList rs) →
  sv_result_count (search_projection i) = length rs.
Proof. intros H. simpl. unfold results_count, dict_get. by rewrite H. Qed.

Lemma two_searches_records :
  map_Forall (λ _, search_record) (searches_table two_searches).
Proof.
  apply map_Forall_insert_2; [|apply map_Forall_insert_2; [|apply map_Forall_empty]].
  - unfold early_search, search_record.
    destruct (search_item_lookup "a_20260101_000000" "a" [] "2026-01-01T00:00:00")
      as (-> & -> & -> & ->). eauto 10.
  - unfold late_search, search_record.
    destruct (search_item_lookup "b_20260202_000000" "b" [PaperData "T" "http://t"]
                "2026-02-02T00:00:00") as (-> & -> & -> & ->). eauto 10.
Qed.

(** C5.  When the scan of the searches succeeds and the page it delivers
    holds Search records, [get_search_history n] returns the projections
    (search id, query, timestamp, result count) of exactly the records of
    that page, which are stored records and number at most [n], ordered from
    the most recent timestamp to the oldest; the result count of a record is
    the length of its stored results list.  Only the page is sorted: a store
    and a scan order exist for which a full page is returned while a stored
    record newer than every returned entry is left out. *)
Theorem get_search_history_sorts_page :
  (∀ env w n,
     store_fault env (length (trace w)) = None →
     let page := Store.scan_page env Searches n w in
     Forall search_record page →
     ∃ out, get_search_history env n w = (Ok out, logged (CScan Searches n) w) ∧
            (length page ≤ Z.to_nat n)%nat ∧
            Forall (λ i, ∃ k, searches_table w !! k = Some i) page ∧
            out ≡ₚ search_projection <$> page ∧
            StronglySorted newer_or_same out) ∧
  (∀ i rs, i !! "results" = Some (AList rs) →
           sv_result_count (search_projection i) = length rs) ∧
  (∃ env w n i k out,
     store_fault env (length (trace w)) = None ∧
     map_Forall (λ _, search_record) (searches_table w) ∧
     get_search_history env n w = (Ok out, logged (CScan Searches n) w) ∧
     length out = Z.to_nat n ∧ (0 < n) ∧
     searches_table w !! k = Some i ∧
     Forall (strictly_newer (search_projection i)) out).
Proof.
  split_and!.
  - intros env w n Hf page Hrec.
    destruct (sorted_by_timestamp_reverse_ok page Hrec) as (sorted & Hsort & Hperm & Hss).
    exists (search_projection <$> sorted).
    split_and!.
    + unfold get_search_history, try_except, bind, lift.
      rewrite scan_ok by done. fold page. rewrite Hsort.
      rewrite (mapM_total _ search_projection); [done|].
      rewrite Hperm. eapply Forall_impl; [done|]. apply search_view_of_record.
    + apply scan_page_length.
    + apply (scan_page_stored env Searches).
    + by rewrite Hperm.
    + done.
  - apply results_count_list.
  - exists (scanning_env ["a_20260101_000000"; "b_20260202_000000"]), two_searches, 1,
           late_search, "b_20260202_000000",
           [search_projection early_search].
    split_and!.
    + done.
    + apply two_searches_records.
    + by vm_compute.
    + done.
    + done.
    + by vm_compute.
    + constructor; [|constructor].
      exists "2026-02-02T00:00:00", "2026-01-01T00:00:00". by vm_compute.
Qed.

Lemma get_search_history_sorts_page_witness :
  let env := scanning_env ["a_20260101_000000"; "b_20260202_000000"] in
  store_fault env (length (trace two_searches)) = None ∧
  Forall search_record (Store.scan_page env Searches 2 two_searches) ∧
  ∃ out, get_search_history env 2 two_searches
         = (Ok out, logged (CScan Searches 2) two_searches) ∧
         StronglySorted newer_or_same out.
Proof.
  intros env.
  assert (Hrec : Forall search_record (Store.scan_page env Searches 2 two_searches)).
  { eapply Forall_impl; [apply scan_page_stored|].
    intros i (k & Hk). by apply (two_searches_records k). }
  split; [reflexivity|]. split; [exact Hrec|].
  destruct (proj1 get_search_history_sorts_page env two_searches 2 eq_refl Hrec)
    as (out & Hrun & _ & _ & _ & Hsorted).
  by exists out.
Defined.

(** ** [get_saved_papers] *)

Lemma paper_view_of_fields i :
  has_paper_fields i → paper_view_of i = Ok (paper_projection i).
Proof.
  intros ((t & Ht) & (u & Hu) & (ts & Hts)).
  unfold paper_view_of, paper_projection, getitem, dict_get.
  by rewrite Ht, Hu, Hts.
Qed.

Lemma has_summary_iff i :
  pv_has_summary (paper_projection i) = true ↔ nonempty_summary i.
Proof.
  unfold nonempty_summary, dict_get. simpl. unfold dict_get.
  destruct (i !! "summary") as [a|]; simpl.
  - split.
    + intros Ht. exists a. split; [done|].
      split_and!; intros ->; simpl in Ht; done.
    + intros (a' & [= <-] & Hn & He & Hl). destruct a as [|s|l]; simpl; [done|..].
      * apply negb_true_iff, String.eqb_neq. by intros ->.
      * apply negb_true_iff, bool_decide_eq_false. by intros ->.
  - split; [done|]. by intros (a & ? & _).
Qed.

(** C6.  [get_saved_papers n] always returns, with at most [n] entries.  When
    the scan succeeds and the records of its page have a title, a url and a
    timestamp, the entries are the projections (title, url, has_summary,
    timestamp) of the page in the order the scan delivered it, unsorted; and
    [has_summary] is true exactly when the record has a summary that is
    neither [None] nor empty. *)
Theorem get_saved_papers_page env w n :
  (∃ out, get_saved_papers env n w = (Ok out, logged (CScan Papers n) w) ∧
          (length out ≤ Z.to_nat n)%nat) ∧
  (store_fault env (length (trace w)) = None →
   Forall has_paper_fields (Store.scan_page env Papers n w) →
   get_saved_papers env n w =
     (Ok (paper_projection <$> Store.scan_page env Papers n w),
      logged (CScan Papers n) w)) ∧
  (∀ i, pv_has_summary (paper_projection i) = true ↔ nonempty_summary i).
Proof.
  split_and!.
  - unfold get_saved_papers, try_except, bind, lift, Store.scan.
    destruct (store_fault env (length (trace w))).
    + exists []. split; [done|]. simpl. lia.
    + destruct (mapM paper_view_of (Store.scan_page env Papers n w)) as [out|e] eqn:Hm.
      * exists out. split; [done|]. apply mapM_length in Hm. rewrite Hm.
        apply scan_page_length.
      * exists []. split; [done|]. simpl. lia.
  - intros Hf Hfields. unfold get_saved_papers, try_except, bind, lift.
    rewrite scan_ok by done.
    rewrite (mapM_total _ paper_projection); [done|].
    eapply Forall_impl; [done|]. apply paper_view_of_fields.
  - apply has_summary_iff.
Qed.

(** C7.  When the store raises on the scan, [get_search_history] and
    [get_saved_papers] both return the empty list instead of raising, and
    neither table changes. *)
Theorem scans_swallow_store_errors env w n e :
  store_fault env (length (trace w)) = Some e →
  get_search_history env n w = (Ok [], logged (CScan Searches n) w) ∧
  get_saved_papers env n w = (Ok [], logged (CScan Papers n) w) ∧
  papers_table (get_search_history env n w).2 = papers_table w ∧
  searches_table (get_search_history env n w).2 = searches_table w ∧
  papers_table (get_saved_papers env n w).2 = papers_table w ∧
  searches_table (get_saved_papers env n w).2 = searches_table w.
Proof.
  intros Hf.
  assert (H1 : get_search_history env n w = (Ok [], logged (CScan Searches n) w)).
  { unfold get_search_history, try_except, bind, Store.scan. by rewrite Hf. }
  assert (H2 : get_saved_papers env n w = (Ok [], logged (CScan Papers n) w)).
  { unfold get_saved_papers, try_except, bind, Store.scan. by rewrite Hf. }
  rewrite H1, H2. done.
Qed.

Lemma scans_swallow_store_errors_witness :
  store_fault failing_env (length (trace two_searches))
    = Some (ClientError "ServiceUnavailable") ∧
  get_search_history failing_env 10 two_searches
    = (Ok [], logged (CScan Searches 10) two_searches) ∧
  get_saved_papers failing_env 20 two_searches
    = (Ok [], logged (CScan Papers 20) two_searches).
Proof.
  split; [reflexivity|].
  split.
  - exact (proj1 (scans_swallow_store_errors failing_env two_searches 10
                    (ClientError "ServiceUnavailable") eq_refl)).
  - exact (proj1 (proj2 (scans_swallow_store_errors failing_env two_searches 20
                           (ClientError "ServiceUnavailable") eq_refl))).
Defined.

Lemma has_paper_fields_paper_item url title summary ts :
  has_paper_fields (paper_item url title summary ts).
Proof.
  unfold has_paper_fields.
  destruct (paper_item_lookup url title summary ts) as (-> & -> & _ & ->).
  eauto.
Qed.

Lemma get_saved_papers_page_witness :
  let w := (search_arxiv sample_env "pruning" 2 empty_world).2 in
  store_fault sample_env (length (trace w)) = None ∧
  Forall has_paper_fields (Store.scan_page sample_env Papers 1 w) ∧
  get_saved_papers sample_env 1 w
  = (Ok [PaperView (AStr "Paper A") (AStr "http://a") false
                   (AStr "2026-11-03T09:34:01.000250")],
     logged (CScan Papers 1) w).
Proof.
  intros w.
  assert (Hpage : Store.scan_page sample_env Papers 1 w
                  = [paper_item "http://a" "Paper A" ANone "2026-11-03T09:34:01.000250"]).
  { vm_compute. reflexivity. }
  assert (Hfields : Forall has_paper_fields (Store.scan_page sample_env Papers 1 w)).
  { rewrite Hpage. constructor; [|constructor]. apply has_paper_fields_paper_item. }
  split; [reflexivity|]. split; [exact Hfields|].
  rewrite (proj1 (proj2 (get_saved_papers_page sample_env w 1)) eq_refl Hfields).
  rewrite Hpage. f_equal.
Defined.

(** ** [save_search] *)

Lemma strftime_second_resolution d us :
  strftime_Ymd_HMS (with_microsecond d us) = strftime_Ymd_HMS d.
Proof. reflexivity. Qed.

Lemma search_id_nonempty query stamp : query +:+ "_" +:+ stamp ≠ "".
Proof. destruct query; discriminate. Qed.

Lemma below_by_table (P : N → bool) (b : N) :
  forallb (λ k, P (N.of_nat k)) (seq 0 (N.to_nat b)) = true →
  ∀ n, (n < b)%N → P n = true.
Proof.
  intros H n Hn. rewrite forallb_forall in H.
  rewrite <-(N2Nat.id n). apply H, in_seq. lia.
Qed.

Lemma zfill_two_digits n : (n < 100)%N → zfill 2 n = two_digits n.
Proof.
  intros Hn. apply String.eqb_eq.
  apply (below_by_table (λ n, String.eqb (zfill 2 n) (two_digits n)) 100); [|done].
  vm_compute. reflexivity.
Qed.

Lemma zfill_four_digits n : (n < 10000)%N → zfill 4 n = four_digits n.
Proof.
  intros Hn. apply String.eqb_eq.
  apply (below_by_table (λ n, String.eqb (zfill 4 n) (four_digits n)) 10000); [|done].
  vm_compute. reflexivity.
Qed.

Lemma strftime_second_stamp d : clock_reading d → strftime_Ymd_HMS d = second_stamp d.
Proof.
  intros (Hy & Hm & Hd & Hh & Hmi & Hs). unfold strftime_Ymd_HMS, second_stamp.
  rewrite zfill_four_digits by lia. rewrite !zfill_two_digits by lia. done.
Qed.

Lemma digit_code_inj a b :
  (a < 10)%N → (b < 10)%N → ascii_of_N (48 + a) = ascii_of_N (48 + b) → a = b.
Proof.
  intros Ha Hb H. apply (f_equal N_of_ascii) in H.
  rewrite !N_ascii_embedding in H by lia. lia.
Qed.

Lemma two_digits_inj a b s t :
  (a < 100)%N → (b < 100)%N → two_digits a +:+ s = two_digits b +:+ t → a = b ∧ s = t.
Proof.
  intros Ha Hb H. unfold two_digits in H. simpl in H.
  injection H as H1 H2 H3.
  apply digit_code_inj in H1, H2;
    try (apply N.mod_lt; lia); try (apply N.Div0.div_lt_upper_bound; lia).
  split; [|done]. rewrite (N.div_mod a 10), (N.div_mod b 10) by lia. congruence.
Qed.

Lemma four_digits_inj a b s t :
  (a < 10000)%N → (b < 10000)%N →
  four_digits a +:+ s = four_digits b +:+ t → a = b ∧ s = t.
Proof.
  intros Ha Hb H. unfold four_digits in H. simpl in H.
  injection H as H1 H2 H3 H4 H5.
  apply digit_code_inj in H1, H2, H3, H4;
    try (apply N.mod_lt; lia); try (apply N.Div0.div_lt_upper_bound; lia).
  split; [|done].
  rewrite (N.div_mod a 10), (N.div_mod b 10) by lia. rewrite H4. f_equal. f_equal.
  rewrite (N.div_mod (a / 10) 10), (N.div_mod (b / 10) 10) by lia. rewrite H3.
  f_equal. f_equal.
  rewrite !N.Div0.div_div. change (10 * 10)%N with 100%N.
  rewrite (N.div_mod (a / 100) 10), (N.div_mod (b / 100) 10) by lia. rewrite H2.
  f_equal. f_equal.
  rewrite !N.Div0.div_div. change (100 * 10)%N with 1000%N. done.
Qed.

Lemma underscore_inj (s t : string) : "_" +:+ s = "_" +:+ t → s = t.
Proof. intros H. by injection H. Qed.

Lemma second_stamp_inj d1 d2 :
  clock_reading d1 → clock_reading d2 →
  second_stamp d1 = second_stamp d2 → same_second d1 d2.
Proof.
  intros (Hy1 & Hm1 & Hd1 & Hh1 & Hmi1 & Hs1) (Hy2 & Hm2 & Hd2 & Hh2 & Hmi2 & Hs2) H.
  unfold second_stamp in H.
  apply four_digits_inj in H as [Hy H]; [|lia..].
  apply two_digits_inj in H as [Hm H]; [|lia..].
  apply two_digits_inj in H as [Hd H]; [|lia..].
  apply underscore_inj in H.
  apply two_digits_inj in H as [Hh H]; [|lia..].
  apply two_digits_inj in H as [Hmi H]; [|lia..].
  rewrite <-(string_app_nil_r (two_digits (second d1))) in H.
  rewrite <-(string_app_nil_r (two_digits (second d2))) in H.
  apply two_digits_inj in H as [Hs _]; [|lia..].
  done.
Qed.

Lemma second_stamp_same d1 d2 : same_second d1 d2 → second_stamp d1 = second_stamp d2.
Proof. intros (Hy & Hm & Hd & Hh & Hmi & Hs). unfold second_stamp. congruence. Qed.

(** C8.  Whatever the searches table holds, a [save_search query results]
    whose write the store accepts returns the identifier made of the query
    text, an underscore and the clock reading formatted as
    [YYYYMMDD_HHMMSS]: four digits of the year, two each of the month, the
    day, the hour, the minute and the second.  The identifier is never
    empty.  It carries the reading to the second and no further: two
    readings give the same stamp exactly when they agree on year, month,
    day, hour, minute and second, and the sub-second part is ignored.  The
    record stored under the identifier holds the identifier, the query, the
    result list and the second clock reading in ISO format, and nothing
    else; it replaces any record already there, and the rest of the store
    is unchanged. *)
Theorem save_search_identifier env w query results :
  store_fault env (S (S (length (trace w)))) = None →
  let d := clock env (length (trace w)) in
  let id := query +:+ "_" +:+ strftime_Ymd_HMS d in
  let i := search_item id query results (isoformat (clock env (S (length (trace w))))) in
  (∃ w', save_search env query results w = (Ok id, w') ∧
         searches_table w' = <[id := i]> (searches_table w) ∧
         papers_table w' = papers_table w) ∧
  id ≠ "" ∧
  (∀ d us, strftime_Ymd_HMS (with_microsecond d us) = strftime_Ymd_HMS d) ∧
  (clock_reading d →
   id = query +:+ "_" +:+
        four_digits (year d) +:+ two_digits (month d) +:+ two_digits (day d) +:+
        "_" +:+
        two_digits (hour d) +:+ two_digits (minute d) +:+ two_digits (second d)) ∧
  (∀ d', clock_reading d → clock_reading d' →
         (strftime_Ymd_HMS d' = strftime_Ymd_HMS d ↔ same_second d' d)) ∧
  (i !! "search_id" = Some (AStr id) ∧
   i !! "query" = Some (AStr query) ∧
   i !! "results" = Some (AList results) ∧
   i !! "timestamp" = Some (AStr (isoformat (clock env (S (length (trace w)))))) ∧
   ∀ k, k ∉ ["search_id"; "query"; "results"; "timestamp"] → i !! k = None).
Proof.
  intros Hf d id i. split; [|split; [|split; [|split; [|split]]]].
  - rewrite save_search_ok by done. eauto.
  - apply search_id_nonempty.
  - apply strftime_second_resolution.
  - intros Hd. unfold id. rewrite (strftime_second_stamp d Hd). reflexivity.
  - intros d' Hd Hd'. rewrite (strftime_second_stamp d Hd), (strftime_second_stamp d' Hd').
    split; [by apply second_stamp_inj | apply second_stamp_same].
  - exact (search_item_fields id query results
             (isoformat (clock env (S (length (trace w)))))).
Qed.

Lemma save_search_identifier_witness :
  store_fault sample_env (S (S (length (trace empty_world)))) = None ∧
  clock_reading (clock sample_env 0) ∧
  (save_search sample_env "x" [] empty_world).1 = Ok "x_20261103_093400" ∧
  "x_20261103_093400" = "x" +:+ "_" +:+ second_stamp (clock sample_env 0) ∧
  "x_20261103_093400" ≠ "".
Proof.
  split; [reflexivity|].
  assert (Hd : clock_reading (clock sample_env 0)) by (vm_compute; intuition discriminate).
  split; [exact Hd|].
  destruct (save_search_identifier sample_env empty_world "x" [] eq_refl)
    as ((w' & Hrun & _) & Hne & _ & Hfmt & _).
  split; [|split].
  - rewrite Hrun. reflexivity.
  - exact (Hfmt Hd).
  - exact Hne.
Defined.

(** ** Timestamps of Paper records *)

Lemma stale_world_summarized :
  summarize_paper sample_env "http://a" stale_world
  = (Ok (AStr "A summary."),
     World {[ "http://a" := paper_item "http://a" "Paper A" (AStr "A summary.")
                              "2020-01-01T00:00:00" ]}
           ∅
           [CUpdateItem Papers "http://a" "summary" (AStr "A summary.");
            CQna "Summarize the key contributions of this ArXiv paper: http://a";
            CGetItem Papers "http://a"]).
Proof. vm_compute. reflexivity. Qed.

(** The summary-only update of [summarize_paper] writes the record of
    "http://a" but leaves its timestamp of 2020, which is no reading of the
    clock of the sample environment. *)
Lemma summary_update_keeps_old_timestamp :
  ¬ stamped_by_write sample_env stale_world
      (summarize_paper sample_env "http://a" stale_world).2 "http://a".
Proof.
  rewrite stale_world_summarized. unfold stamped_by_write. simpl.
  intros H. destruct H as (p & k & Hp & Hk & Hts).
  - intros Heq. vm_compute in Heq. discriminate.
  - rewrite lookup_singleton_eq in Hp. injection Hp as <-.
    destruct (paper_item_lookup "http://a" "Paper A" (AStr "A summary.")
                "2020-01-01T00:00:00") as (_ & _ & _ & Hts').
    rewrite Hts' in Hts.
    destruct k as [|[|[|k]]]; [vm_compute in Hts; discriminate..|lia].
Qed.

(** [save_paper] does stamp the record it writes. *)
Lemma save_paper_stamped env w title u summary :
  stamped_by_write env w (save_paper env title u summary w).2 u.
Proof.
  unfold stamped_by_write, save_paper, bind, Store.datetime_now, Store.put_item.
  destruct (paper_item_lookup u title (summary_attr summary)
              (isoformat (clock env (length (trace w))))) as (Hu & _ & _ & Hts).
  simpl. destruct (store_fault _ _); simpl; [done|]. rewrite Hu. simpl.
  intros _. eexists _, (length (trace w)). rewrite lookup_insert_eq.
  split; [done|]. split; [lia | exact Hts].
Qed.

(** C9, amended.  Every [save_paper] write stores, as the timestamp of the
    record, the clock reading taken for that write; this is the write made
    for each result of [search_arxiv] and the one [summarize_paper] makes
    when it finds no record, which reads the clock after its lookup and its
    provider call.  The summary-only update that [summarize_paper] applies to
    a record it found leaves the stored timestamp as it was. *)
Theorem timestamp_set_by_full_replace env w u :
  (∀ title summary,
     store_fault env (S (length (trace w))) = None →
     ∃ p, papers_table (save_paper env title u summary w).2 !! u = Some p ∧
          p !! "timestamp" = Some (AStr (isoformat (clock env (length (trace w)))))) ∧
  (∀ s, store_available env →
        papers_table w !! u = None →
        tavily_qna env (S (length (trace w)))
          ("Summarize the key contributions of this ArXiv paper: " +:+ u) = Ok s →
        ∃ p, papers_table (summarize_paper env u w).2 !! u = Some p ∧
             p !! "timestamp"
             = Some (AStr (isoformat (clock env (S (S (length (trace w)))))))) ∧
  (∀ p, store_available env →
        papers_table w !! u = Some p → p ≠ ∅ →
        ∃ p', papers_table (summarize_paper env u w).2 !! u = Some p' ∧
              p' !! "timestamp" = p !! "timestamp").
Proof.
  split_and!.
  - intros title summary Hf. rewrite save_paper_ok by done. simpl.
    rewrite lookup_insert_eq. eexists. split; [done|]. apply paper_item_lookup.
  - intros s Hav Hnone Hq.
    rewrite (summarize_paper_miss env w u s); [|done| by rewrite Hnone |done].
    rewrite Hnone. unfold attach_summary. simpl.
    rewrite save_paper_ok by done. simpl.
    rewrite lookup_insert_eq. eexists. split; [done|]. apply paper_item_lookup.
  - intros p Hav Hp Hne. unfold summarize_paper, bind.
    rewrite get_paper_ok, Hp by done.
    destruct (cached_summary (Some p)); simpl; [by eauto|].
    unfold Store.qna_search. destruct (tavily_qna _ _ _) as [s|e]; simpl; [|by eauto].
    unfold attach_summary. apply found_Some in Hne as ->.
    rewrite update_item_ok by done. simpl. rewrite Hp. simpl.
    rewrite lookup_insert_eq. eexists. split; [done|].
    by rewrite lookup_insert_ne.
Qed.

Lemma timestamp_set_by_full_replace_witness :
  store_available sample_env ∧
  papers_table stale_world !! "http://a"
  = Some (paper_item "http://a" "Paper A" ANone "2020-01-01T00:00:00") ∧
  ∃ p', papers_table (summarize_paper sample_env "http://a" stale_world).2 !! "http://a"
        = Some p' ∧
        p' !! "timestamp"
        = paper_item "http://a" "Paper A" ANone "2020-01-01T00:00:00" !! "timestamp".
Proof.
  assert (Hav : store_available sample_env) by (by intros k).
  assert (Hp : papers_table stale_world !! "http://a"
               = Some (paper_item "http://a" "Paper A" ANone "2020-01-01T00:00:00"))
    by reflexivity.
  split; [exact Hav|]. split; [exact Hp|].
  apply (proj2 (proj2 (timestamp_set_by_full_replace sample_env stale_world "http://a"))
           _ Hav Hp).
  intros H. apply (f_equal (λ m : item, m !! "url")) in H. vm_compute in H.
  discriminate.
Defined.

(** ** The invariant of the Papers table *)

Lemma paper_record_paper_item url title summary ts :
  paper_record url (paper_item url title summary ts).
Proof.
  unfold paper_record.
  destruct (paper_item_lookup url title summary ts) as (-> & -> & _ & ->).
  eauto.
Qed.

Lemma paper_record_set_summary key i v :
  paper_record key i → paper_record key (<["summary" := v]> i).
Proof.
  intros (Hu & Ht & Hts). unfold paper_record.
  by rewrite !lookup_insert_ne.
Qed.

Lemma paper_record_fields key i : paper_record key i → has_paper_fields i.
Proof.
  intros (Hu & (t & Ht) & (ts & Hts)). unfold has_paper_fields.
  rewrite Hu, Ht, Hts. eauto.
Qed.

Lemma preserves_ret {A} (a : A) : preserves (ret a).
Proof. by intros w. Qed.

Lemma preserves_lift {A} (r : result A) : preserves (lift r).
Proof. by intros w. Qed.

Lemma preserves_bind {A B} (m : M A) (k : A → M B) :
  preserves m → (∀ a, preserves (k a)) → preserves (bind m k).
Proof.
  intros Hm Hk w Hw. unfold bind. specialize (Hm w Hw).
  destruct (m w) as [[a|e] w']; simpl in *; [by apply Hk | done].
Qed.

Lemma preserves_try_except {A} (m : M A) (h : exn → M A) :
  preserves m → (∀ e, preserves (h e)) → preserves (try_except m h).
Proof.
  intros Hm Hh w Hw. unfold try_except. specialize (Hm w Hw).
  destruct (m w) as [[a|e] w']; simpl in *; [done | by apply Hh].
Qed.

Lemma preserves_datetime_now env : preserves (Store.datetime_now env).
Proof. by intros w. Qed.

Lemma preserves_search env query max_results :
  preserves (Store.search env query max_results).
Proof. by intros w. Qed.

Lemma preserves_qna_search env query : preserves (Store.qna_search env query).
Proof. by intros w. Qed.

Lemma preserves_get_item env t key : preserves (Store.get_item env t key).
Proof. intros w Hw. unfold Store.get_item. by destruct (store_fault _ _). Qed.

Lemma preserves_scan env t limit : preserves (Store.scan env t limit).
Proof. intros w Hw. unfold Store.scan. by destruct (store_fault _ _). Qed.

Lemma preserves_put_search env i : preserves (Store.put_item env Searches i).
Proof.
  intros w Hw. unfold Store.put_item.
  destruct (store_fault _ _); [done|].
  by destruct (i !! key_attr Searches) as [[]|].
Qed.

Lemma preserves_put_paper env url title summary ts :
  preserves (Store.put_item env Papers (paper_item url title summary ts)).
Proof.
  intros w Hw. unfold Store.put_item.
  destruct (store_fault _ _); [done|].
  destruct (paper_item_lookup url title summary ts) as (Hu & _).
  simpl. rewrite Hu. simpl. unfold papers_inv. simpl.
  apply map_Forall_insert_2; [apply paper_record_paper_item | done].
Qed.

Lemma preserves_save_paper env title url summary :
  preserves (save_paper env title url summary).
Proof.
  apply preserves_bind; [apply preserves_datetime_now|].
  intros now. apply preserves_put_paper.
Qed.

Lemma preserves_get_paper env url : preserves (get_paper env url).
Proof.
  apply preserves_try_except; [apply preserves_get_item|].
  intros _. apply preserves_ret.
Qed.

Lemma preserves_save_search env query results :
  preserves (save_search env query results).
Proof.
  apply preserves_bind; [apply preserves_datetime_now|]. intros now1.
  apply preserves_bind; [apply preserves_datetime_now|]. intros now2.
  apply preserves_bind; [apply preserves_put_search|]. intros _.
  apply preserves_ret.
Qed.

Lemma preserves_search_loop env rs : ∀ acc, preserves (search_loop env rs acc).
Proof.
  induction rs as [|r rs IH]; intros acc; simpl; [apply preserves_ret|].
  apply preserves_bind; [apply preserves_save_paper|]. intros _. apply IH.
Qed.

Lemma preserves_search_arxiv env query max_results :
  preserves (search_arxiv env query max_results).
Proof.
  apply preserves_bind; [apply preserves_search|]. intros resp.
  apply preserves_bind; [apply preserves_search_loop|]. intros results.
  apply preserves_bind; [apply preserves_save_search|]. intros _.
  apply preserves_ret.
Qed.

Lemma preserves_get_search_history env limit :
  preserves (get_search_history env limit).
Proof.
  apply preserves_try_except; [|intros _; apply preserves_ret].
  apply preserves_bind; [apply preserves_scan|]. intros items.
  apply preserves_bind; [apply preserves_lift|]. intros sorted_items.
  apply preserves_lift.
Qed.

Lemma preserves_get_saved_papers env limit :
  preserves (get_saved_papers env limit).
Proof.
  apply preserves_try_except; [|intros _; apply preserves_ret].
  apply preserves_bind; [apply preserves_scan|]. intros items.
  apply preserves_lift.
Qed.

(** The partial update runs only on a record that the lookup found, so it
    never creates a record that lacks a title or a timestamp. *)
Lemma preserves_summarize_paper env paper_url :
  preserves (summarize_paper env paper_url).
Proof.
  intros w Hw. unfold summarize_paper, bind.
  destruct (get_paper_cases env paper_url w) as (c & -> & Hc).
  destruct (cached_summary c); [done|].
  unfold Store.qna_search. destruct (tavily_qna _ _ _) as [s|e]; [|done].
  set (w1 := logged _ (logged _ w)).
  assert (Hw1 : papers_inv w1) by done.
  unfold attach_summary. destruct (found c) eqn:Hfound.
  - destruct c as [p|]; [|done].
    destruct Hc as [Hc|]; [|done].
    unfold Store.update_item. destruct (store_fault _ _); [done|]. simpl.
    rewrite <-Hc. simpl. unfold papers_inv. simpl.
    apply map_Forall_insert_2; [|done].
    apply paper_record_set_summary. by apply (Hw paper_url).
  - pose proof (preserves_save_paper env "Unknown Title" paper_url (Some s) w1 Hw1) as H.
    by destruct (save_paper env "Unknown Title" paper_url (Some s) w1) as [[[]|e] w2].
Qed.

Lemma preserves_run_op env o w : papers_inv w → papers_inv (run_op env o w).
Proof.
  destruct o; simpl.
  - apply preserves_save_paper.
  - apply preserves_get_paper.
  - apply preserves_save_search.
  - apply preserves_search_arxiv.
  - apply preserves_summarize_paper.
  - apply preserves_get_search_history.
  - apply preserves_get_saved_papers.
Qed.

Lemma preserves_run_ops env ops : ∀ w, papers_inv w → papers_inv (run_ops env ops w).
Proof.
  induction ops as [|o ops IH]; intros w Hw; simpl; [done|].
  by apply IH, preserves_run_op.
Qed.

Lemma papers_inv_empty : papers_inv empty_world.
Proof. apply map_Forall_empty. Qed.

(** Every [update_item] call that [summarize_paper] makes sets the summary
    of a record that was in the table when the call started. *)
Lemma summarize_paper_update_guarded env u w :
  ∃ l, trace (summarize_paper env u w).2 = l ++ trace w ∧
       ∀ t k name v,
         CUpdateItem t k name v ∈ l →
         t = Papers ∧ k = u ∧ name = "summary" ∧
         ∃ p, papers_table w !! u = Some p ∧ p ≠ ∅.
Proof.
  unfold summarize_paper, bind.
  destruct (get_paper_cases env u w) as (c & -> & Hc).
  destruct (cached_summary c).
  { exists [CGetItem Papers u]. split; [done|]. intros t k name v Hin.
    apply list_elem_of_singleton in Hin. discriminate. }
  unfold Store.qna_search. destruct (tavily_qna _ _ _) as [s|e].
  2:{ eexists [_; _]. split; [done|]. intros t k name v Hin.
      repeat (apply elem_of_cons in Hin as [Hin|Hin]; [discriminate|]).
      by apply elem_of_nil in Hin. }
  unfold attach_summary. destruct (found c) eqn:Hfound.
  - destruct c as [p|]; [|done]. destruct Hc as [Hc|]; [|done].
    apply found_Some in Hfound.
    assert (Htrace : ∃ r, Store.update_item env Papers u "summary" (AStr s)
              (logged (CQna ("Summarize the key contributions of this ArXiv paper: " +:+ u))
                 (logged (CGetItem Papers u) w)) = r ∧
              trace r.2 = [CUpdateItem Papers u "summary" (AStr s);
                           CQna ("Summarize the key contributions of this ArXiv paper: " +:+ u);
                           CGetItem Papers u] ++ trace w).
    { eexists. split; [done|]. unfold Store.update_item.
      by destruct (store_fault _ _). }
    destruct Htrace as (r & -> & Htrace).
    eexists [_; _; _]. split.
    + destruct r as [[[]|e] w']; exact Htrace.
    + intros t k name v Hin.
      apply elem_of_cons in Hin as [[= -> -> -> ->]|Hin]; [by eauto 10|].
      repeat (apply elem_of_cons in Hin as [Hin|Hin]; [discriminate|]).
      by apply elem_of_nil in Hin.
  - unfold save_paper, bind, Store.datetime_now, Store.put_item. simpl.
    destruct (store_fault _ _).
    + eexists [_; _; _; _]. split; [done|]. intros t k name v Hin.
      repeat (apply elem_of_cons in Hin as [Hin|Hin]; [discriminate|]).
      by apply elem_of_nil in Hin.
    + destruct (paper_item_lookup u "Unknown Title" (AStr s)
                  (isoformat (clock env (S (S (length (trace w))))))) as (Hu & _).
      rewrite Hu. eexists [_; _; _; _]. split; [done|]. intros t k name v Hin.
      repeat (apply elem_of_cons in Hin as [Hin|Hin]; [discriminate|]).
      by apply elem_of_nil in Hin.
Qed.

(** Without that guard the update would break the invariant: on a key that
    is not in the table it creates a record with neither title nor
    timestamp. *)
Lemma update_item_unguarded_breaks_invariant :
  papers_inv empty_world ∧
  ¬ papers_inv
      (Store.update_item sample_env Papers "http://a" "summary" (AStr "s") empty_world).2.
Proof.
  split; [apply papers_inv_empty|].
  rewrite update_item_ok by done. simpl. intros H.
  destruct (H "http://a" _ (lookup_insert_eq _ _ _)) as (_ & (t & Ht) & _).
  vm_compute in Ht. discriminate.
Qed.

(** C10.  Every operation of the layer keeps the invariant that each record
    of the Papers table carries its own key as [url], a title and a
    timestamp; so the invariant holds after any sequence of operations
    started on empty tables.  [summarize_paper] applies its summary update
    only to a record that was in the table.  Under the invariant every
    record a scan delivers has these fields, and the projection of
    [get_saved_papers] computes for the whole page without a missing key. *)
Theorem papers_table_invariant env :
  (∀ o w, papers_inv w → papers_inv (run_op env o w)) ∧
  (∀ ops, papers_inv (run_ops env ops empty_world)) ∧
  (∀ u w, ∃ l, trace (summarize_paper env u w).2 = l ++ trace w ∧
               ∀ t k name v,
                 CUpdateItem t k name v ∈ l →
                 t = Papers ∧ k = u ∧ name = "summary" ∧
                 ∃ p, papers_table w !! u = Some p ∧ p ≠ ∅) ∧
  (∀ w limit,
     papers_inv w →
     let page := Store.scan_page env Papers limit w in
     Forall has_paper_fields page ∧
     mapM paper_view_of page = Ok (paper_projection <$> page)).
Proof.
  split_and!.
  - intros o w. apply preserves_run_op.
  - intros ops. apply preserves_run_ops, papers_inv_empty.
  - intros u w. apply summarize_paper_update_guarded.
  - intros w limit Hw page.
    assert (Hfields : Forall has_paper_fields page).
    { eapply Forall_impl; [apply scan_page_stored|].
      intros i (k & Hk). eapply paper_record_fields. by apply (Hw k). }
    split; [done|].
    apply mapM_total. eapply Forall_impl; [done|]. apply paper_view_of_fields.
Qed.

Lemma papers_table_invariant_witness :
  papers_inv empty_world ∧
  papers_inv (run_op sample_env (OpSummarizePaper "http://a") empty_world) ∧
  papers_inv (run_ops sample_env
                [OpSearchArxiv "pruning" 2; OpSummarizePaper "http://a";
                 OpSummarizePaper "http://c"; OpGetSavedPapers 5]
                empty_world).
Proof.
  split; [exact papers_inv_empty|]. split.
  - exact (proj1 (papers_table_invariant sample_env)
             (OpSummarizePaper "http://a") empty_world papers_inv_empty).
  - exact (proj1 (proj2 (papers_table_invariant sample_env)) _).
Defined.

(** * Further properties of the layer *)

(** ** [get_paper] *)

(** X1.  [get_paper] never raises and writes nothing.  When the store
    answers, it returns the stored record or [None] for a url that has
    none; when the store fails, it returns [None] even though a record
    exists.  So a returned record is always the stored one, while [None]
    does not tell that the url is unknown. *)
Theorem get_paper_reports_store env u w :
  ∃ c, get_paper env u w = (Ok c, logged (CGetItem Papers u) w) ∧
       (store_fault env (length (trace w)) = None → c = papers_table w !! u) ∧
       (is_Some (store_fault env (length (trace w))) → c = None) ∧
       (∀ p, c = Some p → papers_table w !! u = Some p).
Proof.
  destruct (store_fault env (length (trace w))) as [e|] eqn:Hf.
  - exists None. rewrite (get_paper_fault env u w e Hf).
    split_and!; [done | done | done |]. by intros p.
  - exists (papers_table w !! u). rewrite get_paper_ok by done.
    split_and!; [done | done | by intros [? ?] | done].
Qed.

Lemma get_paper_reports_store_witness :
  get_paper sample_env "http://a" stale_world
  = (Ok (Some (paper_item "http://a" "Paper A" ANone "2020-01-01T00:00:00")),
     logged (CGetItem Papers "http://a") stale_world) ∧
  get_paper failing_env "http://a" stale_world
  = (Ok None, logged (CGetItem Papers "http://a") stale_world).
Proof.
  split.
  - destruct (get_paper_reports_store sample_env "http://a" stale_world)
      as (c & Hrun & Hok & _).
    rewrite Hrun, (Hok eq_refl). reflexivity.
  - destruct (get_paper_reports_store failing_env "http://a" stale_world)
      as (c & Hrun & _ & Hfail & _).
    rewrite Hrun, Hfail; [reflexivity | by eexists].
Defined.

(** ** [summarize_paper]: failures and frame *)

(** What a call does to the tables: nothing, or one write to the record of
    [u] that stores the summary it returns. *)
Lemma summarize_paper_tables env u w :
  searches_table (summarize_paper env u w).2 = searches_table w ∧
  (papers_table (summarize_paper env u w).2 = papers_table w ∨
   ∃ i s, papers_table (summarize_paper env u w).2 = <[u := i]> (papers_table w) ∧
          (summarize_paper env u w).1 = Ok (AStr s) ∧
          i !! "summary" = Some (AStr s)).
Proof.
  unfold summarize_paper, bind.
  destruct (get_paper_cases env u w) as (c & -> & Hc).
  destruct (cached_summary c); [by auto|].
  unfold Store.qna_search. destruct (tavily_qna _ _ _) as [s|e]; [|by auto].
  unfold attach_summary. destruct (found c).
  - unfold Store.update_item. destruct (store_fault _ _); [by auto|]. simpl.
    split; [done|]. right. eexists _, s. split_and!; [done..|].
    by rewrite lookup_insert_eq.
  - unfold save_paper, bind, Store.datetime_now, Store.put_item. simpl.
    destruct (store_fault _ _); [by auto|].
    destruct (paper_item_lookup u "Unknown Title" (AStr s)
                (isoformat (clock env (S (S (length (trace w)))))))
      as (Hu & _ & Hs & _).
    rewrite Hu. simpl. split; [done|]. right. eauto.
Qed.

(** X2.  A [summarize_paper] call that raises, because the provider failed or
    because the store refused the write, has changed neither table: the
    answer of the provider, if there was one, is lost. *)
Theorem summarize_paper_raise_writes_nothing env u w e w' :
  summarize_paper env u w = (Raised e, w') →
  papers_table w' = papers_table w ∧ searches_table w' = searches_table w.
Proof.
  intros Hrun. destruct (summarize_paper_tables env u w) as [Hs Hp].
  rewrite Hrun in Hs, Hp. simpl in *. split; [|done].
  destruct Hp as [Hp|(i & s & _ & Hr & _)]; [done | discriminate].
Qed.

Lemma summarize_paper_raise_writes_nothing_witness :
  let r := summarize_paper provider_down_env "http://a" stale_world in
  r.1 = Raised (ProviderError "unreachable") ∧
  papers_table r.2 = papers_table stale_world ∧
  searches_table r.2 = searches_table stale_world.
Proof.
  intros r.
  assert (Hrun : r = (Raised (ProviderError "unreachable"), r.2)).
  { vm_compute. reflexivity. }
  split; [by rewrite Hrun|].
  exact (summarize_paper_raise_writes_nothing provider_down_env "http://a"
           stale_world _ _ Hrun).
Defined.

(** X3.  [summarize_paper] touches only the record of its url: the Searches
    table and every other Paper record are the same after the call,
    whatever the store and the provider do. *)
Theorem summarize_paper_frame env u w :
  searches_table (summarize_paper env u w).2 = searches_table w ∧
  ∀ k, k ≠ u →
       papers_table (summarize_paper env u w).2 !! k = papers_table w !! k.
Proof.
  destruct (summarize_paper_tables env u w) as [Hs Hp]. split; [done|].
  intros k Hk. destruct Hp as [->|(i & s & -> & _)]; [done|].
  by rewrite lookup_insert_ne.
Qed.

Lemma summarize_paper_frame_witness :
  papers_table (summarize_paper sample_env "http://b" stale_world).2 !! "http://a"
  = papers_table stale_world !! "http://a".
Proof.
  apply (proj2 (summarize_paper_frame sample_env "http://b" stale_world)).
  discriminate.
Defined.

(** X4.  When the lookup of [summarize_paper] fails while a record exists,
    the failure is taken for absence: the provider is asked even if a
    summary was stored, and the write that follows replaces the whole
    record, so that its title becomes "Unknown Title". *)
Theorem summarize_paper_failed_lookup_replaces env u w p e s :
  papers_table w !! u = Some p →
  store_fault env (length (trace w)) = Some e →
  tavily_qna env (S (length (trace w))) (summary_prompt u) = Ok s →
  store_fault env (S (S (S (length (trace w))))) = None →
  ∃ w', summarize_paper env u w = (Ok (AStr s), w') ∧
        papers_table w' !! u
        = Some (paper_item u "Unknown Title" (AStr s)
                  (isoformat (clock env (S (S (length (trace w))))))) ∧
        trace w' = [CPutItem Papers
                      (paper_item u "Unknown Title" (AStr s)
                         (isoformat (clock env (S (S (length (trace w)))))));
                    CNow; CQna (summary_prompt u); CGetItem Papers u] ++ trace w ∧
        ∃ p', papers_table w' !! u = Some p' ∧
              p' !! "url" = Some (AStr u) ∧
              p' !! "title" = Some (AStr "Unknown Title") ∧
              p' !! "summary" = Some (AStr s) ∧
              p' !! "timestamp"
              = Some (AStr (isoformat (clock env (S (S (length (trace w))))))) ∧
              ∀ k, k ∉ ["url"; "title"; "summary"; "timestamp"] → p' !! k = None.
Proof.
  intros Hp Hf Hq Hput. unfold summarize_paper, bind.
  rewrite (get_paper_fault env u w e Hf). simpl.
  unfold Store.qna_search. simpl. unfold summary_prompt in Hq. rewrite Hq.
  unfold attach_summary. simpl. rewrite save_paper_ok by done. simpl.
  eexists. split; [done|]. simpl. rewrite lookup_insert_eq.
  split; [done|]. split; [done|]. eexists. split; [done|].
  exact (paper_item_fields u "Unknown Title" (AStr s)
           (isoformat (clock env (S (S (length (trace w))))))).
Qed.

Lemma summarize_paper_failed_lookup_replaces_witness :
  papers_table summarized_world !! "http://a"
  = Some (paper_item "http://a" "Paper A" (AStr "Known.") "2020-01-01T00:00:00") ∧
  ∃ w', summarize_paper (flaky_env 0) "http://a" summarized_world
        = (Ok (AStr "A summary."), w') ∧
        papers_table w' !! "http://a"
        = Some (paper_item "http://a" "Unknown Title" (AStr "A summary.")
                  "2026-11-03T09:34:02.000250").
Proof.
  split; [reflexivity|].
  destruct (summarize_paper_failed_lookup_replaces (flaky_env 0) "http://a"
              summarized_world _ (ClientError "Throttled") "A summary."
              eq_refl eq_refl eq_refl eq_refl) as (w' & Hrun & Hrec & _).
  exists w'. split; [exact Hrun | exact Hrec].
Defined.

(** ** [summarize_paper]: what is not cached *)

Lemma attach_summary_ok env c u s w :
  store_available env → ∃ w', attach_summary env c u s w = (Ok tt, w').
Proof.
  intros Hav. unfold attach_summary. destruct (found c).
  - rewrite update_item_ok by done. eauto.
  - rewrite save_paper_ok by done. eauto.
Qed.

(** A lookup that is answered and finds no usable summary is followed by a
    call to the provider. *)
Lemma summarize_paper_miss_asks_provider env u w :
  store_fault env (length (trace w)) = None →
  cached_summary (papers_table w !! u) = None →
  ∃ l, trace (summarize_paper env u w).2
       = l ++ CQna (summary_prompt u) :: CGetItem Papers u :: trace w.
Proof.
  intros Hf Hc. unfold summarize_paper, bind, summary_prompt.
  rewrite get_paper_ok, Hc by done.
  unfold Store.qna_search.
  destruct (tavily_qna _ _ _) as [s|e]; [|exists []; reflexivity].
  unfold attach_summary. destruct (found _).
  - unfold Store.update_item. simpl.
    destruct (store_fault env (S (S (length (trace w))))); eexists [_]; reflexivity.
  - unfold save_paper, bind, Store.datetime_now, Store.put_item. simpl.
    destruct (store_fault env (S (S (S (length (trace w))))));
      [eexists [_; _]; reflexivity|].
    destruct (paper_item_lookup u "Unknown Title" (AStr s)
                (isoformat (clock env (S (S (length (trace w))))))) as (Hu & _).
    rewrite Hu. eexists [_; _]. reflexivity.
Qed.

Lemma cached_summary_falsy p a :
  p !! "summary" = Some a → truthy a = false → cached_summary (Some p) = None.
Proof.
  intros Hs Ht. unfold cached_summary, dict_get. rewrite Hs. simpl.
  by rewrite Ht, andb_false_r.
Qed.

(** X5.  An empty answer of the provider is returned and stored like any
    other, but it is never served from the store: the next call, finding the
    empty summary, asks the provider again. *)
Theorem summarize_paper_empty_answer_recomputed env u w :
  store_available env →
  cached_summary (papers_table w !! u) = None →
  tavily_qna env (S (length (trace w))) (summary_prompt u) = Ok "" →
  (summarize_paper env u w).1 = Ok (AStr "") ∧
  (∃ p, papers_table (summarize_paper env u w).2 !! u = Some p ∧
        p !! "summary" = Some (AStr "")) ∧
  ∃ l, trace (summarize_paper env u (summarize_paper env u w).2).2
       = l ++ CQna (summary_prompt u) :: CGetItem Papers u
            :: trace (summarize_paper env u w).2.
Proof.
  intros Hav Hc Hq.
  assert (Hrun : ∃ w1, summarize_paper env u w = (Ok (AStr ""), w1)).
  { rewrite (summarize_paper_miss env w u "") by done.
    destruct (attach_summary_ok env (papers_table w !! u) u ""
                (logged (CQna (summary_prompt u)) (logged (CGetItem Papers u) w)) Hav)
      as (w1 & Hw1).
    unfold summary_prompt in Hw1. rewrite Hw1. eauto. }
  destruct Hrun as (w1 & Hrun). rewrite Hrun. simpl.
  destruct (summarize_paper_stores env w u _ w1 Hrun) as (p & Hp & Hs).
  split; [done|]. split; [by eauto|].
  apply summarize_paper_miss_asks_provider; [done|].
  rewrite Hp. by eapply cached_summary_falsy.
Qed.

Lemma summarize_paper_empty_answer_recomputed_witness :
  store_available silent_env ∧
  (summarize_paper silent_env "http://a" stale_world).1 = Ok (AStr "") ∧
  ∃ l, trace (summarize_paper silent_env "http://a"
                (summarize_paper silent_env "http://a" stale_world).2).2
       = l ++ CQna (summary_prompt "http://a") :: CGetItem Papers "http://a"
            :: trace (summarize_paper silent_env "http://a" stale_world).2.
Proof.
  assert (Hav : store_available silent_env) by (by intros k).
  split; [exact Hav|].
  destruct (summarize_paper_empty_answer_recomputed silent_env "http://a"
              stale_world Hav eq_refl eq_refl) as (Hr & _ & Hl).
  split; [exact Hr | exact Hl].
Defined.

(** ** [search_arxiv]: failures and edge cases *)

Lemma search_arxiv_ok env w query max_results resp :
  store_available env →
  tavily_search env (length (trace w)) ("site:arxiv.org " +:+ query) max_results
    = Ok resp →
  let results := trimmed_result <$> default [] (resp_results resp) in
  let stamps := paper_stamps env (S (length (trace w))) (length results) in
  (search_arxiv env query max_results w).1 = Ok results ∧
  papers_table (search_arxiv env query max_results w).2
  = papers_after results stamps (papers_table w).
Proof.
  intros Hav Hresp results stamps.
  unfold search_arxiv, bind, Store.search. rewrite Hresp.
  rewrite search_loop_ok by done. simpl.
  rewrite save_search_ok by done. simpl.
  unfold stamps, results. by rewrite length_fmap.
Qed.

(** X6.  A search erases the summaries stored for the urls it returns: after
    it, the record of each returned url has the summary [None], and the next
    [summarize_paper] on that url asks the provider again. *)
Theorem search_arxiv_erases_summaries env w query max_results resp u :
  store_available env →
  tavily_search env (length (trace w)) ("site:arxiv.org " +:+ query) max_results
    = Ok resp →
  u ∈ tr_url <$> default [] (resp_results resp) →
  let w' := (search_arxiv env query max_results w).2 in
  (∃ p, papers_table w' !! u = Some p ∧ p !! "summary" = Some ANone) ∧
  ∃ l, trace (summarize_paper env u w').2
       = l ++ CQna (summary_prompt u) :: CGetItem Papers u :: trace w'.
Proof.
  intros Hav Hresp Hu w'.
  destruct (search_arxiv_ok env w query max_results resp Hav Hresp) as [_ Htbl].
  set (results := trimmed_result <$> default [] (resp_results resp)) in *.
  set (stamps := paper_stamps env (S (length (trace w))) (length results)) in *.
  assert (Hin : u ∈ pd_url <$> results).
  { unfold results. rewrite <-list_fmap_compose.
    by replace (pd_url ∘ trimmed_result) with tr_url by done. }
  destruct (papers_after_lookup results stamps (papers_table w) u) as [Hl _].
  { unfold stamps. by rewrite paper_stamps_length. }
  destruct (Hl Hin) as (q & ts & _ & _ & Hlook).
  assert (Hrec : ∃ p, papers_table w' !! u = Some p ∧ p !! "summary" = Some ANone).
  { exists (cached_item q ts). unfold w'. rewrite Htbl. split; [done|].
    by destruct (paper_item_lookup (pd_url q) (pd_title q) ANone ts)
      as (_ & _ & Hs & _). }
  split; [done|].
  destruct Hrec as (p & Hp & Hs).
  apply summarize_paper_miss_asks_provider; [done|].
  rewrite Hp. by eapply cached_summary_falsy.
Qed.

Lemma search_arxiv_erases_summaries_witness :
  let w' := (search_arxiv sample_env "pruning" 2 summarized_world).2 in
  store_available sample_env ∧
  (∃ p, papers_table summarized_world !! "http://a" = Some p ∧
        p !! "summary" = Some (AStr "Known.")) ∧
  (∃ p, papers_table w' !! "http://a" = Some p ∧ p !! "summary" = Some ANone).
Proof.
  intros w'.
  assert (Hav : store_available sample_env) by (by intros k).
  split; [exact Hav|]. split.
  - exists (paper_item "http://a" "Paper A" (AStr "Known.") "2020-01-01T00:00:00").
    split; [reflexivity|].
    by destruct (paper_item_lookup "http://a" "Paper A" (AStr "Known.")
                   "2020-01-01T00:00:00") as (_ & _ & Hs & _).
  - apply (search_arxiv_erases_summaries sample_env summarized_world "pruning" 2
             (Response (Some [TavilyResult "  Paper A " "http://a";
                              TavilyResult "Paper B" "http://b"]))
             "http://a" Hav eq_refl).
    simpl. by left.
Defined.

(** X7.  When the provider fails, [search_arxiv] raises its exception after
    that single call: no paper is saved and no search is recorded. *)
Theorem search_arxiv_provider_failure env w query max_results e :
  tavily_search env (length (trace w)) ("site:arxiv.org " +:+ query) max_results
    = Raised e →
  search_arxiv env query max_results w
  = (Raised e,
     World (papers_table w) (searches_table w)
           (CSearch ("site:arxiv.org " +:+ query) max_results :: trace w)).
Proof.
  intros Hresp. unfold search_arxiv, bind, Store.search. by rewrite Hresp.
Qed.

Lemma search_arxiv_provider_failure_witness :
  search_arxiv provider_down_env "pruning" 2 stale_world
  = (Raised (ProviderError "unreachable"),
     World (papers_table stale_world) (searches_table stale_world)
           [CSearch "site:arxiv.org pruning" 2]).
Proof.
  exact (search_arxiv_provider_failure provider_down_env stale_world "pruning" 2
           (ProviderError "unreachable") eq_refl).
Defined.

Lemma save_paper_fault env title url summary w e :
  store_fault env (S (length (trace w))) = Some e →
  save_paper env title url summary w
  = (Raised e,
     World (papers_table w) (searches_table w)
           (CPutItem Papers (paper_item url title (summary_attr summary)
                               (isoformat (clock env (length (trace w)))))
              :: CNow :: trace w)).
Proof.
  intros Hf. unfold save_paper, bind, Store.datetime_now, Store.put_item.
  simpl. by rewrite Hf.
Qed.

(** The loop over a prefix of the results during which the store answers. *)
Lemma search_loop_prefix env rs1 : ∀ rs2 acc w,
  (∀ k, (k < length (trace w) + 2 * length rs1)%nat → store_fault env k = None) →
  let ps := trimmed_result <$> rs1 in
  let stamps := paper_stamps env (length (trace w)) (length rs1) in
  search_loop env (rs1 ++ rs2) acc w =
    search_loop env rs2 (acc ++ ps)
      (World (papers_after ps stamps (papers_table w)) (searches_table w)
             (rev (paper_calls ps stamps) ++ trace w)).
Proof.
  induction rs1 as [|r rs1 IH]; intros rs2 acc w Hok; simpl.
  - rewrite app_nil_r. by destruct w.
  - unfold bind at 1. rewrite save_paper_ok by (apply Hok; simpl; lia).
    rewrite IH by (intros k Hk; apply Hok; simpl in *; lia). simpl.
    replace (S (S (length (trace w)))) with (length (trace w) + 2)%nat by lia.
    rewrite <-app_assoc. simpl. f_equal. f_equal.
    unfold paper_calls. simpl. by rewrite <-!app_assoc.
Qed.

(** X8.  A Paper write that the store refuses aborts [search_arxiv]: the
    exception is raised to the caller, the papers of the earlier results
    stay saved, and neither the later papers nor the Search record are
    written. *)
Theorem search_arxiv_paper_write_failure env w query max_results resp rs1 r rs2 e :
  tavily_search env (length (trace w)) ("site:arxiv.org " +:+ query) max_results
    = Ok resp →
  default [] (resp_results resp) = rs1 ++ r :: rs2 →
  (∀ k, (k < length (trace w) + 2 * length rs1 + 2)%nat → store_fault env k = None) →
  store_fault env (length (trace w) + 2 * length rs1 + 2) = Some e →
  ∃ w', search_arxiv env query max_results w = (Raised e, w') ∧
        papers_table w'
        = papers_after (trimmed_result <$> rs1)
            (paper_stamps env (S (length (trace w))) (length rs1)) (papers_table w) ∧
        searches_table w' = searches_table w.
Proof.
  intros Hresp Hrs Hok Hf.
  unfold search_arxiv, bind at 1, Store.search. rewrite Hresp, Hrs.
  unfold bind at 1. rewrite search_loop_prefix by (intros k Hk; apply Hok; simpl in *; lia).
  simpl. unfold bind at 1.
  rewrite (save_paper_fault _ _ _ _ _ e).
  - eauto.
  - simpl. rewrite length_app, length_rev, paper_calls_length; simpl.
    + rewrite length_fmap. rewrite <-Hf. f_equal. lia.
    + by rewrite length_fmap, paper_stamps_length.
Qed.

Lemma search_arxiv_paper_write_failure_witness :
  ∃ w', search_arxiv (flaky_env 4) "pruning" 2 stale_world
        = (Raised (ClientError "Throttled"), w') ∧
        papers_table w' !! "http://a"
        = Some (paper_item "http://a" "Paper A" ANone "2026-11-03T09:34:01.000250") ∧
        papers_table w' !! "http://b" = None ∧
        searches_table w' = ∅.
Proof.
  destruct (search_arxiv_paper_write_failure (flaky_env 4) stale_world "pruning" 2
              (Response (Some [TavilyResult "  Paper A " "http://a";
                               TavilyResult "Paper B" "http://b"]))
              [TavilyResult "  Paper A " "http://a"] (TavilyResult "Paper B" "http://b") []
              (ClientError "Throttled") eq_refl eq_refl)
    as (w' & Hrun & Hp & Hs).
  - intros k Hk. simpl. case_decide; [simpl in Hk; lia | done].
  - reflexivity.
  - exists w'. split; [exact Hrun|]. rewrite Hp, Hs.
    split; [reflexivity|]. split; reflexivity.
Defined.

(** X9.  When the provider returns no result, or a response without a
    result list, [search_arxiv] returns the empty list and saves no paper,
    but still records the search, with an empty result list. *)
Theorem search_arxiv_no_results env w query max_results resp :
  tavily_search env (length (trace w)) ("site:arxiv.org " +:+ query) max_results
    = Ok resp →
  default [] (resp_results resp) = [] →
  store_fault env (S (S (S (length (trace w))))) = None →
  let id := query +:+ "_" +:+ strftime_Ymd_HMS (clock env (S (length (trace w)))) in
  let si := search_item id query [] (isoformat (clock env (S (S (length (trace w)))))) in
  search_arxiv env query max_results w
  = (Ok [],
     World (papers_table w) (<[id := si]> (searches_table w))
           ([CPutItem Searches si; CNow; CNow;
             CSearch ("site:arxiv.org " +:+ query) max_results] ++ trace w)) ∧
  sv_result_count (search_projection si) = 0%nat ∧
  (si !! "search_id" = Some (AStr id) ∧
   si !! "query" = Some (AStr query) ∧
   si !! "results" = Some (AList []) ∧
   si !! "timestamp" = Some (AStr (isoformat (clock env (S (S (length (trace w))))))) ∧
   ∀ k, k ∉ ["search_id"; "query"; "results"; "timestamp"] → si !! k = None).
Proof.
  intros Hresp Hnil Hf id si. split; [|split].
  - unfold search_arxiv, bind, Store.search. rewrite Hresp, Hnil. simpl.
    unfold ret. by rewrite save_search_ok.
  - apply (results_count_list si []).
    by destruct (search_item_lookup id query []
                   (isoformat (clock env (S (S (length (trace w)))))))
      as (_ & _ & Hrs & _).
  - exact (search_item_fields id query []
             (isoformat (clock env (S (S (length (trace w))))))).
Qed.

Lemma search_arxiv_no_results_witness :
  let env := Environment (clock sample_env) (store_fault sample_env)
               (scan_keys sample_env) (λ _ _ _, Ok (Response None))
               (tavily_qna sample_env) in
  (search_arxiv env "nothing" 5 empty_world).1 = Ok [] ∧
  searches_table (search_arxiv env "nothing" 5 empty_world).2 !! "nothing_20261103_093401"
  = Some (search_item "nothing_20261103_093401" "nothing" [] "2026-11-03T09:34:02.000250").
Proof.
  intros env.
  destruct (search_arxiv_no_results env empty_world "nothing" 5 (Response None)
              eq_refl eq_refl eq_refl) as [Hrun _].
  rewrite Hrun. split; [reflexivity|]. simpl. by rewrite lookup_insert_eq.
Defined.

Lemma papers_after_last_wins ps1 : ∀ p ps2 stamps tbl,
  length stamps = length (ps1 ++ p :: ps2) →
  pd_url p ∉ pd_url <$> ps2 →
  ∃ ts, stamps !! length ps1 = Some ts ∧
        papers_after (ps1 ++ p :: ps2) stamps tbl !! pd_url p
        = Some (cached_item p ts).
Proof.
  induction ps1 as [|q ps1 IH]; intros p ps2 [|t stamps] tbl Hlen Hp;
    simplify_eq/=.
  - exists t. split; [done|]. unfold papers_after. simpl.
    destruct (papers_after_lookup ps2 stamps
                (<[pd_url p := cached_item p t]> tbl) (pd_url p)) as [_ Hout];
      [done|].
    unfold papers_after in Hout. rewrite Hout by done.
    by rewrite lookup_insert_eq.
  - destruct (IH p ps2 stamps (<[pd_url q := cached_item q t]> tbl)) as (ts & Hts & Hl);
      [done..|].
    exists ts. split; [done|]. exact Hl.
Qed.

(** X10.  When several results of one search share a url, the record kept
    for it is that of the last of them: title and timestamp of the earlier
    ones are overwritten within the same call. *)
Theorem search_arxiv_last_result_wins env w query max_results resp rs1 r rs2 :
  store_available env →
  tavily_search env (length (trace w)) ("site:arxiv.org " +:+ query) max_results
    = Ok resp →
  default [] (resp_results resp) = rs1 ++ r :: rs2 →
  tr_url r ∉ tr_url <$> rs2 →
  papers_table (search_arxiv env query max_results w).2 !! tr_url r
  = Some (paper_item (tr_url r) (strip (tr_title r)) ANone
            (isoformat (clock env (S (length (trace w)) + 2 * length rs1)))) ∧
  ∃ i, papers_table (search_arxiv env query max_results w).2 !! tr_url r = Some i ∧
       i !! "url" = Some (AStr (tr_url r)) ∧
       i !! "title" = Some (AStr (strip (tr_title r))) ∧
       i !! "summary" = Some ANone ∧
       i !! "timestamp"
       = Some (AStr (isoformat (clock env (S (length (trace w)) + 2 * length rs1)))).
Proof.
  intros Hav Hresp Hrs Hlast.
  cut (papers_table (search_arxiv env query max_results w).2 !! tr_url r
       = Some (paper_item (tr_url r) (strip (tr_title r)) ANone
                 (isoformat (clock env (S (length (trace w)) + 2 * length rs1))))).
  { intros H. split; [exact H|]. eexists. split; [exact H|].
    destruct (paper_item_fields (tr_url r) (strip (tr_title r)) ANone
                (isoformat (clock env (S (length (trace w)) + 2 * length rs1))))
      as (? & ? & ? & ? & _).
    by split_and!. }
  destruct (search_arxiv_ok env w query max_results resp Hav Hresp) as [_ ->].
  rewrite Hrs, fmap_app, fmap_cons.
  destruct (papers_after_last_wins (trimmed_result <$> rs1) (trimmed_result r)
              (trimmed_result <$> rs2)
              (paper_stamps env (S (length (trace w)))
                 (length ((trimmed_result <$> rs1) ++ trimmed_result r
                            :: (trimmed_result <$> rs2))))
              (papers_table w)) as (ts & Hts & Hl).
  - by rewrite paper_stamps_length.
  - rewrite <-list_fmap_compose.
    by replace (pd_url ∘ trimmed_result) with tr_url by done.
  - rewrite paper_stamps_lookup in Hts.
    + injection Hts as <-. rewrite length_fmap in Hl. exact Hl.
    + rewrite length_app. simpl. lia.
Qed.

Lemma search_arxiv_last_result_wins_witness :
  store_available duplicate_env ∧
  papers_table (search_arxiv duplicate_env "pruning" 3 empty_world).2 !! "http://a"
  = Some (paper_item "http://a" "Final" ANone "2026-11-03T09:34:05.000250").
Proof.
  assert (Hav : store_available duplicate_env) by (by intros k).
  split; [exact Hav|].
  apply (search_arxiv_last_result_wins duplicate_env empty_world "pruning" 3
           (Response (Some [TavilyResult "Draft" "http://a";
                            TavilyResult "Paper B" "http://b";
                            TavilyResult "Final" "http://a"]))
           [TavilyResult "Draft" "http://a"; TavilyResult "Paper B" "http://b"]
           (TavilyResult "Final" "http://a") [] Hav eq_refl eq_refl
           (not_elem_of_nil "http://a")).
Defined.

(** ** The listing tools on arbitrary stores *)

Lemma insert_desc_length x l l' :
  insert_desc x l = Ok l' → length l' = S (length l).
Proof.
  revert l'. induction l as [|y l IH]; intros l'; simpl.
  - by intros [= <-].
  - destruct (attr_lt x.1 y.1) as [[]|e]; simpl; [|by intros [= <-]|done].
    destruct (insert_desc x l) as [l''|e]; simpl; [|done].
    intros [= <-]. simpl. by rewrite (IH l'').
Qed.

Lemma sort_desc_length l l' : sort_desc l = Ok l' → length l' = length l.
Proof.
  revert l'. induction l as [|x l IH]; intros l'; simpl.
  - by intros [= <-].
  - destruct (sort_desc l) as [s|e]; simpl; [|done].
    intros H%insert_desc_length. by rewrite H, (IH s).
Qed.

Lemma sorted_by_timestamp_reverse_length items sorted :
  sorted_by_timestamp_reverse items = Ok sorted → length sorted = length items.
Proof.
  unfold sorted_by_timestamp_reverse.
  destruct (mapM _ items) as [keys|e] eqn:Hkeys; simpl; [|done].
  destruct (sort_desc _) as [s|e] eqn:Hs; simpl; [|done].
  intros [= <-]. rewrite length_fmap, (sort_desc_length _ _ Hs), length_zip.
  apply mapM_length in Hkeys. lia.
Qed.

(** X11.  [get_search_history] never raises, whatever the store holds or
    does: it returns a list of at most [limit] entries, and its only effect
    is the scan itself, so both tables are as before. *)
Theorem get_search_history_total env w n :
  ∃ out, get_search_history env n w = (Ok out, logged (CScan Searches n) w) ∧
         (length out ≤ Z.to_nat n)%nat ∧
         papers_table (get_search_history env n w).2 = papers_table w ∧
         searches_table (get_search_history env n w).2 = searches_table w.
Proof.
  assert (H : ∃ out, get_search_history env n w
                     = (Ok out, logged (CScan Searches n) w) ∧
                     (length out ≤ Z.to_nat n)%nat).
  { unfold get_search_history, try_except, bind, lift, Store.scan.
    destruct (store_fault env (length (trace w))).
    { exists []. split; [done|]. simpl. lia. }
    destruct (sorted_by_timestamp_reverse _) as [sorted|e] eqn:Hsort.
    2:{ exists []. split; [done|]. simpl. lia. }
    destruct (mapM search_view_of sorted) as [out|e] eqn:Hout.
    2:{ exists []. split; [done|]. simpl. lia. }
    exists out. split; [done|].
    rewrite (mapM_length _ _ _ Hout), (sorted_by_timestamp_reverse_length _ _ Hsort).
    apply scan_page_length. }
  destruct H as (out & Hrun & Hlen). exists out. by rewrite Hrun.
Qed.

Lemma mapM_raises {A B} (f : A → result B) (l : list A) :
  Exists (λ x, ∃ e, f x = Raised e) l → ∃ e, mapM f l = Raised e.
Proof.
  induction l as [|x l IH]; intros Hex; [by apply Exists_nil in Hex|].
  simpl. destruct (f x) as [y|e] eqn:Hx; simpl; [|by eauto].
  apply Exists_cons in Hex as [(e & He)|Hex]; [congruence|].
  destruct (IH Hex) as (e & ->). simpl. eauto.
Qed.

Lemma paper_view_of_raises i :
  ¬ has_paper_fields i → ∃ e, paper_view_of i = Raised e.
Proof.
  intros Hno. unfold paper_view_of, getitem, has_paper_fields in *.
  destruct (i !! "title") as [t|]; simpl; [|by eauto].
  destruct (i !! "url") as [u|]; simpl; [|by eauto].
  destruct (i !! "timestamp") as [ts|]; simpl; [|by eauto].
  destruct Hno. eauto.
Qed.

(** X12.  One malformed record empties the whole answer of a listing tool:
    if a record of the scanned page has no timestamp, [get_search_history]
    returns the empty list, and if one lacks its title, url or timestamp,
    so does [get_saved_papers]; the well-formed records of the page are
    dropped with it and no error is reported. *)
Theorem listing_tools_drop_page_on_malformed_record env w n :
  store_fault env (length (trace w)) = None →
  (Exists (λ i, i !! "timestamp" = None) (Store.scan_page env Searches n w) →
   get_search_history env n w = (Ok [], logged (CScan Searches n) w)) ∧
  (Exists (λ i, ¬ has_paper_fields i) (Store.scan_page env Papers n w) →
   get_saved_papers env n w = (Ok [], logged (CScan Papers n) w)).
Proof.
  intros Hf. split; intros Hex.
  - unfold get_search_history, try_except, bind, lift. rewrite scan_ok by done.
    unfold sorted_by_timestamp_reverse.
    destruct (mapM_raises (λ i, getitem i "timestamp")
                (Store.scan_page env Searches n w)) as (e & ->); [|done].
    eapply Exists_impl; [done|]. intros i Hi. simpl in *.
    unfold getitem. rewrite Hi. eauto.
  - unfold get_saved_papers, try_except, bind, lift. rewrite scan_ok by done.
    destruct (mapM_raises paper_view_of (Store.scan_page env Papers n w))
      as (e & ->); [|done].
    eapply Exists_impl; [done|]. intros i. apply paper_view_of_raises.
Qed.

Lemma listing_tools_drop_page_on_malformed_record_witness :
  let env := scanning_env ["a_20260101_000000"; "c_20260303_000000";
                           "http://a"; "http://x"] in
  Store.scan_page env Searches 5 broken_world = [early_search; search_without_timestamp] ∧
  Store.scan_page env Papers 5 broken_world
  = [paper_item "http://a" "Paper A" ANone "2020-01-01T00:00:00"; paper_without_title] ∧
  get_search_history env 5 broken_world = (Ok [], logged (CScan Searches 5) broken_world) ∧
  get_saved_papers env 5 broken_world = (Ok [], logged (CScan Papers 5) broken_world).
Proof.
  intros env.
  assert (Hs : Store.scan_page env Searches 5 broken_world
               = [early_search; search_without_timestamp]).
  { vm_compute. reflexivity. }
  assert (Hp : Store.scan_page env Papers 5 broken_world
               = [paper_item "http://a" "Paper A" ANone "2020-01-01T00:00:00";
                  paper_without_title]).
  { vm_compute. reflexivity. }
  destruct (listing_tools_drop_page_on_malformed_record env broken_world 5 eq_refl)
    as [Hhist Hsaved].
  split; [exact Hs|]. split; [exact Hp|]. split.
  - apply Hhist. rewrite Hs. apply Exists_cons_tl, Exists_cons_hd. reflexivity.
  - apply Hsaved. rewrite Hp. apply Exists_cons_tl, Exists_cons_hd.
    intros ([t Ht] & _). vm_compute in Ht. discriminate.
Defined.

Lemma sorted_by_timestamp_reverse_strings items :
  Forall (λ i, ∃ ts, i !! "timestamp" = Some (AStr ts)) items →
  ∃ s, sort_desc ((λ i, (dict_get i "timestamp" ANone, i)) <$> items) = Ok s ∧
       sorted_by_timestamp_reverse items = Ok (s.*2) ∧
       Forall decorated s ∧
       s ≡ₚ (λ i, (dict_get i "timestamp" ANone, i)) <$> items ∧
       Sorted key_ge s.
Proof.
  intros Hts. unfold sorted_by_timestamp_reverse.
  rewrite (mapM_total _ (λ i, dict_get i "timestamp" ANone)).
  2:{ eapply Forall_impl; [done|]. intros i (ts & Hi).
      unfold getitem, dict_get. by rewrite Hi. }
  simpl. rewrite zip_fmap_self.
  set (dl := (λ i, (dict_get i "timestamp" ANone, i)) <$> items).
  assert (Hdl : Forall decorated dl).
  { unfold dl. apply Forall_fmap. eapply Forall_impl; [done|].
    intros i (ts & Hi). exists ts. unfold dict_get. simpl. by rewrite Hi. }
  destruct (sort_desc_ok dl Hdl) as (s & Hs & Hperm & Hsorted).
  exists s. rewrite Hs. simpl. split_and!; [done | done | | done | done].
  by rewrite Hperm.
Qed.

Lemma search_view_of_listable i :
  listable_search i → search_view_of i = Ok (search_projection i).
Proof.
  intros ((id & Hid) & (q & Hq) & (ts & Hts) & Hrs).
  unfold search_view_of, search_projection, results_count, getitem, dict_get.
  rewrite Hid, Hq, Hts. simpl.
  by destruct (i !! "results") as [[|s|l]|].
Qed.

Lemma decorated_page_projection items :
  ((λ i, (dict_get i "timestamp" ANone, i)) <$> items).*2 = items.
Proof. rewrite <-list_fmap_compose. apply list_fmap_id. Qed.

Lemma get_search_history_listable env w n :
  store_fault env (length (trace w)) = None →
  Forall listable_search (Store.scan_page env Searches n w) →
  ∃ s, sort_desc ((λ i, (dict_get i "timestamp" ANone, i))
                    <$> Store.scan_page env Searches n w) = Ok s ∧
       Forall decorated s ∧
       s ≡ₚ (λ i, (dict_get i "timestamp" ANone, i)) <$> Store.scan_page env Searches n w ∧
       Sorted key_ge s ∧
       get_search_history env n w
       = (Ok (search_projection <$> s.*2), logged (CScan Searches n) w).
Proof.
  intros Hf Hpage.
  destruct (sorted_by_timestamp_reverse_strings (Store.scan_page env Searches n w))
    as (s & Hs & Hsort & Hdec & Hperm & Hsorted).
  { eapply Forall_impl; [done|]. by intros i (_ & _ & Hts & _). }
  exists s. split_and!; [done..|].
  unfold get_search_history, try_except, bind, lift.
  rewrite scan_ok by done. rewrite Hsort.
  rewrite (mapM_total _ search_projection); [done|].
  assert (Hp2 : s.*2 ≡ₚ Store.scan_page env Searches n w).
  { rewrite Hperm. by rewrite decorated_page_projection. }
  rewrite Hp2. eapply Forall_impl; [done|]. apply search_view_of_listable.
Qed.

Lemma search_with_optional_results_listable i :
  search_with_optional_results i → listable_search i.
Proof.
  intros (Hid & Hq & Hts & Hrs). split_and!; [done..|].
  destruct Hrs as [->|(rs & ->)]; done.
Qed.

Lemma search_projection_reads i :
  search_with_optional_results i →
  i !! "search_id" = Some (sv_search_id (search_projection i)) ∧
  i !! "query" = Some (sv_query (search_projection i)) ∧
  i !! "timestamp" = Some (sv_timestamp (search_projection i)).
Proof.
  intros ((id & Hid) & (q & Hq) & (ts & Hts) & _).
  unfold search_projection, dict_get. simpl. by rewrite Hid, Hq, Hts.
Qed.

(** X13.  A search record without a [results] attribute is listed all the
    same, with a result count of zero.  When every record of the page holds
    an identifier, a query and a string timestamp, and its results are
    either absent or a list, [get_search_history] returns one entry per
    record, ordered from the most recent to the oldest; the entry of a
    record carries its identifier, query and timestamp as stored, and as
    result count the length of its list, or zero when it has none. *)
Theorem get_search_history_tolerates_missing_results env w n :
  store_fault env (length (trace w)) = None →
  Forall search_with_optional_results (Store.scan_page env Searches n w) →
  ∃ out, get_search_history env n w = (Ok out, logged (CScan Searches n) w) ∧
         out ≡ₚ search_projection <$> Store.scan_page env Searches n w ∧
         StronglySorted newer_or_same out ∧
         (∀ i, i ∈ Store.scan_page env Searches n w → i !! "results" = None →
               search_projection i ∈ out ∧
               sv_result_count (search_projection i) = 0%nat) ∧
         (∀ i, i ∈ Store.scan_page env Searches n w →
               ∃ v, v ∈ out ∧
                    i !! "search_id" = Some (sv_search_id v) ∧
                    i !! "query" = Some (sv_query v) ∧
                    i !! "timestamp" = Some (sv_timestamp v) ∧
                    (i !! "results" = None → sv_result_count v = 0%nat) ∧
                    (∀ rs, i !! "results" = Some (AList rs) →
                           sv_result_count v = length rs)).
Proof.
  intros Hf Hpage.
  assert (Hlist : Forall listable_search (Store.scan_page env Searches n w)).
  { eapply Forall_impl; [done|]. apply search_with_optional_results_listable. }
  destruct (get_search_history_listable env w n Hf Hlist)
    as (s & _ & Hdec & Hperm & Hsorted & Hrun).
  assert (Hout : search_projection <$> s.*2
                 ≡ₚ search_projection <$> Store.scan_page env Searches n w).
  { rewrite Hperm. by rewrite decorated_page_projection. }
  exists (search_projection <$> s.*2). split_and!; [done | done | | |].
  - apply Sorted_StronglySorted; [apply _|]. by apply sorted_projection.
  - intros i Hi Hnone. split.
    + rewrite Hout. apply list_elem_of_fmap. eauto.
    + simpl. unfold results_count, dict_get. by rewrite Hnone.
  - intros i Hi. exists (search_projection i).
    rewrite Forall_forall in Hpage.
    destruct (search_projection_reads i (Hpage i Hi)) as (Hid & Hq & Hts).
    split_and!; [|done..| |].
    + rewrite Hout. apply list_elem_of_fmap. eauto.
    + intros Hnone. simpl. unfold results_count, dict_get. by rewrite Hnone.
    + intros rs Hrs. simpl. unfold results_count, dict_get. by rewrite Hrs.
Qed.

Lemma get_search_history_tolerates_missing_results_witness :
  let env := scanning_env ["a_20260101_000000"; "d_20260404_000000"] in
  Store.scan_page env Searches 5 partial_world = [early_search; search_without_results] ∧
  ∃ out, get_search_history env 5 partial_world
         = (Ok out, logged (CScan Searches 5) partial_world) ∧
         search_projection search_without_results ∈ out ∧
         sv_result_count (search_projection search_without_results) = 0%nat.
Proof.
  intros env.
  assert (Hs : Store.scan_page env Searches 5 partial_world
               = [early_search; search_without_results]).
  { vm_compute. reflexivity. }
  split; [exact Hs|].
  destruct (get_search_history_tolerates_missing_results env partial_world 5 eq_refl)
    as (out & Hrun & _ & _ & Hzero & _).
  - rewrite Hs. constructor; [|constructor; [|constructor]].
    + unfold search_with_optional_results, early_search.
      destruct (search_item_lookup "a_20260101_000000" "a" [] "2026-01-01T00:00:00")
        as (-> & -> & -> & ->). split_and!; eauto.
    + unfold search_with_optional_results.
      split_and!; [by eexists | by eexists | by eexists | by left].
  - exists out. split; [exact Hrun|]. apply Hzero.
    + rewrite Hs. apply elem_of_cons. right. apply elem_of_cons. by left.
    + reflexivity.
Defined.

(** X14.  With a limit of zero or less both listing tools return the empty
    list, whatever the tables hold. *)
Theorem listing_tools_nonpositive_limit env w n :
  n ≤ 0 →
  get_search_history env n w = (Ok [], logged (CScan Searches n) w) ∧
  get_saved_papers env n w = (Ok [], logged (CScan Papers n) w).
Proof.
  intros Hn.
  assert (Hpage : ∀ t, Store.scan_page env t n w = []).
  { intros t. unfold Store.scan_page.
    by replace (Z.to_nat n) with 0%nat by lia. }
  unfold get_search_history, get_saved_papers, try_except, bind, lift, Store.scan.
  rewrite !Hpage. by destruct (store_fault env (length (trace w))).
Qed.

Lemma listing_tools_nonpositive_limit_witness :
  0 ≤ 0 ∧
  get_search_history sample_env 0 two_searches
  = (Ok [], logged (CScan Searches 0) two_searches) ∧
  get_saved_papers sample_env (-3) stale_world
  = (Ok [], logged (CScan Papers (-3)) stale_world).
Proof.
  split; [lia|]. split.
  - apply (listing_tools_nonpositive_limit sample_env two_searches 0). lia.
  - apply (listing_tools_nonpositive_limit sample_env stale_world (-3)). lia.
Defined.

(** ** Order of entries with equal timestamps *)

Lemma string_ltb_irrefl s : String.ltb s s = false.
Proof.
  unfold String.ltb. pose proof (String.compare_antisym s s) as H.
  by destruct (String.compare s s).
Qed.

Lemma insert_desc_filter (k : attr) x l : ∀ l',
  decorated x → Forall decorated l →
  insert_desc x l = Ok l' →
  filter (λ y : attr * item, y.1 = k) l' = filter (λ y : attr * item, y.1 = k) (x :: l).
Proof.
  induction l as [|y l IH]; intros l' Hx Hl; simpl.
  - by intros [= <-].
  - apply Forall_cons in Hl as [Hy Hl].
    destruct Hx as (s & Hxs & Hxi), Hy as (t & Hyt & Hyi).
    rewrite Hxs, Hyt. simpl. destruct (String.ltb s t) eqn:Hlt; [|by intros [= <-]].
    destruct (insert_desc x l) as [l''|e] eqn:Hins; simpl; [|done].
    intros [= <-].
    rewrite (filter_cons _ y l''), (IH l'') by (done || by exists s).
    rewrite !filter_cons.
    destruct (decide (y.1 = k)) as [Hyk|Hyk], (decide (x.1 = k)) as [Hxk|Hxk];
      try done.
    rewrite Hxs in Hxk. rewrite Hyt, <-Hxk in Hyk. injection Hyk as ->.
    by rewrite string_ltb_irrefl in Hlt.
Qed.

Lemma sort_desc_filter (k : attr) l : ∀ s,
  Forall decorated l → sort_desc l = Ok s →
  filter (λ y : attr * item, y.1 = k) s = filter (λ y : attr * item, y.1 = k) l.
Proof.
  induction l as [|x l IH]; intros s Hl; simpl.
  - by intros [= <-].
  - apply Forall_cons in Hl as [Hx Hl].
    destruct (sort_desc_ok l Hl) as (s0 & Hs0 & Hperm & _). rewrite Hs0. simpl.
    intros Hins. rewrite (insert_desc_filter k x s0 s Hx); [|by rewrite Hperm|done].
    rewrite !filter_cons. by rewrite (IH s0).
Qed.

Lemma with_timestamp_decorated (k : attr) s :
  Forall decorated s →
  with_timestamp k (search_projection <$> s.*2)
  = search_projection <$> (filter (λ y : attr * item, y.1 = k) s).*2.
Proof.
  unfold with_timestamp. induction 1 as [|x s (ts & Hx1 & Hx2) _ IH]; [done|].
  csimpl. rewrite !filter_cons, IH.
  assert (Hts : sv_timestamp (search_projection x.2) = x.1).
  { simpl. unfold dict_get. by rewrite Hx2, Hx1. }
  rewrite Hts. by destruct (decide (x.1 = k)).
Qed.

(** X15.  The sort of [get_search_history] is stable: the entries that carry
    the same timestamp come out in the order in which the scan delivered
    their records. *)
Theorem get_search_history_stable env w n ts :
  store_fault env (length (trace w)) = None →
  Forall listable_search (Store.scan_page env Searches n w) →
  ∃ out, get_search_history env n w = (Ok out, logged (CScan Searches n) w) ∧
         with_timestamp ts out
         = with_timestamp ts (search_projection <$> Store.scan_page env Searches n w).
Proof.
  intros Hf Hpage.
  destruct (get_search_history_listable env w n Hf Hpage)
    as (s & Hs & Hdec & Hperm & _ & Hrun).
  exists (search_projection <$> s.*2). split; [done|].
  assert (Hdl : Forall decorated
                  ((λ i, (dict_get i "timestamp" ANone, i))
                     <$> Store.scan_page env Searches n w)) by (by rewrite <-Hperm).
  rewrite with_timestamp_decorated by done.
  rewrite (sort_desc_filter ts _ s Hdl Hs).
  rewrite <-with_timestamp_decorated by done.
  by rewrite decorated_page_projection.
Qed.

Lemma listable_search_item id q rs ts : listable_search (search_item id q rs ts).
Proof.
  unfold listable_search.
  destruct (search_item_lookup id q rs ts) as (-> & -> & -> & ->).
  split_and!; eauto.
Qed.

Lemma get_search_history_stable_witness :
  let env := scanning_env ["t1"; "b_20260202_000000"; "t2"] in
  Store.scan_page env Searches 3 tied_world
  = [tied_search "t1"; late_search; tied_search "t2"] ∧
  ∃ out, get_search_history env 3 tied_world
         = (Ok out, logged (CScan Searches 3) tied_world) ∧
         with_timestamp (AStr "2026-01-01T00:00:00") out
         = [search_projection (tied_search "t1"); search_projection (tied_search "t2")].
Proof.
  intros env.
  assert (Hs : Store.scan_page env Searches 3 tied_world
               = [tied_search "t1"; late_search; tied_search "t2"]).
  { vm_compute. reflexivity. }
  split; [exact Hs|].
  destruct (get_search_history_stable env tied_world 3 (AStr "2026-01-01T00:00:00") eq_refl)
    as (out & Hrun & Hstable).
  - rewrite Hs. unfold tied_search, late_search.
    apply Forall_cons; split; [apply listable_search_item|].
    apply Forall_cons; split; [apply listable_search_item|].
    apply Forall_cons; split; [apply listable_search_item|].
    apply Forall_nil_2.
  - exists out. split; [exact Hrun|]. rewrite Hstable, Hs.
    vm_compute. reflexivity.
Defined.

(** ** [save_search]: identifiers *)

(** X16.  Two [save_search] calls for the same query whose clock readings
    fall in the same second get the same identifier, and the second record
    replaces the first: the table gains one record, not two.  When the
    readings differ in their seconds the identifiers differ and both
    records are kept. *)
Theorem save_search_same_second env w query rs1 rs2 :
  store_available env →
  let n := length (trace w) in
  let id1 := query +:+ "_" +:+ strftime_Ymd_HMS (clock env n) in
  let id2 := query +:+ "_" +:+ strftime_Ymd_HMS (clock env (n + 3)) in
  let w2 := (save_search env query rs2 (save_search env query rs1 w).2).2 in
  (save_search env query rs1 w).1 = Ok id1 ∧
  (save_search env query rs2 (save_search env query rs1 w).2).1 = Ok id2 ∧
  (strftime_Ymd_HMS (clock env (n + 3)) = strftime_Ymd_HMS (clock env n) →
   id2 = id1 ∧
   searches_table w2
   = <[id1 := search_item id1 query rs2 (isoformat (clock env (n + 4)))]>
       (searches_table w)) ∧
  (strftime_Ymd_HMS (clock env (n + 3)) ≠ strftime_Ymd_HMS (clock env n) →
   id2 ≠ id1 ∧
   searches_table w2 !! id1
   = Some (search_item id1 query rs1 (isoformat (clock env (n + 1)))) ∧
   searches_table w2 !! id2
   = Some (search_item id2 query rs2 (isoformat (clock env (n + 4))))) ∧
  (clock_reading (clock env n) → clock_reading (clock env (n + 3)) →
   (id2 = id1 ↔ same_second (clock env (n + 3)) (clock env n))) ∧
  (∃ i, searches_table w2 !! id2 = Some i ∧
        i !! "search_id" = Some (AStr id2) ∧
        i !! "query" = Some (AStr query) ∧
        i !! "results" = Some (AList rs2) ∧
        i !! "timestamp" = Some (AStr (isoformat (clock env (n + 4))))).
Proof.
  intros Hav n id1 id2 w2. unfold w2.
  rewrite (save_search_ok env query rs1 w) by done. simpl.
  rewrite save_search_ok by done. simpl.
  replace (S (S (S (length (trace w))))) with (n + 3)%nat by (unfold n; lia).
  replace (S (n + 3)) with (n + 4)%nat by lia.
  replace (S (length (trace w))) with (n + 1)%nat by (unfold n; lia).
  fold n. fold id1. fold id2.
  split_and!; [done | done | | | |].
  - intros Heq. assert (id2 = id1) as -> by (unfold id1, id2; by rewrite Heq).
    split; [done|]. by rewrite insert_insert_eq.
  - intros Hne. assert (Hid : id2 ≠ id1).
    { unfold id1, id2. intros H. apply Hne.
      by do 2 apply (inj (String.app _)) in H. }
    split; [done|]. split.
    + rewrite lookup_insert_ne by done. by rewrite lookup_insert_eq.
    + by rewrite lookup_insert_eq.
  - intros Hd1 Hd2. unfold id1, id2.
    rewrite (strftime_second_stamp _ Hd1), (strftime_second_stamp _ Hd2). split.
    + intros H. do 2 apply (inj (String.app _)) in H. by apply second_stamp_inj.
    + intros H. by rewrite (second_stamp_same _ _ H).
  - eexists. split; [by rewrite lookup_insert_eq|].
    destruct (search_item_fields id2 query rs2 (isoformat (clock env (n + 4))))
      as (? & ? & ? & ? & _).
    by split_and!.
Qed.

Lemma save_search_same_second_witness :
  store_available frozen_env ∧
  let w2 := (save_search frozen_env "x" [PaperData "T" "http://t"]
               (save_search frozen_env "x" [] empty_world).2).2 in
  searches_table w2
  = <["x_20261103_093400" :=
        search_item "x_20261103_093400" "x" [PaperData "T" "http://t"]
          "2026-11-03T09:34:00"]> ∅.
Proof.
  assert (Hav : store_available frozen_env) by (by intros k).
  split; [exact Hav|].
  destruct (save_search_same_second frozen_env empty_world "x" []
              [PaperData "T" "http://t"] Hav) as (_ & _ & Hsame & _).
  exact (proj2 (Hsame eq_refl)).
Defined.

(** ** How the operations compose *)

Lemma search_projection_search_item id q rs ts :
  search_projection (search_item id q rs ts)
  = SearchView (AStr id) (AStr q) (AStr ts) (length rs).
Proof.
  unfold search_projection, results_count, dict_get.
  by destruct (search_item_lookup id q rs ts) as (-> & -> & -> & ->).
Qed.

(** X17.  A search recorded by [save_search] shows up in the history as it
    was recorded: when the scan delivers its record first,
    [get_search_history 1] returns one entry with the identifier returned,
    the query, the timestamp of the write and the number of results. *)
Theorem save_search_then_history env w query rs rest :
  store_available env →
  let n := length (trace w) in
  let id := query +:+ "_" +:+ strftime_Ymd_HMS (clock env n) in
  let w1 := (save_search env query rs w).2 in
  scan_keys env (length (trace w1)) (searches_table w1) = id :: rest →
  (save_search env query rs w).1 = Ok id ∧
  (get_search_history env 1 w1).1
  = Ok [SearchView (AStr id) (AStr query) (AStr (isoformat (clock env (S n))))
                   (length rs)].
Proof.
  intros Hav n id w1. unfold w1.
  rewrite save_search_ok by done. simpl. fold n. fold id.
  set (si := search_item id query rs (isoformat (clock env (S n)))).
  intros Hkeys. split; [done|].
  set (w' := World _ _ _) in *.
  assert (Hpage : Store.scan_page env Searches 1 w' = [si]).
  { unfold Store.scan_page, w'. simpl. fold n. rewrite Hkeys. simpl.
    rewrite lookup_insert_eq. simpl. by rewrite take_0. }
  destruct (get_search_history_listable env w' 1 (Hav _)) as (s & _ & _ & Hperm & _ & Hrun).
  { rewrite Hpage.
    apply Forall_cons; split; [apply listable_search_item | apply Forall_nil_2]. }
  rewrite Hrun. rewrite Hpage in Hperm.
  apply (Permutation_singleton_r s (dict_get si "timestamp" ANone, si)) in Hperm as ->.
  change (Ok [search_projection si]
          = Ok [SearchView (AStr id) (AStr query) (AStr (isoformat (clock env (S n))))
                           (length rs)]).
  unfold si. by rewrite search_projection_search_item.
Qed.

Lemma save_search_then_history_witness :
  let env := scanning_env ["x_20261103_093400"] in
  store_available env ∧
  (get_search_history env 1 (save_search env "x" [PaperData "T" "http://t"] empty_world).2).1
  = Ok [SearchView (AStr "x_20261103_093400") (AStr "x")
                   (AStr "2026-11-03T09:34:01.000250") 1].
Proof.
  intros env.
  assert (Hav : store_available env) by (by intros k).
  split; [exact Hav|].
  exact (proj2 (save_search_then_history env empty_world "x" [PaperData "T" "http://t"]
                  [] Hav eq_refl)).
Defined.

(** X18.  Once [summarize_paper] has returned a non-empty summary for a url,
    [get_saved_papers] reports [has_summary] for every entry it lists under
    that url, on a Papers table that satisfies its invariant. *)
Theorem summarized_paper_listed_with_summary env w u s w1 n :
  papers_inv w →
  summarize_paper env u w = (Ok (AStr s), w1) →
  s ≠ "" →
  store_fault env (length (trace w1)) = None →
  ∃ out, get_saved_papers env n w1 = (Ok out, logged (CScan Papers n) w1) ∧
         ∀ v, v ∈ out → pv_url v = AStr u → pv_has_summary v = true.
Proof.
  intros Hinv Hrun Hne Hf.
  assert (Hinv1 : papers_inv w1).
  { pose proof (preserves_summarize_paper env u w Hinv) as H. by rewrite Hrun in H. }
  destruct (summarize_paper_stores env w u _ w1 Hrun) as (p & Hp & Hs).
  assert (Hstored : Forall (λ i, ∃ k, papers_table w1 !! k = Some i)
                      (Store.scan_page env Papers n w1))
    by apply (scan_page_stored env Papers).
  exists (paper_projection <$> Store.scan_page env Papers n w1). split.
  - unfold get_saved_papers, try_except, bind, lift. rewrite scan_ok by done.
    rewrite (mapM_total _ paper_projection); [done|].
    eapply Forall_impl; [exact Hstored|]. intros i (k & Hk).
    apply paper_view_of_fields. eapply paper_record_fields. by apply (Hinv1 k).
  - intros v (i & -> & Hi)%list_elem_of_fmap Hurl.
    rewrite Forall_forall in Hstored. destruct (Hstored i Hi) as (k & Hk).
    destruct (Hinv1 k i Hk) as (Hu & _). simpl in *.
    unfold dict_get in Hurl. rewrite Hu in Hurl. simpl in Hurl.
    injection Hurl as ->. rewrite Hp in Hk. injection Hk as <-.
    unfold dict_get. rewrite Hs. by apply truthy_AStr.
Qed.

Lemma summarized_paper_listed_with_summary_witness :
  let w1 := (summarize_paper sample_env "http://a" stale_world).2 in
  papers_inv stale_world ∧
  ∃ out, get_saved_papers sample_env 5 w1 = (Ok out, logged (CScan Papers 5) w1) ∧
         ∀ v, v ∈ out → pv_url v = AStr "http://a" → pv_has_summary v = true.
Proof.
  intros w1.
  assert (Hinv : papers_inv stale_world).
  { apply map_Forall_singleton. apply paper_record_paper_item. }
  split; [exact Hinv|].
  apply (summarized_paper_listed_with_summary sample_env stale_world "http://a"
           "A summary." w1 5 Hinv).
  - reflexivity.
  - discriminate.
  - reflexivity.
Defined.

(** ** The invariant of the Searches table *)

Lemma keeps_ret {A} (I : world → Prop) (a : A) : keeps I (ret a).
Proof. by intros w. Qed.

Lemma keeps_lift {A} (I : world → Prop) (r : result A) : keeps I (lift r).
Proof. by intros w. Qed.

Lemma keeps_bind {A B} (I : world → Prop) (m : M A) (k : A → M B) :
  keeps I m → (∀ a, keeps I (k a)) → keeps I (bind m k).
Proof.
  intros Hm Hk w Hw. unfold bind. specialize (Hm w Hw).
  destruct (m w) as [[a|e] w']; simpl in *; [by apply Hk | done].
Qed.

Lemma keeps_try_except {A} (I : world → Prop) (m : M A) (h : exn → M A) :
  keeps I m → (∀ e, keeps I (h e)) → keeps I (try_except m h).
Proof.
  intros Hm Hh w Hw. unfold try_except. specialize (Hm w Hw).
  destruct (m w) as [[a|e] w']; simpl in *; [done | by apply Hh].
Qed.

(** A computation that leaves the Searches table alone keeps its
    invariant. *)
Lemma keeps_searches_same {A} (m : M A) :
  (∀ w, searches_table (m w).2 = searches_table w) → keeps searches_inv m.
Proof. intros Hsame w Hw. unfold searches_inv. by rewrite Hsame. Qed.

Lemma keeps_searches_datetime_now env : keeps searches_inv (Store.datetime_now env).
Proof. by apply keeps_searches_same. Qed.

Lemma keeps_searches_search env q n : keeps searches_inv (Store.search env q n).
Proof. by apply keeps_searches_same. Qed.

Lemma keeps_searches_qna_search env q : keeps searches_inv (Store.qna_search env q).
Proof. by apply keeps_searches_same. Qed.

Lemma keeps_searches_get_item env t key : keeps searches_inv (Store.get_item env t key).
Proof.
  apply keeps_searches_same. intros w. unfold Store.get_item.
  by destruct (store_fault _ _).
Qed.

Lemma keeps_searches_scan env t limit : keeps searches_inv (Store.scan env t limit).
Proof.
  apply keeps_searches_same. intros w. unfold Store.scan.
  by destruct (store_fault _ _).
Qed.

Lemma keeps_searches_put_paper env i : keeps searches_inv (Store.put_item env Papers i).
Proof.
  apply keeps_searches_same. intros w. unfold Store.put_item.
  destruct (store_fault _ _); [done|].
  by destruct (i !! key_attr Papers) as [[]|].
Qed.

Lemma keeps_searches_update_paper env key name v :
  keeps searches_inv (Store.update_item env Papers key name v).
Proof.
  apply keeps_searches_same. intros w. unfold Store.update_item.
  by destruct (store_fault _ _).
Qed.

Lemma search_record_search_item id q rs ts : search_record (search_item id q rs ts).
Proof.
  unfold search_record.
  destruct (search_item_lookup id q rs ts) as (-> & -> & -> & ->). eauto 10.
Qed.

Lemma keeps_searches_put_search env id q rs ts :
  keeps searches_inv (Store.put_item env Searches (search_item id q rs ts)).
Proof.
  intros w Hw. unfold Store.put_item.
  destruct (store_fault _ _); [done|].
  destruct (search_item_lookup id q rs ts) as (Hid & _).
  simpl. rewrite Hid. simpl. unfold searches_inv. simpl.
  apply map_Forall_insert_2; [|done].
  split; [done | apply search_record_search_item].
Qed.

Lemma keeps_searches_save_paper env title url summary :
  keeps searches_inv (save_paper env title url summary).
Proof.
  apply keeps_bind; [apply keeps_searches_datetime_now|].
  intros now. apply keeps_searches_put_paper.
Qed.

Lemma keeps_searches_get_paper env url : keeps searches_inv (get_paper env url).
Proof.
  apply keeps_try_except; [apply keeps_searches_get_item|].
  intros _. apply keeps_ret.
Qed.

Lemma keeps_searches_save_search env query results :
  keeps searches_inv (save_search env query results).
Proof.
  apply keeps_bind; [apply keeps_searches_datetime_now|]. intros now1.
  apply keeps_bind; [apply keeps_searches_datetime_now|]. intros now2.
  apply keeps_bind; [apply keeps_searches_put_search|]. intros _.
  apply keeps_ret.
Qed.

Lemma keeps_searches_search_loop env rs : ∀ acc,
  keeps searches_inv (search_loop env rs acc).
Proof.
  induction rs as [|r rs IH]; intros acc; simpl; [apply keeps_ret|].
  apply keeps_bind; [apply keeps_searches_save_paper|]. intros _. apply IH.
Qed.

Lemma keeps_searches_search_arxiv env query max_results :
  keeps searches_inv (search_arxiv env query max_results).
Proof.
  apply keeps_bind; [apply keeps_searches_search|]. intros resp.
  apply keeps_bind; [apply keeps_searches_search_loop|]. intros results.
  apply keeps_bind; [apply keeps_searches_save_search|]. intros _.
  apply keeps_ret.
Qed.

Lemma keeps_searches_summarize_paper env paper_url :
  keeps searches_inv (summarize_paper env paper_url).
Proof.
  apply keeps_searches_same. intros w. apply summarize_paper_tables.
Qed.

Lemma keeps_searches_get_search_history env limit :
  keeps searches_inv (get_search_history env limit).
Proof.
  apply keeps_try_except; [|intros _; apply keeps_ret].
  apply keeps_bind; [apply keeps_searches_scan|]. intros items.
  apply keeps_bind; [apply keeps_lift|]. intros sorted_items.
  apply keeps_lift.
Qed.

Lemma keeps_searches_get_saved_papers env limit :
  keeps searches_inv (get_saved_papers env limit).
Proof.
  apply keeps_try_except; [|intros _; apply keeps_ret].
  apply keeps_bind; [apply keeps_searches_scan|]. intros items.
  apply keeps_lift.
Qed.

Lemma keeps_searches_run_op env o w : searches_inv w → searches_inv (run_op env o w).
Proof.
  destruct o; simpl.
  - apply keeps_searches_save_paper.
  - apply keeps_searches_get_paper.
  - apply keeps_searches_save_search.
  - apply keeps_searches_search_arxiv.
  - apply keeps_searches_summarize_paper.
  - apply keeps_searches_get_search_history.
  - apply keeps_searches_get_saved_papers.
Qed.

Lemma keeps_searches_run_ops env ops : ∀ w,
  searches_inv w → searches_inv (run_ops env ops w).
Proof.
  induction ops as [|o ops IH]; intros w Hw; simpl; [done|].
  by apply IH, keeps_searches_run_op.
Qed.

Lemma search_record_listable i : search_record i → listable_search i.
Proof.
  intros ((id & Hid) & (q & Hq) & (rs & Hrs) & Hts).
  unfold listable_search. rewrite Hid, Hq, Hrs. split_and!; eauto.
Qed.

(** X19.  Every operation of the layer keeps the Searches table well formed:
    each record is stored under its own identifier and has a query, a
    result list and a string timestamp.  So on a store that only this layer
    has written, [get_search_history] never takes its error path when the
    scan succeeds: it returns the projection of every record of the page. *)
Theorem searches_table_invariant env :
  (∀ o w, searches_inv w → searches_inv (run_op env o w)) ∧
  (∀ ops, searches_inv (run_ops env ops empty_world)) ∧
  (∀ w n,
     searches_inv w →
     store_fault env (length (trace w)) = None →
     ∃ out, get_search_history env n w = (Ok out, logged (CScan Searches n) w) ∧
            out ≡ₚ search_projection <$> Store.scan_page env Searches n w).
Proof.
  split_and!.
  - intros o w. apply keeps_searches_run_op.
  - intros ops. apply keeps_searches_run_ops, map_Forall_empty.
  - intros w n Hinv Hf.
    destruct (get_search_history_listable env w n Hf) as (s & _ & _ & Hperm & _ & Hrun).
    { eapply Forall_impl; [apply (scan_page_stored env Searches)|].
      intros i (k & Hk). apply search_record_listable. by apply (Hinv k i Hk). }
    eexists. split; [exact Hrun|].
    rewrite Hperm. by rewrite decorated_page_projection.
Qed.

Lemma searches_table_invariant_witness :
  let w := run_ops sample_env
             [OpSearchArxiv "pruning" 2; OpSaveSearch "x" []; OpSummarizePaper "http://a"]
             empty_world in
  searches_inv w ∧
  ∃ out, get_search_history sample_env 5 w = (Ok out, logged (CScan Searches 5) w) ∧
         out ≡ₚ search_projection <$> Store.scan_page sample_env Searches 5 w.
Proof.
  intros w.
  destruct (searches_table_invariant sample_env) as (_ & Hreach & Hlist).
  split; [apply Hreach|].
  apply Hlist; [apply Hreach | reflexivity].
Defined.

(** ** Titles returned by [search_arxiv] *)

Lemma whitespace_text_snoc s :
  whitespace_text s → s ≠ "" → ∃ r cp, python_whitespace cp ∧ s = r +:+ utf8 cp.
Proof.
  induction 1 as [|cp s Hcp Hs IH]; [done|]. intros _.
  destruct (decide (s = "")) as [->|Hne].
  - exists "", cp. split; [done|]. by rewrite string_app_nil_r.
  - destruct (IH Hne) as (r & cp' & Hcp' & ->).
    exists (utf8 cp +:+ r), cp'. split; [done|]. by rewrite string_app_assoc.
Qed.

(** A text with no whitespace character at either end is left as it is. *)
Lemma strip_trimmed s : trimmed s → strip s = s.
Proof.
  intros Ht. destruct (strip_spec s) as (_ & pre & post & Hs & Hpre & Hpost).
  destruct Hpre as [|cp pre' Hcp Hpre'].
  - rewrite string_app_nil_l in Hs.
    destruct (decide (post = "")) as [->|Hne].
    + by rewrite string_app_nil_r in Hs.
    + destruct (whitespace_text_snoc post Hpost Hne) as (r & cp & Hcp & ->).
      destruct (Ht cp Hcp) as [_ Hr]. exfalso. apply (Hr (strip s +:+ r)).
      etrans; [exact Hs | symmetry; apply string_app_assoc].
  - destruct (Ht cp Hcp) as [Hl _]. exfalso.
    apply (Hl (pre' +:+ strip s +:+ post)).
    etrans; [exact Hs | apply string_app_assoc].
Qed.

Lemma search_loop_returns env rs : ∀ acc w out w',
  search_loop env rs acc w = (Ok out, w') → out = acc ++ (trimmed_result <$> rs).
Proof.
  induction rs as [|r rs IH]; intros acc w out w'; simpl.
  - intros [= <- <-]. by rewrite app_nil_r.
  - unfold bind at 1. destruct (save_paper _ _ _ _ _) as [[[]|e] w1]; [|done].
    intros H%IH. by rewrite H, <-app_assoc.
Qed.

(** X20.  Whenever [search_arxiv] returns, whatever the store did, its list
    has one entry per result of the provider, in order, with the url of that
    result and its title stripped of Python's whitespace, Unicode
    whitespace included: the title of the provider is the returned title
    between two runs of whitespace characters, the returned title neither
    starts nor ends with one, and stripping it again changes nothing. *)
Theorem search_arxiv_titles_stripped env w query max_results out w' :
  search_arxiv env query max_results w = (Ok out, w') →
  ∃ resp,
    tavily_search env (length (trace w)) ("site:arxiv.org " +:+ query) max_results
      = Ok resp ∧
    out = trimmed_result <$> default [] (resp_results resp) ∧
    Forall2 (λ r p, pd_url p = tr_url r ∧ trimmed (pd_title p) ∧
                    strip (pd_title p) = pd_title p ∧
                    ∃ pre post, tr_title r = pre +:+ pd_title p +:+ post ∧
                                whitespace_text pre ∧ whitespace_text post)
            (default [] (resp_results resp)) out.
Proof.
  unfold search_arxiv, bind at 1, Store.search.
  destruct (tavily_search _ _ _ _) as [resp|e]; [|done].
  unfold bind at 1.
  destruct (search_loop _ _ _ _) as [[results|e] w1] eqn:Hloop; [|done].
  apply search_loop_returns in Hloop. simpl in Hloop. subst results.
  unfold bind. destruct (save_search _ _ _ _) as [[id|e] w2]; [|done].
  intros [= <- <-]. exists resp. split; [done|]. split; [done|].
  generalize (default [] (resp_results resp)). clear.
  intros rs. induction rs as [|r rs IH]; simpl; constructor; [|done].
  simpl. destruct (strip_spec (tr_title r)) as [Ht Hd].
  split_and!; [done | done | by apply strip_trimmed | done].
Qed.

Lemma search_arxiv_titles_stripped_witness :
  let out := [PaperData "Paper A" "http://a"] in
  (search_arxiv unicode_env "pruning" 2 empty_world).1 = Ok out ∧
  Forall2 (λ r p, pd_url p = tr_url r ∧ trimmed (pd_title p) ∧
                  strip (pd_title p) = pd_title p ∧
                  ∃ pre post, tr_title r = pre +:+ pd_title p +:+ post ∧
                              whitespace_text pre ∧ whitespace_text post)
          [TavilyResult (utf8 160 +:+ "Paper A" +:+ utf8 8195 +:+ utf8 10) "http://a"]
          out.
Proof.
  intros out.
  assert (Hrun : search_arxiv unicode_env "pruning" 2 empty_world
                 = (Ok out, (search_arxiv unicode_env "pruning" 2 empty_world).2)).
  { vm_compute. reflexivity. }
  split; [by rewrite Hrun|].
  destruct (search_arxiv_titles_stripped unicode_env empty_world "pruning" 2
              out _ Hrun) as (resp & Hresp & _ & Hall).
  injection Hresp as <-. exact Hall.
Defined.

(** ** The prompt template *)

Lemma string_length_app s t :
  String.length (s +:+ t) = (String.length s + String.length t)%nat.
Proof.
  induction s as [|c s IH]; [done|].
  rewrite string_app_cons. simpl. by rewrite IH.
Qed.

Lemma string_app_inj_r x s1 : ∀ s2, s1 +:+ x = s2 +:+ x → s1 = s2.
Proof.
  induction s1 as [|c s1 IH]; intros [|c' s2] H.
  - done.
  - apply (f_equal String.length) in H.
    rewrite !string_length_app in H. simpl in H. lia.
  - apply (f_equal String.length) in H.
    rewrite !string_length_app in H. simpl in H. lia.
  - rewrite !string_app_cons in H. injection H as -> H. by rewrite (IH s2).
Qed.

(** X21.  [explore_topic_prompt] inserts the topic unchanged between fixed
    text, so the prompt determines the topic: two topics give the same
    prompt only when they are equal. *)
Theorem explore_topic_prompt_injective t1 t2 :
  explore_topic_prompt t1 = explore_topic_prompt t2 → t1 = t2.
Proof.
  unfold explore_topic_prompt. intros H.
  apply (inj (String.app _)) in H. by apply string_app_inj_r in H.
Qed.

Lemma explore_topic_prompt_injective_witness :
  explore_topic_prompt "AI Safety" = explore_topic_prompt ("AI " +:+ "Safety") ∧
  "AI Safety" = "AI " +:+ "Safety".
Proof.
  split; [reflexivity|].
  exact (explore_topic_prompt_injective "AI Safety" ("AI " +:+ "Safety") eq_refl).
Defined.

(** ** Records are never deleted *)

Lemma keeps_has_key_logged {A} t key (m : M A) :
  (∀ w, get_table t (m w).2 = get_table t w) → keeps (has_key t key) m.
Proof. intros Hsame w Hw. unfold has_key. by rewrite Hsame. Qed.

Lemma keeps_has_key_datetime_now env t key :
  keeps (has_key t key) (Store.datetime_now env).
Proof. apply keeps_has_key_logged. intros w. by destruct t. Qed.

Lemma keeps_has_key_search env t key q n :
  keeps (has_key t key) (Store.search env q n).
Proof. apply keeps_has_key_logged. intros w. by destruct t. Qed.

Lemma keeps_has_key_qna_search env t key q :
  keeps (has_key t key) (Store.qna_search env q).
Proof. apply keeps_has_key_logged. intros w. by destruct t. Qed.

Lemma keeps_has_key_get_item env t key t' key' :
  keeps (has_key t key) (Store.get_item env t' key').
Proof.
  apply keeps_has_key_logged. intros w. unfold Store.get_item.
  destruct (store_fault _ _); by destruct t.
Qed.

Lemma keeps_has_key_scan env t key t' limit :
  keeps (has_key t key) (Store.scan env t' limit).
Proof.
  apply keeps_has_key_logged. intros w. unfold Store.scan.
  destruct (store_fault _ _); by destruct t.
Qed.

Lemma keeps_has_key_put_item env t key t' i :
  keeps (has_key t key) (Store.put_item env t' i).
Proof.
  intros w Hw. unfold Store.put_item, has_key in *.
  destruct (store_fault _ _); [by destruct t|].
  destruct (i !! key_attr t') as [[|k|]|]; try by destruct t.
  destruct t, t'; simpl in *; try done; by apply lookup_insert_is_Some'; right.
Qed.

Lemma keeps_has_key_update_item env t key t' key' name v :
  keeps (has_key t key) (Store.update_item env t' key' name v).
Proof.
  intros w Hw. unfold Store.update_item, has_key in *.
  destruct (store_fault _ _); [by destruct t|].
  destruct t, t'; simpl in *; try done; by apply lookup_insert_is_Some'; right.
Qed.

Lemma keeps_has_key_save_paper env t key title url summary :
  keeps (has_key t key) (save_paper env title url summary).
Proof.
  apply keeps_bind; [apply keeps_has_key_datetime_now|].
  intros now. apply keeps_has_key_put_item.
Qed.

Lemma keeps_has_key_get_paper env t key url :
  keeps (has_key t key) (get_paper env url).
Proof.
  apply keeps_try_except; [apply keeps_has_key_get_item|].
  intros _. apply keeps_ret.
Qed.

Lemma keeps_has_key_save_search env t key query results :
  keeps (has_key t key) (save_search env query results).
Proof.
  apply keeps_bind; [apply keeps_has_key_datetime_now|]. intros now1.
  apply keeps_bind; [apply keeps_has_key_datetime_now|]. intros now2.
  apply keeps_bind; [apply keeps_has_key_put_item|]. intros _.
  apply keeps_ret.
Qed.

Lemma keeps_has_key_search_loop env t key rs : ∀ acc,
  keeps (has_key t key) (search_loop env rs acc).
Proof.
  induction rs as [|r rs IH]; intros acc; simpl; [apply keeps_ret|].
  apply keeps_bind; [apply keeps_has_key_save_paper|]. intros _. apply IH.
Qed.

Lemma keeps_has_key_search_arxiv env t key query max_results :
  keeps (has_key t key) (search_arxiv env query max_results).
Proof.
  apply keeps_bind; [apply keeps_has_key_search|]. intros resp.
  apply keeps_bind; [apply keeps_has_key_search_loop|]. intros results.
  apply keeps_bind; [apply keeps_has_key_save_search|]. intros _.
  apply keeps_ret.
Qed.

Lemma keeps_has_key_summarize_paper env t key paper_url :
  keeps (has_key t key) (summarize_paper env paper_url).
Proof.
  apply keeps_bind; [apply keeps_has_key_get_paper|]. intros cached_paper.
  destruct (cached_summary cached_paper); [apply keeps_ret|].
  apply keeps_bind; [apply keeps_has_key_qna_search|]. intros summary.
  apply keeps_bind; [|intros _; apply keeps_ret].
  unfold attach_summary. destruct (found cached_paper).
  - apply keeps_has_key_update_item.
  - apply keeps_has_key_save_paper.
Qed.

Lemma keeps_has_key_get_search_history env t key limit :
  keeps (has_key t key) (get_search_history env limit).
Proof.
  apply keeps_try_except; [|intros _; apply keeps_ret].
  apply keeps_bind; [apply keeps_has_key_scan|]. intros items.
  apply keeps_bind; [apply keeps_lift|]. intros sorted_items.
  apply keeps_lift.
Qed.

Lemma keeps_has_key_get_saved_papers env t key limit :
  keeps (has_key t key) (get_saved_papers env limit).
Proof.
  apply keeps_try_except; [|intros _; apply keeps_ret].
  apply keeps_bind; [apply keeps_has_key_scan|]. intros items.
  apply keeps_lift.
Qed.

Lemma keeps_has_key_run_op env t key o w :
  has_key t key w → has_key t key (run_op env o w).
Proof.
  destruct o; simpl.
  - apply keeps_has_key_save_paper.
  - apply keeps_has_key_get_paper.
  - apply keeps_has_key_save_search.
  - apply keeps_has_key_search_arxiv.
  - apply keeps_has_key_summarize_paper.
  - apply keeps_has_key_get_search_history.
  - apply keeps_has_key_get_saved_papers.
Qed.

(** X22.  No operation of the layer deletes a record: a url that has a Paper
    record, or an identifier that has a Search record, still has one after
    any sequence of operations, whether they return or raise. *)
Theorem records_never_deleted env t key ops w :
  has_key t key w → has_key t key (run_ops env ops w).
Proof.
  revert w. induction ops as [|o ops IH]; intros w Hw; simpl; [done|].
  by apply IH, keeps_has_key_run_op.
Qed.

Lemma records_never_deleted_witness :
  has_key Papers "http://a" stale_world ∧
  has_key Papers "http://a"
    (run_ops (flaky_env 4)
       [OpSearchArxiv "pruning" 2; OpSummarizePaper "http://a"; OpGetSavedPapers 1]
       stale_world).
Proof.
  assert (H : has_key Papers "http://a" stale_world) by (by eexists).
  split; [exact H|].
  exact (records_never_deleted (flaky_env 4) Papers "http://a" _ stale_world H).
Defined.
